(** * custom-captcha: the server side of the sliding-puzzle captcha

    A shallow embedding of [src/server/index.ts]: [createCaptcha],
    [getCaptchaImage], [verifyCaptcha] and [hasCaptchaBeenVerified], and
    of the state and the handlers of the component of
    [src/client/index.tsx].

    Conventions of the embedding.

    - A JavaScript string is a [string]; every [ascii] stands for one
      UTF-16 code unit below 256.
    - A JavaScript number is a binary64 number.  The numbers the
      verifier computes with are integers, an infinity or NaN
      ([number]): [parseInt] and the subtraction round the exact integer
      to 53 significant bits, to nearest with ties to even, and
      overflow to an infinity from 2^1024 on.  A tolerance is taken to
      be one of these numbers too.
    - The value of [Math.random()] is a binary64 number in [0, 1).  Every
      such number is an integer multiple of 2^-1074 whose significand has
      at most 53 bits; it is represented by that integer multiple, and
      the product with an integer constant is rounded in the same way.
    - An [async] function is a state transformer over a [world]: the
      state of the collaborators (storage, network, file system) and the
      log of the calls made to them.  It ends with a value or with a
      thrown exception.  [createCaptcha] keeps promises that it awaits
      later; the promise of the extraction has no handler while the
      function waits for the black square, and a rejection that nothing
      handles can end the process, so that a call of [createCaptcha]
      ends with a value, with a thrown exception, or with the process.
      Whether the process ends is the host's decision and a field of
      the platform.  The constructor [sharp(_image)] makes no call of
      its own and is not logged; it can throw. *)

From Stdlib Require Import ZArith String Ascii List Lia Bool DecimalString.
From stdpp Require Import gmap strings.

Open Scope string_scope.
Open Scope Z_scope.

(** ** Numbers *)

Inductive number : Type :=
  | Num (z : Z)
  | Infinity (negative : bool)
  | NaN.

(** Rounding of a non-negative integer (or of a non-negative multiple
    of 2^-1074) to 53 significant bits: to nearest, ties to even. *)
Definition round53 (x : Z) : Z :=
  let s := Z.log2 x - 52 in
  if s <=? 0 then x
  else
    let q := x / 2 ^ s in
    let r := x mod 2 ^ s in
    let half := 2 ^ (s - 1) in
    let up := (half <? r) || ((r =? half) && Z.odd q) in
    (if up then q + 1 else q) * 2 ^ s.

(** The number nearest to the integer [z]. *)
Definition to_number (z : Z) : number :=
  let r := round53 (Z.abs z) in
  if r <? 2 ^ 1024 then Num (Z.sgn z * r) else Infinity (z <? 0).

Definition isNaN (n : number) : bool :=
  match n with
  | NaN => true
  | Num _ | Infinity _ => false
  end.

(** [a - b] *)
Definition num_sub (a b : number) : number :=
  match a, b with
  | Num x, Num y => to_number (x - y)
  | Num _, Infinity n => Infinity (negb n)
  | Infinity m, Num _ => Infinity m
  | Infinity m, Infinity n => if Bool.eqb m n then NaN else Infinity m
  | NaN, _ | _, NaN => NaN
  end.

Definition Math_abs (a : number) : number :=
  match a with
  | Num x => Num (Z.abs x)
  | Infinity _ => Infinity false
  | NaN => NaN
  end.

(** [a <= b]: false as soon as one side is NaN. *)
Definition num_le (a b : number) : bool :=
  match a, b with
  | Num x, Num y => x <=? y
  | Num _, Infinity n => negb n
  | Infinity m, Num _ => m
  | Infinity m, Infinity n => m || negb n
  | NaN, _ | _, NaN => false
  end.

(** Truthiness of a number: [0] and [NaN] are falsy. *)
Definition num_truthy (a : number) : bool :=
  match a with
  | Num x => negb (x =? 0)
  | Infinity _ => true
  | NaN => false
  end.

(** Truthiness of a string: only the empty string is falsy. *)
Definition str_truthy (s : string) : bool :=
  match s with
  | EmptyString => false
  | String _ _ => true
  end.

(** [x || d] for an optional number, an optional string ([None] is
    [undefined] or [null]). *)
Definition num_or (x : option number) (d : number) : number :=
  match x with
  | Some n => if num_truthy n then n else d
  | None => d
  end.

Definition truthy (x : option string) : bool :=
  match x with
  | Some s => str_truthy s
  | None => false
  end.

Definition str_or (x : option string) (d : string) : string :=
  match x with
  | Some s => if str_truthy s then s else d
  | None => d
  end.

(** ** [parseInt(s, 10)] and [Number.prototype.toString] *)

(** White space and line terminators among the code units below 256:
    TAB, LF, VT, FF, CR, SP and NBSP. *)
Definition is_whitespace (a : ascii) : bool :=
  let n := Z.of_N (N_of_ascii a) in
  ((9 <=? n) && (n <=? 13)) || (n =? 32) || (n =? 160).

Definition digit_value (a : ascii) : option Z :=
  let n := Z.of_N (N_of_ascii a) in
  if (48 <=? n) && (n <=? 57) then Some (n - 48) else None.

Fixpoint trim_start (s : string) : string :=
  match s with
  | EmptyString => EmptyString
  | String a t => if is_whitespace a then trim_start t else s
  end.

(** The values of the longest prefix of [s] made of decimal digits. *)
Fixpoint digits_prefix (s : string) : list Z :=
  match s with
  | EmptyString => []
  | String a t =>
      match digit_value a with
      | Some d => d :: digits_prefix t
      | None => []
      end
  end.

(** The integer a list of decimal digits denotes, most significant first. *)
Definition mathInt (ds : list Z) : Z :=
  fold_left (fun acc d => 10 * acc + d) ds 0.

(** [parseInt(s, 10)]: leading white space is skipped, a sign is read,
    then the longest run of decimal digits; with no digit the result is
    NaN, otherwise the number nearest to the integer read (an engine
    may approximate a run of more than 20 significant digits; here it
    is rounded as every other number). *)
Definition parseInt (s : string) : number :=
  let s1 := trim_start s in
  let '(sign, s2) :=
    match s1 with
    | String "-" t => (-1, t)
    | String "+" t => (1, t)
    | _ => (1, s1)
    end in
  match digits_prefix s2 with
  | [] => NaN
  | ds => to_number (sign * mathInt ds)
  end.

(** [n.toString()] for an integer [n] (below 10^21 in magnitude). *)
Definition toString (n : Z) : string :=
  NilZero.string_of_int (Z.to_int n).

(** ** [Math.random()] and the arithmetic applied to it *)

(** A binary64 number in [0, 1) is [m * 2^-1074] for the integer [m]. *)
Definition unit_exp : Z := 1074.

(** [x] has at most 53 significant bits. *)
Definition fits53 (x : Z) : bool :=
  x mod 2 ^ Z.max 0 (Z.log2 x - 52) =? 0.

Definition is_random (m : Z) : Prop :=
  0 <= m < 2 ^ unit_exp /\ fits53 m = true.

(** [r * k] for the random draw [r] and an integer constant [k]. *)
Definition fmul (m k : Z) : Z := round53 (m * k).

(** [Math.floor(x)], an integer. *)
Definition Math_floor (x : Z) : Z := x / 2 ^ unit_exp.

(** [Math.max(a, b)] on integers. *)
Definition Math_max (a b : Z) : Z := Z.max a b.

(** [Math.max(55, Math.floor(Math.random() * 249))], for the draw [m]. *)
Definition sliderOffset (m : Z) : Z :=
  Math_max 55 (Math_floor (fmul m 249)).

(** ** Exceptions, outcomes and asynchronous functions *)

(** A thrown value: an [Error] with its message, or anything else. *)
Inductive exn : Type :=
  | ErrorExn (message : string)
  | OtherExn.

(** [error instanceof Error ? error.message : "Unknown error"] *)
Definition error_message (e : exn) : string :=
  match e with
  | ErrorExn m => m
  | OtherExn => "Unknown error"
  end.

Inductive outcome (A : Type) : Type :=
  | Ret (a : A)
  | Throw (e : exn).

Arguments Ret {A} a.
Arguments Throw {A} e.

Definition Buffer : Type := list Byte.byte.

(** The option objects handed to the image library. *)
Inductive Region : Type :=
  | mkRegion (left top width height : Z).

Inductive Overlay : Type :=
  | mkOverlay (input : Buffer) (top left : Z) (blend : string).

Inductive Create : Type :=
  | mkCreate (width height channels : Z) (r g b : Z).

(** The calls a server function makes to its collaborators. *)
Inductive call : Type :=
  | StoreCaptchaId (id value : string)
  | GetCaptchaValue (id : string)
  | ChangeCaptchaIdOnSuccess (id value : string)
  | SharpExtract (rg : Region) (quality : Z)
  | SharpCreate (c : Create) (quality : Z)
  | SharpComposite (ov : Overlay) (quality : Z)
  | Fetch (url : string)
  | ArrayBuffer (url : string)
  | ReadFileSync (path : string).

(** What a collaborator does when called: it may change the state [S]
    it owns and it returns or throws. *)
Definition Ext (S A : Type) : Type := S -> outcome A * S.

Record world (S : Type) : Type := mkWorld {
  ext : S;
  calls : list call
}.

Arguments mkWorld {S} ext calls.
Arguments ext {S} w.
Arguments calls {S} w.

Definition Async (S A : Type) : Type := world S -> outcome A * world S.

#[global] Instance Async_ret {S} : MRet (Async S) :=
  fun A (a : A) w => (Ret a, w).

#[global] Instance Async_bind {S} : MBind (Async S) :=
  fun A B (k : A -> Async S B) (m : Async S A) w =>
    match m w with
    | (Ret a, w') => k a w'
    | (Throw e, w') => (Throw e, w')
    end.

Definition throw {S A} (e : exn) : Async S A :=
  fun w => (Throw e, w).

(** [try { body } catch (error) { handler }] *)
Definition try_catch {S A} (body : Async S A) (handler : exn -> Async S A)
  : Async S A :=
  fun w =>
    match body w with
    | (Ret a, w') => (Ret a, w')
    | (Throw e, w') => handler e w'
    end.

(** A call to a collaborator, awaited on the spot and recorded. *)
Definition invoke {S A} (c : call) (f : Ext S A) : Async S A :=
  fun w =>
    let '(r, s') := f (ext w) in
    (r, mkWorld s' (calls w ++ [c])).

(** How a call of an async function ends for the process: the promise
    it returned settles, or the process ends before it does, on a
    rejection that nothing handles. A settled promise is read as a
    [completion] where one is expected. *)
Inductive completion (A : Type) : Type :=
  | Settles (r : outcome A)
  | ProcessEnds (e : exn).

Arguments Settles {A} r.
Arguments ProcessEnds {A} e.

Coercion Settles : outcome >-> completion.

(** The coercion applies to the first component of a pair as well. *)
#[local] Arguments pair {A B} & a b.

(** An async function that keeps promises it does not await at once. *)
Definition Task (S A : Type) : Type := world S -> completion A * world S.

#[global] Instance Task_ret {S} : MRet (Task S) :=
  fun A (a : A) w => (Settles (Ret a), w).

#[global] Instance Task_bind {S} : MBind (Task S) :=
  fun A B (k : A -> Task S B) (m : Task S A) w =>
    match m w with
    | (Settles (Ret a), w') => k a w'
    | (Settles (Throw e), w') => (Settles (Throw e), w')
    | (ProcessEnds e, w') => (ProcessEnds e, w')
    end.

(** An async function without such promises, run inside one that has
    them. *)
Definition lift {S A} (m : Async S A) : Task S A :=
  fun w =>
    let '(r, w') := m w in
    (Settles r, w').

(** A call whose promise is kept for later: it runs, and how it settles
    is a value. *)
Definition start {S A} (c : call) (f : Ext S A) : Task S (outcome A) :=
  fun w =>
    let '(r, s') := f (ext w) in
    (Settles (Ret r), mkWorld s' (calls w ++ [c])).

(** [await] of a promise started before, and the evaluation of an
    expression that can throw. *)
Definition settle {S A} (r : outcome A) : Task S A :=
  fun w => (Settles r, w).

(** A call that computes and touches no state. *)
Definition pure_call {S A} (r : outcome A) : Ext S A :=
  fun s => (r, s).

(** ** The interfaces of [src/server/index.ts] *)

Definition ON_VERIFY_CAPTCHA_VALUE : string := "verified".

Module CreateCaptchaProps.
Record t (S : Type) : Type := mk {
  image : option Buffer;
  captchaId : option string;
  fallbackImgPath : option string;
  storeCaptchaId : string -> string -> Ext S unit
}.
Arguments mk {S}.
Arguments image {S}.
Arguments captchaId {S}.
Arguments fallbackImgPath {S}.
Arguments storeCaptchaId {S}.
End CreateCaptchaProps.

Record CaptchaData : Type := mkCaptchaData {
  puzzle : string;
  background : string;
  id : string
}.

Record VerificationResult : Type := mkResult {
  success : bool;
  reason : option string
}.

Module VerifyCaptchaProps.
Record t (S : Type) : Type := mk {
  captchaId : string;
  value : string;
  getCaptchaValue : string -> Ext S (option string);
  changeCaptchaIdOnSuccess : string -> string -> Ext S unit;
  tolerance : option number
}.
Arguments mk {S}.
Arguments captchaId {S}.
Arguments value {S}.
Arguments getCaptchaValue {S}.
Arguments changeCaptchaIdOnSuccess {S}.
Arguments tolerance {S}.
End VerifyCaptchaProps.

(** What [fetch] resolves to: the [ok] flag and the [arrayBuffer()]
    method. *)
Record Response (S : Type) : Type := mkResponse {
  ok : bool;
  arrayBuffer : Ext S Buffer
}.

Arguments mkResponse {S}.
Arguments ok {S}.
Arguments arrayBuffer {S}.

(** An instance of the image library, made from a picture. *)
Inductive Sharp : Type :=
  | mkSharp (input : Buffer).

(** The modules the server imports: [sharp], [fs], [fetch] and the
    base64 encoding of a [Buffer]; and the host the server runs on. *)
Class Platform (S : Type) : Type := {
  (** [sharp(img)]: the constructor returns an instance, or throws on
      the spot at a picture it refuses (an empty [Buffer]). *)
  sharp : Buffer -> outcome Sharp;
  (** [inst.clone().extract(rg).jpeg({quality}).toBuffer()] *)
  extract_jpeg : Sharp -> Region -> Z -> outcome Buffer;
  (** [sharp({create}).jpeg({quality}).toBuffer()] *)
  sharp_create : Create -> Z -> outcome Buffer;
  (** [inst.composite([ov]).blur().jpeg({quality}).toBuffer()] *)
  composite_blur_jpeg : Sharp -> Overlay -> Z -> outcome Buffer;
  (** [buf.toString("base64")] *)
  base64 : Buffer -> string;
  fetch : string -> Ext S (Response S);
  fs_existsSync : string -> S -> bool;
  fs_readFileSync : string -> Ext S Buffer;
  (** Whether a promise that is rejected with [e] while the function
      that keeps it is suspended, with no handler attached to it, ends
      the process. Node ends it by default; the process goes on when a
      listener of the event or the option [--unhandled-rejections]
      says so, and a rejection that only comes once a handler is
      attached ends nothing. *)
  unhandled_rejection_ends_process : exn -> bool
}.

(** [sharp(img).clone().extract(rg).jpeg({quality}).toBuffer()] and
    [sharp(img).composite([ov]).blur().jpeg({quality}).toBuffer()], from
    the picture: they give a picture when the constructor accepts [img]
    and the operation on the instance gives it. *)
Definition sharp_extract {S} `{Platform S} (img : Buffer) (rg : Region)
    (quality : Z) : outcome Buffer :=
  match sharp img with
  | Ret inst => extract_jpeg inst rg quality
  | Throw e => Throw e
  end.

Definition sharp_composite {S} `{Platform S} (img : Buffer) (ov : Overlay)
    (quality : Z) : outcome Buffer :=
  match sharp img with
  | Ret inst => composite_blur_jpeg inst ov quality
  | Throw e => Throw e
  end.

(** What [Math.random()] and [randomUUID()] return when they are called:
    the draw of the slider position, the identifier, the draw of the
    picture. *)
Record Draws : Type := mkDraws {
  draw_offset : Z;
  draw_uuid : string;
  draw_image : Z
}.

(** ** The server functions *)

Section Server.
Context {S : Type} `{Platform S}.

(** [fallbackImgPath && fs.existsSync(fallbackImgPath)]: the path when
    the test holds. *)
Definition fallback_exists (fallbackImgPath : option string)
  : Async S (option string) :=
  fun w =>
    match fallbackImgPath with
    | Some p =>
        if str_truthy p && fs_existsSync p (ext w)
        then (Ret (Some p), w)
        else (Ret None, w)
    | None => (Ret None, w)
    end.

Definition read_fallback (p : string) : Async S (option Buffer) :=
  buf ← invoke (ReadFileSync p) (fs_readFileSync p);
  mret (Some buf).

Definition getCaptchaImage (fallbackImgPath : option string) (m : Z)
  : Async S (option Buffer) :=
  try_catch
    (let imageId := Math_floor (fmul m 500) in
     let imageUrl :=
       "https://picsum.photos/id/" ++ toString imageId ++ "/300/200" in
     response ← invoke (Fetch imageUrl) (fetch imageUrl);
     if ok response then
       buf ← invoke (ArrayBuffer imageUrl) (arrayBuffer response);
       mret (Some buf)
     else
       fallback ← fallback_exists fallbackImgPath;
       match fallback with
       | Some p => read_fallback p
       | None => mret None
       end)
    (fun error =>
       fallback ← fallback_exists fallbackImgPath;
       match fallback with
       | Some p =>
           try_catch (read_fallback p)
             (fun fallbackError =>
                throw (ErrorExn
                  ("Failed to fetch image from API and fallback: "
                   ++ error_message fallbackError)))
       | None =>
           throw (ErrorExn
             ("Failed to fetch captcha image: " ++ error_message error))
       end).

(** A promise that nothing handles while the function is suspended:
    when it is rejected, the host decides whether the process goes on. *)
Definition unhandled {A} (p : outcome A) : Task S unit :=
  fun w =>
    match p with
    | Ret _ => (Settles (Ret tt), w)
    | Throw e =>
        if unhandled_rejection_ends_process e
        then (ProcessEnds e, w)
        else (Settles (Ret tt), w)
    end.

(** The promise of the extraction is made first and handled last, by
    [Promise.all]: while [createCaptcha] waits for the black square
    nothing handles it. Of the promises handed to [Promise.all], the
    calls are made in the order of the array; when several reject, the
    embedding reports the first of them in that order. *)
Definition createCaptcha (props : CreateCaptchaProps.t S) (d : Draws)
  : Task S CaptchaData :=
  let sliderOffset := sliderOffset (draw_offset d) in
  let _captchaId :=
    str_or (CreateCaptchaProps.captchaId props) (draw_uuid d) in
  _image ←
    lift match CreateCaptchaProps.image props with
         | Some img => mret (Some img)
         | None =>
             getCaptchaImage (CreateCaptchaProps.fallbackImgPath props)
               (draw_image d)
         end;
  match _image with
  | None => lift (throw (ErrorExn "Failed to obtain captcha image"))
  | Some _image =>
      originalImage ← settle (sharp _image);
      let rg := mkRegion sliderOffset 75 50 50 in
      p1 ← start (SharpExtract rg 30)
             (pure_call (extract_jpeg originalImage rg 30));
      let cr := mkCreate 50 50 3 0 0 0 in
      square ← start (SharpCreate cr 50) (pure_call (sharp_create cr 50));
      unhandled p1;;
      black ← settle square;
      let ov := mkOverlay black 75 sliderOffset "over" in
      p2 ← start (SharpComposite ov 30)
             (pure_call (composite_blur_jpeg originalImage ov 30));
      p3 ← start (StoreCaptchaId _captchaId (toString sliderOffset))
             (CreateCaptchaProps.storeCaptchaId props _captchaId
                (toString sliderOffset));
      puzzlePieceBuffer ← settle p1;
      composedImage ← settle p2;
      _ ← settle p3;
      mret {| puzzle := "data:image/jpeg;base64," ++ base64 puzzlePieceBuffer;
              background := "data:image/jpeg;base64," ++ base64 composedImage;
              id := _captchaId |}
  end.

(** The body of the [try] block of [verifyCaptcha]. *)
Definition verifyCaptcha_try (props : VerifyCaptchaProps.t S)
  : Async S VerificationResult :=
  let captchaId := VerifyCaptchaProps.captchaId props in
  let value := VerifyCaptchaProps.value props in
  let tolerance := VerifyCaptchaProps.tolerance props in
  storedValue ← invoke (GetCaptchaValue captchaId)
                  (VerifyCaptchaProps.getCaptchaValue props captchaId);
  if negb (truthy storedValue) then
    mret {| success := false;
            reason := Some "Captcha not found or has expired" |}
  else
    let storedValue := default "" storedValue in
    if String.eqb storedValue ON_VERIFY_CAPTCHA_VALUE then
      mret {| success := true; reason := None |}
    else
      let userPosition := parseInt value in
      let correctPosition := parseInt storedValue in
      if isNaN userPosition || isNaN correctPosition then
        mret {| success := false;
                reason := Some "Invalid position values" |}
      else
        let _tolerance := num_or tolerance (Num 10) in
        let isCorrect :=
          num_le (Math_abs (num_sub correctPosition userPosition))
            _tolerance in
        if isCorrect then
          _ ← invoke (ChangeCaptchaIdOnSuccess captchaId
                        ON_VERIFY_CAPTCHA_VALUE)
                (VerifyCaptchaProps.changeCaptchaIdOnSuccess props
                   captchaId ON_VERIFY_CAPTCHA_VALUE);
          mret {| success := true; reason := None |}
        else
          mret {| success := false;
                  reason :=
                    Some "Please position the puzzle piece correctly" |}.

Definition verifyCaptcha (props : VerifyCaptchaProps.t S)
  : Async S VerificationResult :=
  try_catch (verifyCaptcha_try props)
    (fun error =>
       mret {| success := false;
               reason :=
                 Some ("Verification error: " ++ error_message error) |}).

Definition hasCaptchaBeenVerified (value : string) : Async S bool :=
  mret (String.eqb value ON_VERIFY_CAPTCHA_VALUE).

End Server.

(** ** The client component, [src/client/index.tsx]

    The component holds five [useState] cells and three handlers.  A
    handler reads the cells as they are when the event arrives, and its
    [set...] calls write them; it talks to the application through the
    two functions of its props.  Events are handled one at a time: no
    other event arrives while a handler waits for a promise.  The slider
    is a range input, so its value is an integer. *)

(** What the [verifyCaptcha] prop resolves to: [{success?, error?}]. *)
Record VerifyResponse : Type := mkVerifyResponse {
  res_success : option bool;
  res_error : option string
}.

Module CustomCaptchaProps.
Record t (S : Type) : Type := mk {
  loading : bool;
  refreshCaptcha : Ext S CaptchaData;
  verifyCaptcha : string -> string -> Ext S VerifyResponse
}.
Arguments mk {S}.
Arguments loading {S}.
Arguments refreshCaptcha {S}.
Arguments verifyCaptcha {S}.
End CustomCaptchaProps.

Record ClientState : Type := mkClientState {
  correct : bool;
  captcha : option CaptchaData;
  sliderValue : Z;
  captchaOpen : bool;
  error : option string
}.

(** [useState(false)], [useState(null)], [useState(0)], [useState(false)],
    [useState(null)]. *)
Definition initial_state : ClientState :=
  {| correct := false; captcha := None; sliderValue := 0;
     captchaOpen := false; error := None |}.

Definition setCorrect (b : bool) (st : ClientState) : ClientState :=
  {| correct := b; captcha := captcha st; sliderValue := sliderValue st;
     captchaOpen := captchaOpen st; error := error st |}.

Definition setCaptcha (c : option CaptchaData) (st : ClientState)
  : ClientState :=
  {| correct := correct st; captcha := c; sliderValue := sliderValue st;
     captchaOpen := captchaOpen st; error := error st |}.

Definition setSliderValue (v : Z) (st : ClientState) : ClientState :=
  {| correct := correct st; captcha := captcha st; sliderValue := v;
     captchaOpen := captchaOpen st; error := error st |}.

Definition setCaptchaOpen (b : bool) (st : ClientState) : ClientState :=
  {| correct := correct st; captcha := captcha st;
     sliderValue := sliderValue st; captchaOpen := b; error := error st |}.

Definition setError (e : option string) (st : ClientState) : ClientState :=
  {| correct := correct st; captcha := captcha st;
     sliderValue := sliderValue st; captchaOpen := captchaOpen st;
     error := e |}.

(** The calls of the component to the functions of its props. *)
Inductive ui_call : Type :=
  | RefreshCaptcha
  | VerifyCaptcha (id value : string).

Record ui_world (S : Type) : Type := mkUi {
  ui_state : ClientState;
  ui_ext : S;
  ui_calls : list ui_call
}.

Arguments mkUi {S} ui_state ui_ext ui_calls.
Arguments ui_state {S}.
Arguments ui_ext {S}.
Arguments ui_calls {S}.

Definition UI (S A : Type) : Type := ui_world S -> outcome A * ui_world S.

#[global] Instance UI_ret {S} : MRet (UI S) :=
  fun A (a : A) w => (Ret a, w).

#[global] Instance UI_bind {S} : MBind (UI S) :=
  fun A B (k : A -> UI S B) (m : UI S A) w =>
    match m w with
    | (Ret a, w') => k a w'
    | (Throw e, w') => (Throw e, w')
    end.

(** The cells as the handler finds them. *)
Definition read_state {S} : UI S ClientState :=
  fun w => (Ret (ui_state w), w).

(** A [set...] call. *)
Definition update {S} (f : ClientState -> ClientState) : UI S unit :=
  fun w => (Ret tt, mkUi (f (ui_state w)) (ui_ext w) (ui_calls w)).

(** [await] of a call to a function of the props. *)
Definition ui_await {S A} (c : ui_call) (f : Ext S A) : UI S A :=
  fun w =>
    let '(r, s') := f (ui_ext w) in
    (r, mkUi (ui_state w) s' (ui_calls w ++ [c])).

(** A call that is not awaited: what it throws does not reach the
    caller. *)
Definition detached {S A} (m : UI S A) : UI S unit :=
  fun w => (Ret tt, snd (m w)).

(** [captcha?.id], as a condition. *)
Definition has_id (c : option CaptchaData) : bool :=
  match c with
  | Some data => str_truthy (id data)
  | None => false
  end.

Section Client.
Context {S : Type}.
Variable props : CustomCaptchaProps.t S.

Definition _refreshCaptcha : UI S unit :=
  update (setSliderValue 0);;
  update (setError None);;
  update (setCorrect false);;
  refreshed ← ui_await RefreshCaptcha (CustomCaptchaProps.refreshCaptcha props);
  update (setCaptcha (Some refreshed)).

Definition verify : UI S unit :=
  st ← read_state;
  match captcha st with
  | Some data =>
      if negb (str_truthy (id data)) then mret tt
      else
        res ← ui_await
                (VerifyCaptcha (id data) (toString (sliderValue st)))
                (CustomCaptchaProps.verifyCaptcha props (id data)
                   (toString (sliderValue st)));
        if truthy (res_error res) then
          update (setCorrect false);;
          update (setError (res_error res))
        else
          match res_success res with
          | Some true =>
              update (setCorrect true);;
              update (setCaptchaOpen false)
          | _ => mret tt
          end
  | None => mret tt
  end.

Definition handleCheckChange (checked : bool) : UI S unit :=
  st ← read_state;
  update (setCaptchaOpen checked);;
  if negb (has_id (captcha st)) && negb (CustomCaptchaProps.loading props)
  then detached _refreshCaptcha
  else mret tt.

(** The slider: [setSliderValue(Number(e.target.value))]. *)
Definition onSliderChange (v : Z) : UI S unit :=
  update (setSliderValue v).

(** What the user can do.  The refresh button is disabled while
    [loading]; the verify button while [loading] or without a captcha. *)
Inductive event : Type :=
  | CheckChange (checked : bool)
  | SliderChange (v : Z)
  | ClickRefresh
  | ClickVerify.

Definition dispatch (ev : event) : UI S unit :=
  match ev with
  | CheckChange checked => handleCheckChange checked
  | SliderChange v => onSliderChange v
  | ClickRefresh =>
      if CustomCaptchaProps.loading props then mret tt else _refreshCaptcha
  | ClickVerify =>
      st ← read_state;
      if CustomCaptchaProps.loading props
         || match captcha st with Some _ => false | None => true end
      then mret tt
      else verify
  end.

End Client.

(** A session: the events one after the other, each with the props of
    the render it arrives in; what a handler throws is not caught by
    anyone and the next event is handled all the same. *)
Fixpoint session {S} (trace : list (CustomCaptchaProps.t S * event))
    (w : ui_world S) : ui_world S :=
  match trace with
  | [] => w
  | (props, ev) :: rest => session rest (snd (dispatch props ev w))
  end.

(** ** A key-value store as the storage collaborator

    The store the README wires in ([redis.get] and [redis.setex], the
    expiry left out): a finite map from identifiers to strings. *)

Definition mem_get (id : string) : Ext (gmap string string) (option string) :=
  fun σ => (Ret (σ !! id), σ).

Definition mem_set (id value : string) : Ext (gmap string string) unit :=
  fun σ => (Ret tt, <[id := value]> σ).

Definition mem_verify (id value : string) (tolerance : option number)
  : VerifyCaptchaProps.t (gmap string string) :=
  VerifyCaptchaProps.mk id value mem_get mem_set tolerance.

Definition mem_create (image : option Buffer) (captchaId : option string)
  : CreateCaptchaProps.t (gmap string string) :=
  CreateCaptchaProps.mk image captchaId None mem_set.

(** An image library that hands the picture back untouched and refuses
    the empty picture as [sharp] does, on a host that ends the process
    on a rejection nothing handles, with no network and no file system:
    enough to run [createCaptcha] on a picture the caller supplies. *)
Definition plain_platform : Platform (gmap string string) := {|
  sharp := fun img =>
    match img with
    | [] => Throw (ErrorExn "Input Buffer is empty")
    | _ => Ret (mkSharp img)
    end;
  extract_jpeg := fun '(mkSharp img) _ _ => Ret img;
  sharp_create := fun _ _ => Ret [];
  composite_blur_jpeg := fun '(mkSharp img) _ _ => Ret img;
  base64 := fun _ => "";
  fetch := fun _ σ => (Throw (ErrorExn "fetch failed"), σ);
  fs_existsSync := fun _ _ => false;
  fs_readFileSync := fun _ σ => (Throw (ErrorExn "ENOENT"), σ);
  unhandled_rejection_ends_process := fun _ => true
|}.

(** A picture of one byte. *)
Definition one_byte : Buffer := [Byte.xff].

(** A run from a given state of the collaborators, with an empty log. *)
Definition run {S R} (m : world S -> R) (s : S) : R :=
  m (mkWorld s []).

(** The results [verifyCaptcha] can return. *)
Definition NOT_FOUND : VerificationResult :=
  {| success := false; reason := Some "Captcha not found or has expired" |}.

Definition VERIFIED : VerificationResult :=
  {| success := true; reason := None |}.

Definition INVALID : VerificationResult :=
  {| success := false; reason := Some "Invalid position values" |}.

Definition MISPLACED : VerificationResult :=
  {| success := false;
     reason := Some "Please position the puzzle piece correctly" |}.

Definition FAILED (e : exn) : VerificationResult :=
  {| success := false;
     reason := Some ("Verification error: " ++ error_message e) |}.

(** The same call of [verifyCaptcha] with another submitted value. *)
Definition with_value {S} (props : VerifyCaptchaProps.t S) (v : string)
  : VerifyCaptchaProps.t S :=
  VerifyCaptchaProps.mk (VerifyCaptchaProps.captchaId props) v
    (VerifyCaptchaProps.getCaptchaValue props)
    (VerifyCaptchaProps.changeCaptchaIdOnSuccess props)
    (VerifyCaptchaProps.tolerance props).

(** The tolerance the comparison uses. *)
Inductive effective_tolerance : option number -> Z -> Prop :=
  | tol_given (t : Z) : t <> 0 -> effective_tolerance (Some (Num t)) t
  | tol_zero : effective_tolerance (Some (Num 0)) 10
  | tol_nan : effective_tolerance (Some NaN) 10
  | tol_absent : effective_tolerance None 10.

(** The log after the retrieval call, and after the mark-verified call. *)
Definition lookup_log {S} (props : VerifyCaptchaProps.t S) (w : world S)
  : list call :=
  (calls w ++ [GetCaptchaValue (VerifyCaptchaProps.captchaId props)])%list.

Definition mark_log {S} (props : VerifyCaptchaProps.t S) (w : world S)
  : list call :=
  (lookup_log props w
   ++ [ChangeCaptchaIdOnSuccess (VerifyCaptchaProps.captchaId props)
         ON_VERIFY_CAPTCHA_VALUE])%list.

(** The calls of the image acquisition: network and file system. *)
Definition acquisition_call (c : call) : Prop :=
  match c with
  | Fetch _ | ArrayBuffer _ | ReadFileSync _ => True
  | _ => False
  end.

(** [w2] extends the log of [w1] by calls that satisfy [P]. *)
Definition appends {S} (P : call -> Prop) (w1 w2 : world S) : Prop :=
  exists l, calls w2 = (calls w1 ++ l)%list /\ Forall P l.

(** Whatever the world it runs in, [m] logs only calls that satisfy [P]. *)
Definition logs {S A} (P : call -> Prop) (m : Async S A) : Prop :=
  forall w, appends P w (snd (m w)).

(** The first two calls to the image library: the extraction of the
    piece and the making of the black square. *)
Definition image_calls (offset : Z) : list call :=
  [SharpExtract (mkRegion offset 75 50 50) 30;
   SharpCreate (mkCreate 50 50 3 0 0 0) 50].

(** Strings of decimal digits, and strings that start with one. *)
Fixpoint all_digits (s : string) : bool :=
  match s with
  | EmptyString => true
  | String a t =>
      match digit_value a with
      | Some _ => all_digits t
      | None => false
      end
  end.

Definition starts_with_digit (s : string) : bool :=
  match s with
  | EmptyString => false
  | String a _ =>
      match digit_value a with
      | Some _ => true
      | None => false
      end
  end.

(** The address [getCaptchaImage] fetches, for the draw [m]. *)
Definition picsum_url (m : Z) : string :=
  "https://picsum.photos/id/" ++ toString (Math_floor (fmul m 500))
  ++ "/300/200".

(** A platform whose answers are fixed in advance: what [fetch] does
    ([None]: it throws; otherwise the [ok] flag and how [arrayBuffer()]
    settles), what the file at the fallback path holds ([None]: there is
    no such file), and how the three image operations settle; its
    constructor accepts every picture, and its host goes on after a
    rejection nothing handles exactly when [lenient] says so. *)
Definition hosted_platform (lenient : bool)
    (net : option (bool * outcome Buffer)) (file : option (outcome Buffer))
    (extract create composite : outcome Buffer)
  : Platform (gmap string string) := {|
  sharp := fun img => Ret (mkSharp img);
  extract_jpeg := fun _ _ _ => extract;
  sharp_create := fun _ _ => create;
  composite_blur_jpeg := fun _ _ _ => composite;
  base64 := fun _ => "";
  fetch := fun _ σ =>
    match net with
    | Some (flag, body) =>
        (Ret {| ok := flag; arrayBuffer := fun σ' => (body, σ') |}, σ)
    | None => (Throw (ErrorExn "network down"), σ)
    end;
  fs_existsSync := fun _ _ =>
    match file with
    | Some _ => true
    | None => false
    end;
  fs_readFileSync := fun _ σ =>
    match file with
    | Some r => (r, σ)
    | None => (Throw (ErrorExn "ENOENT"), σ)
    end;
  unhandled_rejection_ends_process := fun _ => negb lenient
|}.

(** The same on a host that ends the process, as Node does by default. *)
Definition scripted_platform
    (net : option (bool * outcome Buffer)) (file : option (outcome Buffer))
    (extract create composite : outcome Buffer)
  : Platform (gmap string string) :=
  hosted_platform false net file extract create composite.

(** What [fallbackImgPath && fs.existsSync(fallbackImgPath)] tests in
    the state [s]: there is a fallback file at [p], or there is none (no
    path, an empty path, or a path at which no file exists). *)
Definition fallback_at {S} `{Platform S} (path : option string) (s : S)
    (p : string) : Prop :=
  path = Some p /\ p <> "" /\ fs_existsSync p s = true.

Definition no_fallback {S} `{Platform S} (path : option string) (s : S)
  : Prop :=
  path = None \/ path = Some ""
  \/ (exists p, path = Some p /\ fs_existsSync p s = false).

(** [createCaptcha], called in the world [w], has the picture [img] to
    work on and the world is [w1] by then: the caller supplied the
    picture, or [getCaptchaImage] returned it. *)
Definition obtains {S} `{Platform S} (props : CreateCaptchaProps.t S)
    (d : Draws) (w : world S) (img : Buffer) (w1 : world S) : Prop :=
  (CreateCaptchaProps.image props = Some img /\ w1 = w)
  \/ (CreateCaptchaProps.image props = None
      /\ getCaptchaImage (CreateCaptchaProps.fallbackImgPath props)
           (draw_image d) w = (Ret (Some img), w1)).

(** The box is checked only over a captcha with an identifier, and
    every verification asked for names an identifier. *)
Definition checked_over_captcha {S} (w : ui_world S) : Prop :=
  (correct (ui_state w) = true -> has_id (captcha (ui_state w)) = true)
  /\ Forall (fun c => match c with
                      | VerifyCaptcha i _ => i <> ""
                      | RefreshCaptcha => True
                      end) (ui_calls w).

(** The slider is on a position from 0 to 250, and every value sent
    for verification is the decimal string of such a position. *)
Definition slider_in_range {S} (w : ui_world S) : Prop :=
  0 <= sliderValue (ui_state w) <= 250
  /\ Forall (fun c => match c with
                      | VerifyCaptcha _ v =>
                          exists n, 0 <= n <= 250 /\ v = toString n
                      | RefreshCaptcha => True
                      end) (ui_calls w).

(** Props and a session to run the component on: the box is ticked,
    which fetches a captcha; the slider is moved to 120; the verify
    button is pressed and the application answers with success. *)
Definition demo_props : CustomCaptchaProps.t unit :=
  CustomCaptchaProps.mk false
    (fun σ => (Ret {| puzzle := "p"; background := "b"; id := "c26" |}, σ))
    (fun _ _ σ =>
       (Ret {| res_success := Some true; res_error := None |}, σ)).

Definition demo_trace : list (CustomCaptchaProps.t unit * event) :=
  [(demo_props, CheckChange true);
   (demo_props, SliderChange 120);
   (demo_props, ClickVerify)].

(** Proof steps used over and over: the unfolding of [verifyCaptcha],
    and the closing of a branch whose result has a reason other than the
    one asked for. *)
Ltac unfold_verify :=
  unfold verifyCaptcha, verifyCaptcha_try, try_catch, mbind, Async_bind,
    invoke.

Ltac other_reason :=
  cbn; let Hr := fresh "Hr" in intros Hr; injection Hr as <-; discriminate.

Ltac unfold_ui :=
  unfold dispatch, handleCheckChange, verify, _refreshCaptcha,
    onSliderChange, detached, read_state, update, ui_await, mbind, UI_bind,
    mret, UI_ret;
  cbn [ui_state ui_ext ui_calls fst snd].

(** * Properties *)

(** ** Numbers and strings *)

Lemma parseInt_empty : parseInt "" = NaN.
Proof. reflexivity. Qed.

Lemma parseInt_sentinel : parseInt ON_VERIFY_CAPTCHA_VALUE = NaN.
Proof. reflexivity. Qed.

Lemma parseInt_Num_truthy (sv : string) (s : Z) :
  parseInt sv = Num s -> str_truthy sv = true.
Proof. destruct sv; [discriminate | reflexivity]. Qed.

Lemma parseInt_Num_pending (sv : string) (s : Z) :
  parseInt sv = Num s -> String.eqb sv ON_VERIFY_CAPTCHA_VALUE = false.
Proof.
  intros Hp. destruct (String.eqb_spec sv ON_VERIFY_CAPTCHA_VALUE) as [-> | _].
  - rewrite parseInt_sentinel in Hp. discriminate.
  - reflexivity.
Qed.

(** A string that starts with a digit is parsed from its first
    character on, with no sign. *)
Lemma parseInt_leading_digit (a : ascii) (t : string) (d : Z) :
  digit_value a = Some d ->
  parseInt (String a t) = to_number (1 * mathInt (d :: digits_prefix t)).
Proof.
  intros Hd.
  destruct a as [[] [] [] [] [] [] [] []]; cbv in Hd; try discriminate Hd;
    injection Hd as <-; reflexivity.
Qed.

Lemma digits_prefix_app (p rest : string) :
  all_digits p = true ->
  starts_with_digit rest = false ->
  digits_prefix (p ++ rest) = digits_prefix p.
Proof.
  intros Hp Hrest. induction p as [| a p IH]; simpl in *.
  - destruct rest as [| b rest]; [reflexivity |]. simpl in *.
    destruct (digit_value b); [discriminate | reflexivity].
  - destruct (digit_value a); [| discriminate].
    rewrite (IH Hp). reflexivity.
Qed.

(** [parseInt] reads the digits a string starts with and ignores what
    follows them. *)
Lemma parseInt_numeric_prefix (p rest : string) :
  p <> "" ->
  all_digits p = true ->
  starts_with_digit rest = false ->
  parseInt (p ++ rest) = parseInt p /\ parseInt p <> NaN.
Proof.
  intros Hne Hp Hrest. destruct p as [| a p]; [contradiction |].
  simpl in Hp. destruct (digit_value a) as [d |] eqn:Hd; [| discriminate].
  change (String a p ++ rest) with (String a (p ++ rest)).
  rewrite !(parseInt_leading_digit a _ d Hd).
  rewrite (digits_prefix_app p rest Hp Hrest).
  split; [reflexivity |]. unfold to_number. destruct (_ <? _); discriminate.
Qed.

(** Integers below 2^53 are binary64 numbers; rounding never takes a
    larger integer below 2^53. *)
Lemma round53_small (d : Z) : 0 <= d < 2 ^ 53 -> round53 d = d.
Proof.
  intros [Hlo Hhi]. unfold round53.
  destruct (Z.leb_spec (Z.log2 d - 52) 0) as [_ | Hs]; [reflexivity |].
  assert (0 < d) by (destruct (Z.eq_dec d 0) as [-> | ]; [simpl in Hs |]; lia).
  assert (Z.log2 d < 53) by (apply Z.log2_lt_pow2; assumption).
  lia.
Qed.

Lemma round53_large (d : Z) : 2 ^ 53 <= d -> 2 ^ 53 <= round53 d.
Proof.
  intros Hd. unfold round53.
  destruct (Z.leb_spec (Z.log2 d - 52) 0) as [_ | Hs]; [exact Hd |].
  set (s := Z.log2 d - 52) in *.
  assert (Hpos : 0 < d) by (change (2 ^ 53) with 9007199254740992 in Hd; lia).
  destruct (Z.log2_spec d Hpos) as [Hlog _].
  replace (Z.log2 d) with (52 + s) in Hlog by lia.
  rewrite Z.pow_add_r in Hlog by lia.
  assert (HP : 0 < 2 ^ s) by (apply Z.pow_pos_nonneg; lia).
  assert (Hq : 2 ^ 52 <= d / 2 ^ s)
    by (apply Z.div_le_lower_bound; [exact HP | lia]).
  assert (H2 : 2 * 1 <= 2 ^ s).
  { replace s with (1 + (s - 1)) by lia. rewrite Z.pow_add_r by lia.
    assert (0 < 2 ^ (s - 1)) by (apply Z.pow_pos_nonneg; lia).
    change (2 ^ 1) with 2. lia. }
  change (2 ^ 53) with (2 ^ 52 * 2). change (2 ^ 52) with 4503599627370496 in *.
  destruct (_ || _); nia.
Qed.

(** Against a tolerance below 2^53, the comparison of the source decides
    the comparison of the integers. *)
Lemma compare_exact (x y t : Z) :
  t < 2 ^ 53 ->
  num_le (Math_abs (num_sub (Num x) (Num y))) (Num t) = (Z.abs (x - y) <=? t).
Proof.
  intros Ht. cbn [num_sub]. unfold to_number.
  set (d := Z.abs (x - y)).
  assert (Hd : 0 <= d) by apply Z.abs_nonneg.
  destruct (Z_lt_le_dec d (2 ^ 53)) as [Hsmall | Hlarge].
  - rewrite (round53_small d (conj Hd Hsmall)).
    assert (Hlt : (d <? 2 ^ 1024) = true).
    { apply Z.ltb_lt. apply Z.lt_trans with (2 ^ 53); [exact Hsmall |].
      apply Z.pow_lt_mono_r; lia. }
    rewrite Hlt. cbn [Math_abs num_le].
    replace (Z.abs (Z.sgn (x - y) * d)) with d; [reflexivity |].
    subst d.
    destruct (Z.sgn_spec (x - y)) as [[_ ->] | [[? ->] | [_ ->]]]; lia.
  - pose proof (round53_large d Hlarge) as Hr.
    assert (Hgt : (d <=? t) = false) by (apply Z.leb_gt; lia).
    rewrite Hgt. destruct (_ <? 2 ^ 1024); cbn [Math_abs num_le].
    + apply Z.leb_gt. change (2 ^ 53) with 9007199254740992 in *.
      destruct (Z.sgn_spec (x - y)) as [[_ ->] | [[? ->] | [_ ->]]]; lia.
    + reflexivity.
Qed.

Lemma num_or_effective (tol : option number) (t : Z) :
  effective_tolerance tol t -> num_or tol (Num 10) = Num t.
Proof.
  destruct 1 as [t Ht | | |]; simpl; try reflexivity.
  destruct (Z.eqb_spec t 0); [contradiction | reflexivity].
Qed.

(** ** The branches of [verifyCaptcha] *)

Section VerifyBranches.
Context {S : Type}.
Variable props : VerifyCaptchaProps.t S.
Variable w : world S.

Local Abbreviation cid := (VerifyCaptchaProps.captchaId props).

Lemma try_lookup_throws (e : exn) (s1 : S) :
  VerifyCaptchaProps.getCaptchaValue props cid (ext w) = (Throw e, s1) ->
  verifyCaptcha_try props w = (Throw e, mkWorld s1 (lookup_log props w)).
Proof. intros Hget. unfold_verify. rewrite Hget. reflexivity. Qed.

(** A pending challenge and a submission that both parse: the comparison
    decides, and the mark-verified call is made only when it holds. *)
Lemma try_compared (sv : string) (s1 : S) (s u : Z) :
  VerifyCaptchaProps.getCaptchaValue props cid (ext w) = (Ret (Some sv), s1) ->
  parseInt sv = Num s ->
  parseInt (VerifyCaptchaProps.value props) = Num u ->
  verifyCaptcha_try props w =
    if num_le (Math_abs (num_sub (Num s) (Num u)))
         (num_or (VerifyCaptchaProps.tolerance props) (Num 10))
    then
      match VerifyCaptchaProps.changeCaptchaIdOnSuccess props cid
              ON_VERIFY_CAPTCHA_VALUE s1 with
      | (Ret _, s2) => (Ret VERIFIED, mkWorld s2 (mark_log props w))
      | (Throw e, s2) => (Throw e, mkWorld s2 (mark_log props w))
      end
    else (Ret MISPLACED, mkWorld s1 (lookup_log props w)).
Proof.
  intros Hget Hs Hu. unfold_verify.
  rewrite Hget. cbn -[num_le num_or num_sub Math_abs].
  rewrite (parseInt_Num_truthy _ _ Hs). cbn -[num_le num_or num_sub Math_abs].
  rewrite (parseInt_Num_pending _ _ Hs), Hs, Hu.
  cbn -[num_le num_or num_sub Math_abs].
  destruct (num_le _ _); [| reflexivity]. cbn -[num_le num_or num_sub Math_abs].
  destruct (VerifyCaptchaProps.changeCaptchaIdOnSuccess _ _ _ _)
    as [[[] | e] s2]; reflexivity.
Qed.

Lemma verify_lookup_throws (e : exn) (s1 : S) :
  VerifyCaptchaProps.getCaptchaValue props cid (ext w) = (Throw e, s1) ->
  verifyCaptcha props w = (Ret (FAILED e), mkWorld s1 (lookup_log props w)).
Proof.
  intros Hget. unfold verifyCaptcha, try_catch.
  rewrite (try_lookup_throws e s1 Hget). reflexivity.
Qed.

Lemma verify_falsy (stored : option string) (s1 : S) :
  VerifyCaptchaProps.getCaptchaValue props cid (ext w) = (Ret stored, s1) ->
  truthy stored = false ->
  verifyCaptcha props w = (Ret NOT_FOUND, mkWorld s1 (lookup_log props w)).
Proof.
  intros Hget Hf. unfold_verify. rewrite Hget. simpl. rewrite Hf.
  reflexivity.
Qed.

Lemma verify_sentinel (s1 : S) :
  VerifyCaptchaProps.getCaptchaValue props cid (ext w)
    = (Ret (Some ON_VERIFY_CAPTCHA_VALUE), s1) ->
  verifyCaptcha props w = (Ret VERIFIED, mkWorld s1 (lookup_log props w)).
Proof. intros Hget. unfold_verify. rewrite Hget. reflexivity. Qed.

Lemma verify_unparsable (sv : string) (s1 : S) :
  VerifyCaptchaProps.getCaptchaValue props cid (ext w) = (Ret (Some sv), s1) ->
  str_truthy sv = true ->
  String.eqb sv ON_VERIFY_CAPTCHA_VALUE = false ->
  isNaN (parseInt (VerifyCaptchaProps.value props)) || isNaN (parseInt sv)
    = true ->
  verifyCaptcha props w = (Ret INVALID, mkWorld s1 (lookup_log props w)).
Proof.
  intros Hget Ht Hs Hn. unfold_verify.
  rewrite Hget. simpl. rewrite Ht. simpl. rewrite Hs, Hn. reflexivity.
Qed.

Lemma verify_compared (sv : string) (s1 : S) (s u : Z) :
  VerifyCaptchaProps.getCaptchaValue props cid (ext w) = (Ret (Some sv), s1) ->
  parseInt sv = Num s ->
  parseInt (VerifyCaptchaProps.value props) = Num u ->
  verifyCaptcha props w =
    if num_le (Math_abs (num_sub (Num s) (Num u)))
         (num_or (VerifyCaptchaProps.tolerance props) (Num 10))
    then
      match VerifyCaptchaProps.changeCaptchaIdOnSuccess props cid
              ON_VERIFY_CAPTCHA_VALUE s1 with
      | (Ret _, s2) => (Ret VERIFIED, mkWorld s2 (mark_log props w))
      | (Throw e, s2) => (Ret (FAILED e), mkWorld s2 (mark_log props w))
      end
    else (Ret MISPLACED, mkWorld s1 (lookup_log props w)).
Proof.
  intros Hget Hs Hu. unfold verifyCaptcha, try_catch.
  rewrite (try_compared sv s1 s u Hget Hs Hu).
  destruct (num_le _ _); [| reflexivity].
  destruct (VerifyCaptchaProps.changeCaptchaIdOnSuccess _ _ _ _)
    as [[[] | e] s2]; reflexivity.
Qed.

(** Whatever the [try] block returns with [success] false has a reason. *)
Lemma try_failure_has_reason (r : VerificationResult) (w' : world S) :
  verifyCaptcha_try props w = (Ret r, w') ->
  success r = false ->
  exists why, reason r = Some why /\ why <> "".
Proof.
  unfold_verify.
  destruct (VerifyCaptchaProps.getCaptchaValue _ _ _) as [[stored | e] σ1];
    [| discriminate].
  assert (Hlit : forall (why : string) (x : world S),
             why <> "" ->
             (Ret {| success := false; reason := Some why |}, x) = (Ret r, w') ->
             success r = false -> exists why, reason r = Some why /\ why <> "").
  { intros why x Hne Hr _. inversion Hr; subst r. exists why.
    split; [reflexivity | exact Hne]. }
  assert (Hok : forall x : world S,
             (Ret {| success := true; reason := None |}, x) = (Ret r, w') ->
             success r = false -> exists why, reason r = Some why /\ why <> "").
  { intros x Hr. inversion Hr; subst r. discriminate. }
  destruct (negb (truthy stored)); [apply Hlit; discriminate |].
  destruct (String.eqb _ _); [apply Hok |].
  destruct (isNaN _ || isNaN _); [apply Hlit; discriminate |].
  destruct (num_le _ _); [| apply Hlit; discriminate].
  cbn [ext calls].
  destruct (VerifyCaptchaProps.changeCaptchaIdOnSuccess _ _ _ _)
    as [[[] | e] σ2]; [apply Hok | discriminate].
Qed.

(** The reason ["Invalid position values"] is given only for a stored
    value or a submitted value that [parseInt] maps to NaN. *)
Lemma verify_invalid_only_nan (r : VerificationResult) :
  fst (verifyCaptcha props w) = Ret r ->
  reason r = Some "Invalid position values" ->
  exists stored s1,
    VerifyCaptchaProps.getCaptchaValue props cid (ext w)
      = (Ret (Some stored), s1)
    /\ (parseInt (VerifyCaptchaProps.value props) = NaN
        \/ parseInt stored = NaN).
Proof.
  unfold_verify.
  destruct (VerifyCaptchaProps.getCaptchaValue _ _ _) as [[stored | e] s1];
    [| other_reason].
  destruct stored as [stored |]; [| other_reason].
  change (default "" (Some stored)) with stored. cbn [truthy].
  destruct (str_truthy stored); [| other_reason]. cbn [negb].
  destruct (String.eqb _ _); [other_reason |].
  destruct (parseInt stored) eqn:Hs;
    destruct (parseInt (VerifyCaptchaProps.value props)) eqn:Hu;
    cbn [isNaN orb];
    try (intros _ _; exists stored, s1;
         split; [reflexivity | (left; reflexivity) || (right; exact Hs)]);
    (destruct (num_le _ _); [| other_reason]);
    cbn [ext calls];
    destruct (VerifyCaptchaProps.changeCaptchaIdOnSuccess _ _ _ _)
      as [[[] | e] s2]; other_reason.
Qed.

End VerifyBranches.

(** ** The random draw of the slider position *)

Lemma pow2_split (a b : Z) : 0 <= a -> 0 <= b -> 2 ^ (a + b) = 2 ^ a * 2 ^ b.
Proof. intros Ha Hb. apply Z.pow_add_r; assumption. Qed.

(** The largest binary64 number below 1 is [1 - 2^-53]. *)
Lemma is_random_max (m : Z) :
  is_random m -> m <= 2 ^ 1074 - 2 ^ 1021.
Proof.
  intros [[Hlo Hhi] Hfit]. unfold unit_exp in Hhi.
  assert (HU : 0 < 2 ^ 1021) by (apply Z.pow_pos_nonneg; lia).
  assert (H73 : 2 ^ 1073 = 2 ^ 52 * 2 ^ 1021)
    by (rewrite <- pow2_split by lia; reflexivity).
  assert (H74 : 2 ^ 1074 = 2 ^ 53 * 2 ^ 1021)
    by (rewrite <- pow2_split by lia; reflexivity).
  destruct (Z_lt_le_dec m (2 ^ 1073)) as [Hsmall | Hbig].
  - rewrite H74. rewrite H73 in Hsmall.
    change (2 ^ 53) with 9007199254740992.
    change (2 ^ 52) with 4503599627370496 in Hsmall. nia.
  - assert (Hlog : Z.log2 m = 1073).
    { apply Z.log2_unique; [lia |]. split; [exact Hbig |].
      replace (1073 + 1) with 1074 by lia. exact Hhi. }
    unfold fits53 in Hfit. rewrite Hlog in Hfit.
    replace (Z.max 0 (1073 - 52)) with 1021 in Hfit by lia.
    apply Z.eqb_eq in Hfit.
    pose proof (Z.div_mod m (2 ^ 1021) ltac:(lia)) as Hdm.
    rewrite Hfit, Z.add_0_r in Hdm.
    rewrite H74 in Hhi |- *.
    set (U := 2 ^ 1021) in *. set (k := m / U) in *.
    change (2 ^ 53) with 9007199254740992 in *.
    assert (k < 9007199254740992) by nia. nia.
Qed.

(** Rounding to nearest moves a number up by half a unit in the last
    place at most. *)
Lemma round53_upper (x : Z) :
  0 <= x ->
  round53 x <= x \/ (53 <= Z.log2 x /\ round53 x <= x + 2 ^ (Z.log2 x - 53)).
Proof.
  intros Hx. unfold round53.
  destruct (Z.leb_spec (Z.log2 x - 52) 0) as [Hs | Hs]; [left; lia |].
  set (s := Z.log2 x - 52) in *.
  replace (Z.log2 x - 53) with (s - 1) by lia.
  assert (HP : 2 ^ s = 2 * 2 ^ (s - 1)).
  { replace s with (1 + (s - 1)) at 1 by lia.
    rewrite pow2_split by lia. reflexivity. }
  assert (Hh : 0 < 2 ^ (s - 1)) by (apply Z.pow_pos_nonneg; lia).
  pose proof (Z.div_mod x (2 ^ s) ltac:(lia)) as Hdm.
  pose proof (Z.mod_pos_bound x (2 ^ s) ltac:(lia)) as Hr.
  set (q := x / 2 ^ s) in *. set (r := x mod 2 ^ s) in *.
  set (h := 2 ^ (s - 1)) in *.
  destruct ((h <? r) || ((r =? h) && Z.odd q)) eqn:Hup.
  - right. split; [lia |].
    assert (h <= r).
    { apply orb_true_iff in Hup as [Hlt | Heq].
      - apply Z.ltb_lt in Hlt. lia.
      - apply andb_true_iff in Heq as [Heq _]. apply Z.eqb_eq in Heq. lia. }
    nia.
  - left. nia.
Qed.

Lemma round53_nonneg (x : Z) : 0 <= x -> 0 <= round53 x.
Proof.
  intros Hx. unfold round53.
  destruct (Z.leb_spec (Z.log2 x - 52) 0) as [Hs | Hs]; [exact Hx |].
  assert (0 < 2 ^ (Z.log2 x - 52)) by (apply Z.pow_pos_nonneg; lia).
  assert (0 <= x / 2 ^ (Z.log2 x - 52)) by (apply Z.div_pos; lia).
  destruct (_ || _); nia.
Qed.

(** The product of a draw with 249 stays below 249 after rounding. *)
Lemma fmul_249_lt (m : Z) :
  is_random m -> 0 <= fmul m 249 < 249 * 2 ^ unit_exp.
Proof.
  intros Hm. pose proof (is_random_max m Hm) as Hmax.
  destruct Hm as [[Hlo Hhi] _]. unfold unit_exp in *. unfold fmul.
  split; [apply round53_nonneg; lia |].
  assert (HU : 0 < 2 ^ 1021) by (apply Z.pow_pos_nonneg; lia).
  assert (H74 : 2 ^ 1074 = 2 ^ 53 * 2 ^ 1021)
    by (rewrite <- pow2_split by lia; reflexivity).
  assert (H28 : 2 ^ 1028 = 2 ^ 7 * 2 ^ 1021)
    by (rewrite <- pow2_split by lia; reflexivity).
  assert (H82 : 2 ^ 1082 = 2 ^ 8 * 2 ^ 1074)
    by (rewrite <- pow2_split by lia; reflexivity).
  destruct (round53_upper (m * 249) ltac:(lia)) as [Hle | [Hlog Hle]].
  - rewrite H74 in *. change (2 ^ 53) with 9007199254740992 in *. nia.
  - assert (Hpos : 0 < m * 249).
    { destruct (Z.eq_dec (m * 249) 0) as [E | E]; [| lia].
      rewrite E in Hlog. simpl in Hlog. lia. }
    assert (Hl : Z.log2 (m * 249) < 1082).
    { apply Z.log2_lt_pow2; [exact Hpos |]. rewrite H82.
      change (2 ^ 8) with 256. lia. }
    assert (Hhalf : 2 ^ (Z.log2 (m * 249) - 53) <= 2 ^ 1028)
      by (apply Z.pow_le_mono_r; lia).
    rewrite H28 in Hhalf. rewrite H74 in *.
    change (2 ^ 53) with 9007199254740992 in *.
    change (2 ^ 7) with 128 in *.
    set (U := 2 ^ 1021) in *. lia.
Qed.

Lemma sliderOffset_range (m : Z) :
  is_random m -> 55 <= sliderOffset m <= 248.
Proof.
  intros Hm. destruct (fmul_249_lt m Hm) as [Hlo Hhi].
  unfold sliderOffset, Math_max, Math_floor.
  assert (HP : 0 < 2 ^ unit_exp)
    by (apply Z.pow_pos_nonneg; unfold unit_exp; lia).
  assert (fmul m 249 / 2 ^ unit_exp < 249)
    by (apply Z.div_lt_upper_bound; lia).
  lia.
Qed.

(** The decimal string of a slider position reads back as that position. *)
Lemma toString_parseInt_offset (n : Z) :
  55 <= n <= 248 -> parseInt (toString n) = Num n.
Proof.
  intros Hn.
  assert (Hall : forallb (fun k => match parseInt (toString (55 + Z.of_nat k)) with
                                   | Num z => z =? 55 + Z.of_nat k
                                   | _ => false
                                   end) (seq 0 194) = true)
    by (vm_compute; reflexivity).
  rewrite forallb_forall in Hall.
  specialize (Hall (Z.to_nat (n - 55))).
  replace (55 + Z.of_nat (Z.to_nat (n - 55))) with n in Hall by lia.
  assert (Hin : In (Z.to_nat (n - 55)) (seq 0 194)) by (apply in_seq; lia).
  destruct (parseInt (toString n)) as [z | |];
    [| discriminate (Hall Hin) ..].
  f_equal. apply Z.eqb_eq. exact (Hall Hin).
Qed.

(** ** What the server functions log *)

Section Logs.
Context {S : Type}.

Lemma appends_refl (P : call -> Prop) (w : world S) :
  appends P w w.
Proof. exists []. split; [symmetry; apply app_nil_r | constructor]. Qed.

Lemma appends_trans (P : call -> Prop) (w1 w2 w3 : world S) :
  appends P w1 w2 -> appends P w2 w3 -> appends P w1 w3.
Proof.
  intros (l1 & E1 & F1) (l2 & E2 & F2). exists (l1 ++ l2)%list. split.
  - rewrite E2, E1. symmetry. apply app_assoc.
  - apply Forall_app. split; assumption.
Qed.

Lemma logs_ret {A} (P : call -> Prop) (a : A) : logs P (mret a : Async S A).
Proof. intros w. apply appends_refl. Qed.

Lemma logs_throw {A} (P : call -> Prop) (e : exn) :
  logs P (throw e : Async S A).
Proof. intros w. apply appends_refl. Qed.

Lemma logs_invoke {A} (P : call -> Prop) (c : call) (f : Ext S A) :
  P c -> logs P (invoke c f).
Proof.
  intros Hc w. unfold invoke. destruct (f (ext w)) as [r s']. simpl.
  exists [c]. split; [reflexivity | repeat constructor; exact Hc].
Qed.

Lemma logs_bind {A B} (P : call -> Prop) (m : Async S A) (k : A -> Async S B) :
  logs P m -> (forall a, logs P (k a)) -> logs P (m ≫= k).
Proof.
  intros Hm Hk w. unfold mbind, Async_bind. specialize (Hm w).
  destruct (m w) as [[a | e] w1]; simpl in *.
  - eapply appends_trans; [exact Hm | apply Hk].
  - exact Hm.
Qed.

Lemma logs_try_catch {A} (P : call -> Prop) (m : Async S A)
      (h : exn -> Async S A) :
  logs P m -> (forall e, logs P (h e)) -> logs P (try_catch m h).
Proof.
  intros Hm Hh w. unfold try_catch. specialize (Hm w).
  destruct (m w) as [[a | e] w1]; simpl in *.
  - exact Hm.
  - eapply appends_trans; [exact Hm | apply Hh].
Qed.

End Logs.

Section Acquisition.
Context {S : Type} `{Platform S}.

Lemma logs_fallback_exists (p : option string) :
  logs acquisition_call (fallback_exists p : Async S (option string)).
Proof.
  intros w. unfold fallback_exists.
  destruct p as [p |]; [destruct (_ && _) |]; apply appends_refl.
Qed.

Lemma logs_read_fallback (p : string) :
  logs acquisition_call (read_fallback p : Async S (option Buffer)).
Proof.
  unfold read_fallback. apply logs_bind.
  - apply logs_invoke. exact I.
  - intros buf. apply logs_ret.
Qed.

(** [getCaptchaImage] talks to the network and the file system only. *)
Lemma logs_getCaptchaImage (p : option string) (m : Z) :
  logs acquisition_call (getCaptchaImage p m : Async S (option Buffer)).
Proof.
  unfold getCaptchaImage. apply logs_try_catch.
  - apply logs_bind; [apply logs_invoke; exact I |].
    intros response. destruct (ok response).
    + apply logs_bind; [apply logs_invoke; exact I |].
      intros buf. apply logs_ret.
    + apply logs_bind; [apply logs_fallback_exists |].
      intros [q |]; [apply logs_read_fallback | apply logs_ret].
  - intros error. apply logs_bind; [apply logs_fallback_exists |].
    intros [q |].
    + apply logs_try_catch; [apply logs_read_fallback |].
      intros fe. apply logs_throw.
    + apply logs_throw.
Qed.

End Acquisition.

(** ** The calls of [createCaptcha] *)

Section CreateLog.
Context {S : Type} `{Platform S}.
Variable props : CreateCaptchaProps.t S.
Variable d : Draws.

Local Abbreviation offset := (sliderOffset (draw_offset d)).
Local Abbreviation cid :=
  (str_or (CreateCaptchaProps.captchaId props) (draw_uuid d)).

(** Without a picture [createCaptcha] throws what the acquisition threw,
    or its own error when the acquisition returned [null]. *)
Lemma createCaptcha_no_picture (w w1 : world S) (e : exn) :
  CreateCaptchaProps.image props = None ->
  getCaptchaImage (CreateCaptchaProps.fallbackImgPath props) (draw_image d) w
    = (Throw e, w1)
  \/ (getCaptchaImage (CreateCaptchaProps.fallbackImgPath props)
        (draw_image d) w = (Ret None, w1)
      /\ e = ErrorExn "Failed to obtain captcha image") ->
  createCaptcha props d w = (Settles (Throw e), w1).
Proof.
  intros Himg Hacq. unfold createCaptcha, mbind, Task_bind, lift.
  rewrite Himg.
  destruct Hacq as [-> | [-> ->]]; reflexivity.
Qed.

(** With a picture, [createCaptcha] goes through the constructor, the
    extraction, the black square, the composition and the storage. *)
Lemma createCaptcha_pictured (w w1 : world S) (img : Buffer) :
  obtains props d w img w1 ->
  createCaptcha props d w =
    match sharp img with
    | Throw e => (Settles (Throw e), w1)
    | Ret inst =>
        let w2 := mkWorld (ext w1) (calls w1 ++ image_calls offset) in
        let rest (p1 : outcome Buffer) : completion CaptchaData * world S :=
          match sharp_create (mkCreate 50 50 3 0 0 0) 50 with
          | Throw e => (Settles (Throw e), w2)
          | Ret black =>
              let '(r3, s3) :=
                CreateCaptchaProps.storeCaptchaId props cid (toString offset)
                  (ext w1) in
              let w' :=
                mkWorld s3
                  (calls w1 ++ image_calls offset
                   ++ [SharpComposite (mkOverlay black 75 offset "over") 30;
                       StoreCaptchaId cid (toString offset)]) in
              match p1 with
              | Throw e => (Settles (Throw e), w')
              | Ret b1 =>
                  match composite_blur_jpeg inst
                          (mkOverlay black 75 offset "over") 30 with
                  | Throw e => (Settles (Throw e), w')
                  | Ret b2 =>
                      match r3 with
                      | Throw e => (Settles (Throw e), w')
                      | Ret _ =>
                          (Settles
                             (Ret {| puzzle :=
                                       "data:image/jpeg;base64," ++ base64 b1;
                                     background :=
                                       "data:image/jpeg;base64," ++ base64 b2;
                                     id := cid |}),
                           w')
                      end
                  end
              end
          end in
        match extract_jpeg inst (mkRegion offset 75 50 50) 30 with
        | Ret b1 => rest (Ret b1)
        | Throw e =>
            if unhandled_rejection_ends_process e
            then (ProcessEnds e, w2)
            else rest (Throw e)
        end
    end.
Proof.
  intros Hobt.
  assert (Hacq : lift match CreateCaptchaProps.image props with
                      | Some i => mret (Some i)
                      | None =>
                          getCaptchaImage
                            (CreateCaptchaProps.fallbackImgPath props)
                            (draw_image d)
                      end w = (Settles (Ret (Some img)), w1)).
  { unfold lift. destruct Hobt as [[-> ->] | [-> ->]]; reflexivity. }
  unfold createCaptcha, mbind, Task_bind. rewrite Hacq.
  unfold settle, start, unhandled, pure_call, mret, Task_ret, image_calls.
  destruct (sharp img) as [inst | e]; [| reflexivity].
  cbn [ext calls fst snd]. cbv zeta.
  destruct (extract_jpeg inst _ _) as [b1 | e1];
    [| destruct (unhandled_rejection_ends_process e1);
       [rewrite <- !app_assoc; reflexivity |]];
    (destruct (sharp_create _ _) as [black | e2];
     [| rewrite <- !app_assoc; reflexivity]);
    cbn [ext calls fst snd];
    destruct (CreateCaptchaProps.storeCaptchaId _ _ _ _) as [r3 s3];
    cbn [ext calls fst snd]; rewrite <- !app_assoc; cbn [app];
    try reflexivity;
    (destruct (composite_blur_jpeg _ _ _); [| reflexivity]);
    destruct r3; reflexivity.
Qed.

(** After the image acquisition, [createCaptcha] stops at once (no
    picture, or one the constructor refuses), after the first two calls
    to the image library (the black square could not be made, or the
    process ended), or after all of its four calls; only in the last
    case can it return. *)
Lemma createCaptcha_log (w : world S) :
  exists pre,
    Forall acquisition_call pre /\
    ((calls (snd (createCaptcha props d w)) = (calls w ++ pre)%list /\
      forall data, fst (createCaptcha props d w) <> Settles (Ret data))
     \/ (calls (snd (createCaptcha props d w))
           = (calls w ++ pre ++ image_calls offset)%list /\
         forall data, fst (createCaptcha props d w) <> Settles (Ret data))
     \/ (exists black,
           calls (snd (createCaptcha props d w))
             = (calls w ++ pre ++ image_calls offset
                ++ [SharpComposite (mkOverlay black 75 offset "over") 30;
                    StoreCaptchaId cid (toString offset)])%list /\
           forall data,
             fst (createCaptcha props d w) = Settles (Ret data) ->
             id data = cid)).
Proof.
  set (acq := match CreateCaptchaProps.image props with
              | Some img => mret (Some img)
              | None =>
                  getCaptchaImage (CreateCaptchaProps.fallbackImgPath props)
                    (draw_image d)
              end : Async S (option Buffer)).
  assert (Hacq : logs acquisition_call acq).
  { subst acq. destruct (CreateCaptchaProps.image props).
    - apply logs_ret.
    - apply logs_getCaptchaImage. }
  destruct (Hacq w) as (pre & Epre & Fpre). exists pre. split; [exact Fpre |].
  destruct (acq w) as [[[img |] | e] w1] eqn:Eacq; simpl in Epre.
  - assert (Hobt : obtains props d w img w1).
    { subst acq. unfold obtains.
      destruct (CreateCaptchaProps.image props) as [i |].
      - left. inversion Eacq. split; reflexivity.
      - right. split; [reflexivity | exact Eacq]. }
    rewrite (createCaptcha_pictured w w1 img Hobt).
    destruct (sharp img) as [inst | e0].
    + right. cbv zeta.
      assert (Hrest : forall p1 : outcome Buffer,
        let r :=
          match sharp_create (mkCreate 50 50 3 0 0 0) 50 with
          | Throw e =>
              (Settles (Throw e),
               mkWorld (ext w1) (calls w1 ++ image_calls offset))
          | Ret black =>
              let '(r3, s3) :=
                CreateCaptchaProps.storeCaptchaId props cid (toString offset)
                  (ext w1) in
              match p1 with
              | Throw e =>
                  (Settles (Throw e),
                   mkWorld s3
                     (calls w1 ++ image_calls offset
                      ++ [SharpComposite (mkOverlay black 75 offset "over") 30;
                          StoreCaptchaId cid (toString offset)]))
              | Ret b1 =>
                  match composite_blur_jpeg inst
                          (mkOverlay black 75 offset "over") 30 with
                  | Throw e =>
                      (Settles (Throw e),
                       mkWorld s3
                         (calls w1 ++ image_calls offset
                          ++ [SharpComposite
                                (mkOverlay black 75 offset "over") 30;
                              StoreCaptchaId cid (toString offset)]))
                  | Ret b2 =>
                      match r3 with
                      | Throw e =>
                          (Settles (Throw e),
                           mkWorld s3
                             (calls w1 ++ image_calls offset
                              ++ [SharpComposite
                                    (mkOverlay black 75 offset "over") 30;
                                  StoreCaptchaId cid (toString offset)]))
                      | Ret _ =>
                          (Settles
                             (Ret {| puzzle :=
                                       "data:image/jpeg;base64," ++ base64 b1;
                                     background :=
                                       "data:image/jpeg;base64," ++ base64 b2;
                                     id := cid |}),
                           mkWorld s3
                             (calls w1 ++ image_calls offset
                              ++ [SharpComposite
                                    (mkOverlay black 75 offset "over") 30;
                                  StoreCaptchaId cid (toString offset)]))
                      end
                  end
              end
          end in
        (calls (snd r) = (calls w ++ pre ++ image_calls offset)%list /\
         forall data, fst r <> Settles (Ret data))
        \/ (exists black,
              calls (snd r)
                = (calls w ++ pre ++ image_calls offset
                   ++ [SharpComposite (mkOverlay black 75 offset "over") 30;
                       StoreCaptchaId cid (toString offset)])%list /\
              forall data, fst r = Settles (Ret data) -> id data = cid)).
      { intros p1. cbv zeta.
        destruct (sharp_create _ _) as [black | e2].
        - right. exists black.
          destruct (CreateCaptchaProps.storeCaptchaId _ _ _ _) as [r3 s3].
          destruct p1 as [b1 | e1];
            [destruct (composite_blur_jpeg _ _ _) as [b2 | e3];
             [destruct r3 as [[] | e4] |] |];
            cbn [fst snd calls];
            (split; [rewrite Epre, <- !app_assoc; reflexivity |]);
            intros data Hd; inversion Hd; reflexivity.
        - left. cbn [fst snd calls]. split.
          + rewrite Epre, <- !app_assoc. reflexivity.
          + intros data Hd. discriminate Hd. }
      destruct (extract_jpeg inst _ _) as [b1 | e1];
        [exact (Hrest (Ret b1)) |].
      destruct (unhandled_rejection_ends_process e1);
        [| exact (Hrest (Throw e1))].
      left. cbn [fst snd calls]. split.
      * rewrite Epre, <- !app_assoc. reflexivity.
      * intros data Hd. discriminate Hd.
    + left. cbn [fst snd]. split; [exact Epre |].
      intros data Hd. discriminate Hd.
  - assert (Himg : CreateCaptchaProps.image props = None).
    { subst acq. destruct (CreateCaptchaProps.image props); [discriminate |].
      reflexivity. }
    rewrite (createCaptcha_no_picture w w1
               (ErrorExn "Failed to obtain captcha image") Himg).
    + left. split; [exact Epre | intros data Hd; discriminate Hd].
    + right. subst acq. rewrite Himg in Eacq. split; [exact Eacq | reflexivity].
  - assert (Himg : CreateCaptchaProps.image props = None).
    { subst acq. destruct (CreateCaptchaProps.image props); [discriminate |].
      reflexivity. }
    rewrite (createCaptcha_no_picture w w1 e Himg).
    + left. split; [exact Epre | intros data Hd; discriminate Hd].
    + left. subst acq. rewrite Himg in Eacq. exact Eacq.
Qed.

End CreateLog.

(** ** From creation to verification *)

Lemma hasCaptchaBeenVerified_iff {S : Type} (value : string) (w : world S) :
  hasCaptchaBeenVerified value w = (Ret true, w) <-> value = "verified".
Proof.
  unfold hasCaptchaBeenVerified, mret, Async_ret.
  destruct (String.eqb_spec value ON_VERIFY_CAPTCHA_VALUE) as [E | E].
  - split; [intros _; exact E | reflexivity].
  - split; [discriminate | intros E'; contradiction].
Qed.

(** A challenge created with the draw 31/64, whose slider position is
    [floor(249 * 31/64) = 120], is verified by the submission ["125"]
    with a tolerance of 10, and the store then holds the sentinel
    instead of ["120"]. *)
Example create_then_verify :
  run (createCaptcha (H := plain_platform) (mem_create (Some one_byte) None)
         (mkDraws (31 * 2 ^ 1068) "X" 0)) ∅
    = (Ret {| puzzle := "data:image/jpeg;base64,";
              background := "data:image/jpeg;base64,";
              id := "X" |},
       mkWorld {["X" := "120"]}
         [SharpExtract (mkRegion 120 75 50 50) 30;
          SharpCreate (mkCreate 50 50 3 0 0 0) 50;
          SharpComposite (mkOverlay [] 75 120 "over") 30;
          StoreCaptchaId "X" "120"])
  /\ run (verifyCaptcha (mem_verify "X" "125" (Some (Num 10))))
       {["X" := "120"]}
     = (Ret {| success := true; reason := None |},
        mkWorld {["X" := "verified"]}
          [GetCaptchaValue "X"; ChangeCaptchaIdOnSuccess "X" "verified"]).
Proof. split; vm_compute; reflexivity. Qed.

(** The slider position at the ends of the range of the draw, and where
    the lower bound takes over. *)
Example sliderOffset_at_zero : sliderOffset 0 = 55.
Proof. vm_compute. reflexivity. Qed.

Example sliderOffset_at_largest_draw :
  is_random (2 ^ 1074 - 2 ^ 1021) /\ sliderOffset (2 ^ 1074 - 2 ^ 1021) = 248.
Proof.
  split; [split; [split; [apply Z.leb_le | apply Z.ltb_lt] |] |];
    vm_compute; reflexivity.
Qed.

(** ** The tolerance of the comparison *)

(** C1, as stated, at a tolerance of zero: the claim lets a stored 100
    and a submitted 105 succeed only if [|100 - 105| <= 0]; the code
    replaces the tolerance by 10 and returns [{success: true}]. *)
Lemma C1_zero_tolerance_counterexample :
  fst (run (verifyCaptcha (mem_verify "c1" "105" (Some (Num 0))))
         {["c1" := "100"]})
    = Ret {| success := true; reason := None |}
  /\ parseInt "100" = Num 100
  /\ parseInt "105" = Num 105
  /\ ~ Z.abs (100 - 105) <= 0.
Proof. repeat split; try reflexivity. simpl. lia. Qed.

(** C1, amended: for a stored value that parses to [s], a submitted
    value that parses to [u] and a mark-verified call that returns,
    [verifyCaptcha] returns [{success: true}] if and only if
    [|s - u| <= t], where [t] is the tolerance of the caller when that
    is a number other than zero and 10 when it is absent, zero or NaN;
    it succeeds at a difference of [t] and fails at [t + 1]. *)
Theorem C1_verify_iff_within_tolerance
    {S : Type} (props : VerifyCaptchaProps.t S) (σ σ1 σ2 : S)
    (stored : string) (s u t : Z) :
  VerifyCaptchaProps.getCaptchaValue props
    (VerifyCaptchaProps.captchaId props) σ = (Ret (Some stored), σ1) ->
  parseInt stored = Num s ->
  parseInt (VerifyCaptchaProps.value props) = Num u ->
  VerifyCaptchaProps.changeCaptchaIdOnSuccess props
    (VerifyCaptchaProps.captchaId props) ON_VERIFY_CAPTCHA_VALUE σ1
    = (Ret tt, σ2) ->
  effective_tolerance (VerifyCaptchaProps.tolerance props) t ->
  t < 2 ^ 53 ->
  (fst (run (verifyCaptcha props) σ)
     = Ret {| success := true; reason := None |}
   <-> Z.abs (s - u) <= t)
  /\ (Z.abs (s - u) = t ->
      fst (run (verifyCaptcha props) σ)
        = Ret {| success := true; reason := None |})
  /\ (Z.abs (s - u) = t + 1 ->
      fst (run (verifyCaptcha props) σ)
        = Ret {| success := false;
                 reason := Some "Please position the puzzle piece correctly" |}).
Proof.
  intros Hget Hs Hu Hmark Htol Ht. unfold run.
  rewrite (verify_compared props (mkWorld σ []) stored σ1 s u Hget Hs Hu).
  rewrite (num_or_effective _ _ Htol), (compare_exact s u t Ht).
  cbn [ext]. rewrite Hmark.
  destruct (Z.leb_spec (Z.abs (s - u)) t) as [Hle | Hgt]; cbn [fst].
  - repeat split; intros; try reflexivity; try assumption. lia.
  - repeat split; intros; try lia; try discriminate.
Qed.

Lemma C1_verify_iff_within_tolerance_witness :
  (fst (run (verifyCaptcha (mem_verify "c1" "107" (Some (Num 7))))
          {["c1" := "100"]})
     = Ret {| success := true; reason := None |}
   <-> Z.abs (100 - 107) <= 7)
  /\ (Z.abs (100 - 107) = 7 ->
      fst (run (verifyCaptcha (mem_verify "c1" "107" (Some (Num 7))))
             {["c1" := "100"]})
        = Ret {| success := true; reason := None |})
  /\ (Z.abs (100 - 107) = 7 + 1 ->
      fst (run (verifyCaptcha (mem_verify "c1" "107" (Some (Num 7))))
             {["c1" := "100"]})
        = Ret {| success := false;
                 reason := Some "Please position the puzzle piece correctly" |}).
Proof.
  apply (C1_verify_iff_within_tolerance
           (mem_verify "c1" "107" (Some (Num 7)))
           {["c1" := "100"]} {["c1" := "100"]}
           (<["c1" := "verified"]> {["c1" := "100"]}) "100" 100 107 7).
  - reflexivity.
  - reflexivity.
  - reflexivity.
  - reflexivity.
  - apply tol_given. lia.
  - reflexivity.
Defined.

(** ** The mark-verified call and the storage *)

(** C2, as stated, at a stored 100 and a submitted 150: the claim gives
    the reason ["incorrect position"]; the code gives another one. *)
Lemma C2_reason_counterexample :
  fst (run (verifyCaptcha (mem_verify "c2" "150" None)) {["c2" := "100"]})
    = Ret {| success := false;
             reason := Some "Please position the puzzle piece correctly" |}
  /\ fst (run (verifyCaptcha (mem_verify "c2" "150" None)) {["c2" := "100"]})
       <> Ret {| success := false; reason := Some "incorrect position" |}.
Proof. split; [reflexivity | discriminate]. Qed.

(** C2, amended: when a pending stored integer is within the tolerance
    of the submitted integer, [verifyCaptcha] calls the mark-verified
    function exactly once, with the identifier and ["verified"], after
    the retrieval, and returns [{success: true}] when that call returns;
    when the comparison fails it returns [{success: false}] with the
    reason ["Please position the puzzle piece correctly"], and the
    retrieval is its only call: the storage is as the retrieval left
    it. *)
Theorem C2_mark_once_or_leave_untouched
    {S : Type} (props : VerifyCaptchaProps.t S) (σ σ1 : S)
    (stored : string) (s u t : Z) :
  VerifyCaptchaProps.getCaptchaValue props
    (VerifyCaptchaProps.captchaId props) σ = (Ret (Some stored), σ1) ->
  parseInt stored = Num s ->
  parseInt (VerifyCaptchaProps.value props) = Num u ->
  effective_tolerance (VerifyCaptchaProps.tolerance props) t ->
  t < 2 ^ 53 ->
  (Z.abs (s - u) <= t ->
   calls (snd (run (verifyCaptcha props) σ))
     = [GetCaptchaValue (VerifyCaptchaProps.captchaId props);
        ChangeCaptchaIdOnSuccess (VerifyCaptchaProps.captchaId props)
          "verified"]
   /\ ext (snd (run (verifyCaptcha props) σ))
        = snd (VerifyCaptchaProps.changeCaptchaIdOnSuccess props
                 (VerifyCaptchaProps.captchaId props) "verified" σ1)
   /\ (forall σ2,
         VerifyCaptchaProps.changeCaptchaIdOnSuccess props
           (VerifyCaptchaProps.captchaId props) "verified" σ1 = (Ret tt, σ2) ->
         fst (run (verifyCaptcha props) σ)
           = Ret {| success := true; reason := None |}))
  /\ (t < Z.abs (s - u) ->
      run (verifyCaptcha props) σ
        = (Ret {| success := false;
                  reason :=
                    Some "Please position the puzzle piece correctly" |},
           mkWorld σ1
             [GetCaptchaValue (VerifyCaptchaProps.captchaId props)])).
Proof.
  intros Hget Hs Hu Htol Ht. unfold run.
  rewrite (verify_compared props (mkWorld σ []) stored σ1 s u Hget Hs Hu).
  rewrite (num_or_effective _ _ Htol), (compare_exact s u t Ht). cbn [ext].
  destruct (Z.leb_spec (Z.abs (s - u)) t) as [Hle | Hgt].
  - split; [intros _ | lia].
    change ON_VERIFY_CAPTCHA_VALUE with "verified".
    destruct (VerifyCaptchaProps.changeCaptchaIdOnSuccess _ _ _ _)
      as [[[] | e] σ2']; cbn [fst snd ext calls].
    + repeat split; reflexivity.
    + repeat split; try reflexivity. intros σ2 Hm. discriminate Hm.
  - split; [lia | intros _; reflexivity].
Qed.

Lemma C2_mark_once_or_leave_untouched_witness :
  (Z.abs (100 - 105) <= 10 ->
   calls (snd (run (verifyCaptcha (mem_verify "c2" "105" None))
                 {["c2" := "100"]}))
     = [GetCaptchaValue "c2"; ChangeCaptchaIdOnSuccess "c2" "verified"]
   /\ ext (snd (run (verifyCaptcha (mem_verify "c2" "105" None))
                  {["c2" := "100"]}))
        = snd (mem_set "c2" "verified" {["c2" := "100"]})
   /\ (forall σ2,
         mem_set "c2" "verified" {["c2" := "100"]} = (Ret tt, σ2) ->
         fst (run (verifyCaptcha (mem_verify "c2" "105" None))
                {["c2" := "100"]})
           = Ret {| success := true; reason := None |}))
  /\ (10 < Z.abs (100 - 105) ->
      run (verifyCaptcha (mem_verify "c2" "105" None)) {["c2" := "100"]}
        = (Ret {| success := false;
                  reason :=
                    Some "Please position the puzzle piece correctly" |},
           mkWorld {["c2" := "100"]} [GetCaptchaValue "c2"])).
Proof.
  apply (C2_mark_once_or_leave_untouched (mem_verify "c2" "105" None)
           {["c2" := "100"]} {["c2" := "100"]} "100" 100 105 10).
  - reflexivity.
  - reflexivity.
  - reflexivity.
  - apply tol_absent.
  - reflexivity.
Defined.

(** With a key-value store, a verification that does not succeed leaves
    every entry as it was. *)
Lemma mem_unsuccessful_verify_keeps_store
    (σ : gmap string string) (id value : string) (tol : option number)
    (r : VerificationResult) :
  fst (run (verifyCaptcha (mem_verify id value tol)) σ) = Ret r ->
  success r = false ->
  ext (snd (run (verifyCaptcha (mem_verify id value tol)) σ)) = σ.
Proof.
  unfold run, verifyCaptcha, verifyCaptcha_try, try_catch, mbind, Async_bind,
    invoke, mem_verify, mem_get, mem_set.
  cbn -[num_le num_or parseInt String.eqb].
  destruct (negb (truthy (σ !! id))); [reflexivity |].
  destruct (String.eqb _ _); [reflexivity |].
  destruct (isNaN _ || isNaN _); [reflexivity |].
  destruct (num_le _ _); [| reflexivity].
  cbn. intros Hr Hs. inversion Hr; subst r. discriminate Hs.
Qed.

(** ** A challenge that was verified before *)

(** C3: when the stored value is ["verified"], [verifyCaptcha] returns
    [{success: true}] whatever the submitted value and the tolerance,
    and the retrieval is its only call; hence, with a key-value store,
    once a verification of an identifier has succeeded every later one
    succeeds, whatever is submitted. *)
Theorem C3_verified_stays_verified :
  (forall (S : Type) (id : string)
          (getCaptchaValue : string -> Ext S (option string))
          (changeCaptchaIdOnSuccess : string -> string -> Ext S unit)
          (σ σ1 : S),
      getCaptchaValue id σ = (Ret (Some "verified"), σ1) ->
      forall (value : string) (tolerance : option number),
        run (verifyCaptcha
               (VerifyCaptchaProps.mk id value getCaptchaValue
                  changeCaptchaIdOnSuccess tolerance)) σ
          = (Ret {| success := true; reason := None |},
             mkWorld σ1 [GetCaptchaValue id]))
  /\ (forall (σ : gmap string string) (id value : string)
             (tolerance : option number),
         fst (run (verifyCaptcha (mem_verify id value tolerance)) σ)
           = Ret {| success := true; reason := None |} ->
         forall (value' : string) (tolerance' : option number),
           fst (run (verifyCaptcha (mem_verify id value' tolerance'))
                  (ext (snd (run (verifyCaptcha
                                    (mem_verify id value tolerance)) σ))))
             = Ret {| success := true; reason := None |}).
Proof.
  split.
  - intros S id get mark σ σ1 Hget value tolerance. unfold run.
    apply (verify_sentinel
             (VerifyCaptchaProps.mk id value get mark tolerance)
             (mkWorld σ []) σ1 Hget).
  - intros σ id value tolerance Hok value' tolerance'.
    assert (Hafter :
              ext (snd (run (verifyCaptcha (mem_verify id value tolerance)) σ))
                !! id = Some "verified").
    { revert Hok.
      unfold run, verifyCaptcha, verifyCaptcha_try, try_catch, mbind,
        Async_bind, invoke, mem_verify, mem_get, mem_set.
      cbn -[num_le num_or parseInt String.eqb].
      destruct (σ !! id) as [stored |] eqn:Hσ;
        cbn -[num_le num_or parseInt String.eqb]; [| discriminate].
      destruct (str_truthy stored); cbn -[num_le num_or parseInt String.eqb];
        [| discriminate].
      destruct (String.eqb_spec stored ON_VERIFY_CAPTCHA_VALUE) as [-> | _].
      - intros _. exact Hσ.
      - destruct (isNaN _ || isNaN _); [discriminate |].
        destruct (num_le _ _); [| discriminate].
        intros _. cbn. apply lookup_insert_eq. }
    unfold run at 1.
    rewrite (verify_sentinel (mem_verify id value' tolerance')
               (mkWorld _ []) _ (f_equal (fun o => (Ret o, _)) Hafter)).
    reflexivity.
Qed.

Lemma C3_verified_stays_verified_witness :
  run (verifyCaptcha (mem_verify "c3" "anything" (Some (Num 3))))
    {["c3" := "verified"]}
    = (Ret {| success := true; reason := None |},
       mkWorld {["c3" := "verified"]} [GetCaptchaValue "c3"])
  /\ fst (run (verifyCaptcha (mem_verify "c3" "0" None))
            (ext (snd (run (verifyCaptcha (mem_verify "c3" "125" None))
                         {["c3" := "120"]}))))
       = Ret {| success := true; reason := None |}.
Proof.
  split.
  - apply (proj1 C3_verified_stays_verified (gmap string string) "c3"
             mem_get mem_set {["c3" := "verified"]} {["c3" := "verified"]}).
    reflexivity.
  - apply (proj2 C3_verified_stays_verified {["c3" := "120"]} "c3" "125" None).
    reflexivity.
Defined.

(** ** Exceptions *)

(** C4: [verifyCaptcha] always returns a result and never throws;
    whenever its [try] block throws, the result is [{success: false}]
    with the reason ["Verification error: "] followed by the message;
    this is what happens when the retrieval throws and when the
    mark-verified call throws; and every [{success: false}] it returns
    has a reason that is not empty. *)
Theorem C4_verify_never_throws
    {S : Type} (props : VerifyCaptchaProps.t S) (w : world S) :
  exists r : VerificationResult,
    fst (verifyCaptcha props w) = Ret r
    /\ (forall e, fst (verifyCaptcha_try props w) = Throw e ->
        r = {| success := false;
               reason := Some ("Verification error: " ++ error_message e) |})
    /\ (forall e σ1,
          VerifyCaptchaProps.getCaptchaValue props
            (VerifyCaptchaProps.captchaId props) (ext w) = (Throw e, σ1) ->
          fst (verifyCaptcha_try props w) = Throw e)
    /\ (forall stored s u t e σ1 σ2,
          VerifyCaptchaProps.getCaptchaValue props
            (VerifyCaptchaProps.captchaId props) (ext w)
            = (Ret (Some stored), σ1) ->
          parseInt stored = Num s ->
          parseInt (VerifyCaptchaProps.value props) = Num u ->
          effective_tolerance (VerifyCaptchaProps.tolerance props) t ->
          t < 2 ^ 53 ->
          Z.abs (s - u) <= t ->
          VerifyCaptchaProps.changeCaptchaIdOnSuccess props
            (VerifyCaptchaProps.captchaId props) "verified" σ1
            = (Throw e, σ2) ->
          fst (verifyCaptcha_try props w) = Throw e)
    /\ (success r = false ->
        exists why, reason r = Some why /\ why <> "").
Proof.
  destruct (verifyCaptcha_try props w) as [[r | e] w'] eqn:Htry.
  - exists r.
    split; [unfold verifyCaptcha, try_catch; rewrite Htry; reflexivity |].
    split; [intros e He; discriminate He |].
    split.
    { intros e σ1 Hget. rewrite (try_lookup_throws _ _ e σ1 Hget) in Htry.
      discriminate Htry. }
    split; [| apply (try_failure_has_reason props w r w' Htry)].
    intros stored s u t e σ1 σ2 Hget Hs Hu Htol Ht Hle Hmark.
    rewrite (try_compared _ _ stored σ1 s u Hget Hs Hu) in Htry.
    rewrite (num_or_effective _ _ Htol), (compare_exact s u t Ht) in Htry.
    destruct (Z.leb_spec (Z.abs (s - u)) t); [| lia].
    change ON_VERIFY_CAPTCHA_VALUE with "verified" in Htry.
    rewrite Hmark in Htry. discriminate Htry.
  - exists {| success := false;
              reason := Some ("Verification error: " ++ error_message e) |}.
    split; [unfold verifyCaptcha, try_catch; rewrite Htry; reflexivity |].
    split; [intros e' He'; inversion He'; reflexivity |].
    split.
    { intros e' σ1 Hget. rewrite (try_lookup_throws _ _ e' σ1 Hget) in Htry.
      inversion Htry. reflexivity. }
    split; [| intros _; eexists; split; [reflexivity | discriminate]].
    intros stored s u t e' σ1 σ2 Hget Hs Hu Htol Ht Hle Hmark.
    rewrite (try_compared _ _ stored σ1 s u Hget Hs Hu) in Htry.
    rewrite (num_or_effective _ _ Htol), (compare_exact s u t Ht) in Htry.
    destruct (Z.leb_spec (Z.abs (s - u)) t); [| lia].
    change ON_VERIFY_CAPTCHA_VALUE with "verified" in Htry.
    rewrite Hmark in Htry. inversion Htry. reflexivity.
Qed.

(** ** Unknown identifiers and values that do not parse *)

(** C6: when the retrieval returns [null], [verifyCaptcha] returns
    [{success: false}] with the reason ["Captcha not found or has
    expired"], whatever the submitted value and the tolerance, and the
    retrieval is its only call. *)
Theorem C6_unknown_id_not_found
    {S : Type} (id : string)
    (getCaptchaValue : string -> Ext S (option string))
    (changeCaptchaIdOnSuccess : string -> string -> Ext S unit)
    (σ σ1 : S) (value : string) (tolerance : option number) :
  getCaptchaValue id σ = (Ret None, σ1) ->
  run (verifyCaptcha
         (VerifyCaptchaProps.mk id value getCaptchaValue
            changeCaptchaIdOnSuccess tolerance)) σ
    = (Ret {| success := false;
              reason := Some "Captcha not found or has expired" |},
       mkWorld σ1 [GetCaptchaValue id]).
Proof.
  intros Hget. unfold run.
  apply (verify_falsy
           (VerifyCaptchaProps.mk id value getCaptchaValue
              changeCaptchaIdOnSuccess tolerance)
           (mkWorld σ []) None σ1 Hget eq_refl).
Qed.

Lemma C6_unknown_id_not_found_witness :
  run (verifyCaptcha (mem_verify "nonexistent" "100" None)) ∅
    = (Ret {| success := false;
              reason := Some "Captcha not found or has expired" |},
       mkWorld ∅ [GetCaptchaValue "nonexistent"]).
Proof.
  apply (C6_unknown_id_not_found "nonexistent" mem_get mem_set ∅ ∅ "100" None).
  reflexivity.
Defined.

(** C7, as stated, at a stored value that is the empty string: it is
    present, it is not ["verified"] and it does not parse, and the code
    answers that the captcha was not found. *)
Lemma C7_empty_stored_counterexample :
  mem_get "c7" {["c7" := ""]} = (Ret (Some ""), {["c7" := ""]})
  /\ "" <> ON_VERIFY_CAPTCHA_VALUE
  /\ parseInt "" = NaN
  /\ fst (run (verifyCaptcha (mem_verify "c7" "abc" None)) {["c7" := ""]})
       = Ret {| success := false;
                reason := Some "Captcha not found or has expired" |}
  /\ fst (run (verifyCaptcha (mem_verify "c7" "abc" None)) {["c7" := ""]})
       <> Ret {| success := false; reason := Some "Invalid position values" |}.
Proof. repeat split; try reflexivity; discriminate. Qed.

(** C7, amended: for a stored value that is not empty and not
    ["verified"], if the stored value or the submitted value does not
    parse as an integer, [verifyCaptcha] returns [{success: false}] with
    the reason ["Invalid position values"], and the retrieval is its
    only call. *)
Theorem C7_unparsable_is_invalid
    {S : Type} (props : VerifyCaptchaProps.t S) (σ σ1 : S) (stored : string) :
  VerifyCaptchaProps.getCaptchaValue props
    (VerifyCaptchaProps.captchaId props) σ = (Ret (Some stored), σ1) ->
  stored <> "" ->
  stored <> "verified" ->
  parseInt stored = NaN \/ parseInt (VerifyCaptchaProps.value props) = NaN ->
  run (verifyCaptcha props) σ
    = (Ret {| success := false; reason := Some "Invalid position values" |},
       mkWorld σ1 [GetCaptchaValue (VerifyCaptchaProps.captchaId props)]).
Proof.
  intros Hget Hne Hpending Hnan. unfold run.
  apply (verify_unparsable props (mkWorld σ []) stored σ1 Hget).
  - destruct stored; [contradiction | reflexivity].
  - apply String.eqb_neq. exact Hpending.
  - destruct Hnan as [-> | ->]; [apply orb_true_r | reflexivity].
Qed.

Lemma C7_unparsable_is_invalid_witness :
  run (verifyCaptcha (mem_verify "c7" "abc" None)) {["c7" := "120"]}
    = (Ret {| success := false; reason := Some "Invalid position values" |},
       mkWorld {["c7" := "120"]} [GetCaptchaValue "c7"]).
Proof.
  apply (C7_unparsable_is_invalid (mem_verify "c7" "abc" None)
           {["c7" := "120"]} {["c7" := "120"]} "120").
  - reflexivity.
  - discriminate.
  - discriminate.
  - right. reflexivity.
Defined.

(** ** A tolerance of zero *)

(** C9: a tolerance that is falsy (0, NaN or absent) is replaced by 10;
    with it, a pending challenge whose stored value parses to [s] is verified
    by every submitted integer [u] with [|s - u| <= 10], as soon as the
    mark-verified call returns, and by no other. *)
Theorem C9_zero_tolerance_means_ten
    {S : Type} (props : VerifyCaptchaProps.t S) (σ σ1 σ2 : S)
    (stored : string) (s u : Z) :
  VerifyCaptchaProps.tolerance props = Some (Num 0)
  \/ VerifyCaptchaProps.tolerance props = Some NaN
  \/ VerifyCaptchaProps.tolerance props = None ->
  VerifyCaptchaProps.getCaptchaValue props
    (VerifyCaptchaProps.captchaId props) σ = (Ret (Some stored), σ1) ->
  parseInt stored = Num s ->
  parseInt (VerifyCaptchaProps.value props) = Num u ->
  VerifyCaptchaProps.changeCaptchaIdOnSuccess props
    (VerifyCaptchaProps.captchaId props) "verified" σ1 = (Ret tt, σ2) ->
  num_or (VerifyCaptchaProps.tolerance props) (Num 10) = Num 10
  /\ (Z.abs (s - u) <= 10 ->
      fst (run (verifyCaptcha props) σ)
        = Ret {| success := true; reason := None |})
  /\ (10 < Z.abs (s - u) ->
      fst (run (verifyCaptcha props) σ)
        = Ret {| success := false;
                 reason := Some "Please position the puzzle piece correctly" |}).
Proof.
  intros Hfalsy Hget Hs Hu Hmark. unfold run.
  rewrite (verify_compared props (mkWorld σ []) stored σ1 s u Hget Hs Hu).
  assert (Hten : num_or (VerifyCaptchaProps.tolerance props) (Num 10) = Num 10)
    by (destruct Hfalsy as [-> | [-> | ->]]; reflexivity).
  rewrite Hten, (compare_exact s u 10 eq_refl).
  change ON_VERIFY_CAPTCHA_VALUE with "verified". rewrite Hmark.
  split; [reflexivity |].
  destruct (Z.leb_spec (Z.abs (s - u)) 10); split; intros; try lia;
    reflexivity.
Qed.

Lemma C9_zero_tolerance_means_ten_witness :
  num_or (Some (Num 0)) (Num 10) = Num 10
  /\ (Z.abs (100 - 110) <= 10 ->
      fst (run (verifyCaptcha (mem_verify "c9" "110" (Some (Num 0))))
             {["c9" := "100"]})
        = Ret {| success := true; reason := None |})
  /\ (10 < Z.abs (100 - 110) ->
      fst (run (verifyCaptcha (mem_verify "c9" "110" (Some (Num 0))))
             {["c9" := "100"]})
        = Ret {| success := false;
                 reason := Some "Please position the puzzle piece correctly" |}).
Proof.
  apply (C9_zero_tolerance_means_ten (mem_verify "c9" "110" (Some (Num 0)))
           {["c9" := "100"]} {["c9" := "100"]}
           (<["c9" := "verified"]> {["c9" := "100"]}) "100" 100 110).
  - left. reflexivity.
  - reflexivity.
  - reflexivity.
  - reflexivity.
  - reflexivity.
Defined.

(** ** Submitted values with a numeric prefix *)

(** C10: the reason ["Invalid position values"] is given only when
    [parseInt] maps the submitted or the stored value to NaN, and for a
    pending challenge it is given exactly then; a string of digits
    followed by anything that does not start with a digit parses as the
    digits alone (["125px"] as 125); such a submission is compared like
    the number it starts with: [verifyCaptcha] does with it exactly what
    it does with the digits alone, whatever the storage functions are,
    and on a key-value store it verifies when that number is within the
    tolerance and is refused as misplaced, with nothing written, when it
    is not. *)
Theorem C10_numeric_prefix_is_accepted :
  (forall (S : Type) (props : VerifyCaptchaProps.t S) (w : world S)
          (r : VerificationResult),
      fst (verifyCaptcha props w) = Ret r ->
      reason r = Some "Invalid position values" ->
      exists stored σ1,
        VerifyCaptchaProps.getCaptchaValue props
          (VerifyCaptchaProps.captchaId props) (ext w)
          = (Ret (Some stored), σ1)
        /\ (parseInt (VerifyCaptchaProps.value props) = NaN
            \/ parseInt stored = NaN))
  /\ (forall p rest : string,
         p <> "" -> all_digits p = true -> starts_with_digit rest = false ->
         parseInt (p ++ rest) = parseInt p /\ parseInt p <> NaN)
  /\ parseInt "125px" = Num 125
  /\ (forall (σ : gmap string string) (id stored p rest : string)
             (tolerance : option number) (s u t : Z),
         σ !! id = Some stored ->
         parseInt stored = Num s ->
         p <> "" -> all_digits p = true -> starts_with_digit rest = false ->
         parseInt p = Num u ->
         effective_tolerance tolerance t ->
         t < 2 ^ 53 ->
         Z.abs (s - u) <= t ->
         run (verifyCaptcha (mem_verify id (p ++ rest) tolerance)) σ
           = (Ret {| success := true; reason := None |},
              mkWorld (<[id := "verified"]> σ)
                [GetCaptchaValue id; ChangeCaptchaIdOnSuccess id "verified"]))
  /\ (forall (σ : gmap string string) (id stored p rest : string)
             (tolerance : option number) (s u t : Z),
         σ !! id = Some stored ->
         parseInt stored = Num s ->
         p <> "" -> all_digits p = true -> starts_with_digit rest = false ->
         parseInt p = Num u ->
         effective_tolerance tolerance t ->
         t < 2 ^ 53 ->
         t < Z.abs (s - u) ->
         run (verifyCaptcha (mem_verify id (p ++ rest) tolerance)) σ
           = (Ret {| success := false;
                     reason :=
                       Some "Please position the puzzle piece correctly" |},
              mkWorld σ [GetCaptchaValue id]))
  /\ (forall (S : Type) (props : VerifyCaptchaProps.t S) (w : world S)
             (p rest : string),
         p <> "" -> all_digits p = true -> starts_with_digit rest = false ->
         verifyCaptcha (with_value props (p ++ rest)) w
           = verifyCaptcha (with_value props p) w)
  /\ (forall (S : Type) (props : VerifyCaptchaProps.t S) (w : world S)
             (stored : string) (σ1 : S),
         VerifyCaptchaProps.getCaptchaValue props
           (VerifyCaptchaProps.captchaId props) (ext w)
           = (Ret (Some stored), σ1) ->
         stored <> "" -> stored <> "verified" ->
         (fst (verifyCaptcha props w)
            = Ret {| success := false;
                     reason := Some "Invalid position values" |}
          <-> parseInt (VerifyCaptchaProps.value props) = NaN
              \/ parseInt stored = NaN)).
Proof.
  assert (Hcmp : forall (σ : gmap string string) (id stored p rest : string)
                        (tolerance : option number) (s u t : Z),
             σ !! id = Some stored ->
             parseInt stored = Num s ->
             p <> "" -> all_digits p = true -> starts_with_digit rest = false ->
             parseInt p = Num u ->
             effective_tolerance tolerance t ->
             t < 2 ^ 53 ->
             run (verifyCaptcha (mem_verify id (p ++ rest) tolerance)) σ
               = if Z.abs (s - u) <=? t
                 then (Ret VERIFIED,
                       mkWorld (<[id := "verified"]> σ)
                         [GetCaptchaValue id;
                          ChangeCaptchaIdOnSuccess id "verified"])
                 else (Ret MISPLACED, mkWorld σ [GetCaptchaValue id])).
  { intros σ id stored p rest tolerance s u t Hσ Hs Hne Hp Hrest Hu Htol Ht.
    destruct (parseInt_numeric_prefix p rest Hne Hp Hrest) as [Hpre _].
    rewrite Hu in Hpre. unfold run.
    rewrite (verify_compared (mem_verify id (p ++ rest) tolerance)
               (mkWorld σ []) stored σ s u
               (f_equal (fun o => (Ret o, σ)) Hσ) Hs Hpre).
    cbn [VerifyCaptchaProps.tolerance mem_verify].
    rewrite (num_or_effective _ _ Htol), (compare_exact s u t Ht).
    reflexivity. }
  split; [intros S props w r; apply verify_invalid_only_nan |].
  split; [exact parseInt_numeric_prefix |].
  split; [reflexivity |].
  split; [| split; [| split]].
  - intros σ id stored p rest tolerance s u t Hσ Hs Hne Hp Hrest Hu Htol Ht Hle.
    rewrite (Hcmp σ id stored p rest tolerance s u t Hσ Hs Hne Hp Hrest Hu
               Htol Ht).
    destruct (Z.leb_spec (Z.abs (s - u)) t); [reflexivity | lia].
  - intros σ id stored p rest tolerance s u t Hσ Hs Hne Hp Hrest Hu Htol Ht Hgt.
    rewrite (Hcmp σ id stored p rest tolerance s u t Hσ Hs Hne Hp Hrest Hu
               Htol Ht).
    destruct (Z.leb_spec (Z.abs (s - u)) t); [lia | reflexivity].
  - intros S props w p rest Hne Hp Hrest.
    destruct (parseInt_numeric_prefix p rest Hne Hp Hrest) as [Hpre _].
    unfold verifyCaptcha, verifyCaptcha_try.
    cbn [with_value VerifyCaptchaProps.captchaId VerifyCaptchaProps.value
         VerifyCaptchaProps.getCaptchaValue
         VerifyCaptchaProps.changeCaptchaIdOnSuccess
         VerifyCaptchaProps.tolerance].
    rewrite Hpre. reflexivity.
  - intros S props w stored σ1 Hget Hne Hpending. split.
    + intros Hinv.
      destruct (verify_invalid_only_nan props w _ Hinv eq_refl)
        as (stored' & σ1' & Hget' & Hnan).
      rewrite Hget in Hget'. injection Hget' as <- _. exact Hnan.
    + intros Hnan.
      rewrite (verify_unparsable props w stored σ1 Hget).
      * reflexivity.
      * destruct stored; [contradiction | reflexivity].
      * apply String.eqb_neq. exact Hpending.
      * destruct Hnan as [-> | ->]; [reflexivity | apply orb_true_r].
Qed.

Lemma C10_numeric_prefix_is_accepted_witness :
  (parseInt ("125" ++ "px") = parseInt "125" /\ parseInt "125" <> NaN)
  /\ run (verifyCaptcha (mem_verify "c10" ("125" ++ "px") None))
       {["c10" := "120"]}
     = (Ret {| success := true; reason := None |},
        mkWorld (<["c10" := "verified"]> {["c10" := "120"]})
          [GetCaptchaValue "c10"; ChangeCaptchaIdOnSuccess "c10" "verified"])
  /\ run (verifyCaptcha (mem_verify "c10" ("131" ++ "px") None))
       {["c10" := "120"]}
     = (Ret {| success := false;
               reason := Some "Please position the puzzle piece correctly" |},
        mkWorld {["c10" := "120"]} [GetCaptchaValue "c10"])
  /\ verifyCaptcha (with_value (mem_verify "c10" "" None) ("125" ++ "px"))
       (mkWorld {["c10" := "120"]} [])
     = verifyCaptcha (with_value (mem_verify "c10" "" None) "125")
         (mkWorld {["c10" := "120"]} []).
Proof.
  split; [| split; [| split]].
  - apply (proj1 (proj2 C10_numeric_prefix_is_accepted) "125" "px").
    + discriminate.
    + reflexivity.
    + reflexivity.
  - apply (proj1 (proj2 (proj2 (proj2 C10_numeric_prefix_is_accepted)))
             {["c10" := "120"]} "c10" "120" "125" "px" None 120 125 10).
    + reflexivity.
    + reflexivity.
    + discriminate.
    + reflexivity.
    + reflexivity.
    + reflexivity.
    + apply tol_absent.
    + reflexivity.
    + simpl. lia.
  - apply (proj1 (proj2 (proj2 (proj2 (proj2 C10_numeric_prefix_is_accepted))))
             {["c10" := "120"]} "c10" "120" "131" "px" None 120 131 10).
    + reflexivity.
    + reflexivity.
    + discriminate.
    + reflexivity.
    + reflexivity.
    + reflexivity.
    + apply tol_absent.
    + reflexivity.
    + simpl. lia.
  - apply (proj1 (proj2 (proj2 (proj2 (proj2 (proj2
             C10_numeric_prefix_is_accepted)))))
             (gmap string string) (mem_verify "c10" "" None)
             (mkWorld {["c10" := "120"]} []) "125" "px").
    + discriminate.
    + reflexivity.
    + reflexivity.
Defined.

(** ** The secret offset *)

(** C5: for every draw in [0, 1), the slider position
    [max(55, floor(r * 249))] is an integer between 55 and 248; its
    decimal string, which reads back as the same integer, is the value
    handed to the storage function, and the position is the left
    coordinate of the 50x50 extraction at the top coordinate 75 and of
    the composite of the 50x50 black square: every call [createCaptcha]
    makes to the image library and to the storage uses it, and a
    [createCaptcha] that returns has made all of these calls. The calls
    are made: once [createCaptcha] has a picture of which the extraction
    at that position gives the piece, and the black square is there, it
    has asked for the extraction, the square and the composite at that
    position and has run the storage function on the identifier and the
    decimal string of the position; and when the composite at that
    position gives the background and the storage function returns, it
    returns that piece and that background. *)
Theorem C5_secret_offset_range_and_use
    {S : Type} `{Platform S} (props : CreateCaptchaProps.t S) (d : Draws)
    (σ : S) :
  is_random (draw_offset d) ->
  55 <= sliderOffset (draw_offset d) <= 248
  /\ parseInt (toString (sliderOffset (draw_offset d)))
       = Num (sliderOffset (draw_offset d))
  /\ (forall c, In c (calls (snd (run (createCaptcha props d) σ))) ->
      match c with
      | StoreCaptchaId _ value =>
          value = toString (sliderOffset (draw_offset d))
      | SharpExtract rg _ =>
          rg = mkRegion (sliderOffset (draw_offset d)) 75 50 50
      | SharpCreate cr _ => cr = mkCreate 50 50 3 0 0 0
      | SharpComposite (mkOverlay _ y x _) _ =>
          x = sliderOffset (draw_offset d) /\ y = 75
      | GetCaptchaValue _ | ChangeCaptchaIdOnSuccess _ _ => False
      | Fetch _ | ArrayBuffer _ | ReadFileSync _ => True
      end)
  /\ (forall data, fst (run (createCaptcha props d) σ) = Ret data ->
      exists pre black,
        Forall acquisition_call pre
        /\ calls (snd (run (createCaptcha props d) σ))
           = (pre ++
              [SharpExtract
                 (mkRegion (sliderOffset (draw_offset d)) 75 50 50) 30;
               SharpCreate (mkCreate 50 50 3 0 0 0) 50;
               SharpComposite
                 (mkOverlay black 75 (sliderOffset (draw_offset d)) "over") 30;
               StoreCaptchaId (id data)
                 (toString (sliderOffset (draw_offset d)))])%list)
  /\ (forall (img b1 black : Buffer) (w1 : world S),
        obtains props d (mkWorld σ []) img w1 ->
        sharp_extract img
          (mkRegion (sliderOffset (draw_offset d)) 75 50 50) 30 = Ret b1 ->
        sharp_create (mkCreate 50 50 3 0 0 0) 50 = Ret black ->
        calls (snd (run (createCaptcha props d) σ))
          = (calls w1 ++
             [SharpExtract
                (mkRegion (sliderOffset (draw_offset d)) 75 50 50) 30;
              SharpCreate (mkCreate 50 50 3 0 0 0) 50;
              SharpComposite
                (mkOverlay black 75 (sliderOffset (draw_offset d)) "over") 30;
              StoreCaptchaId
                (str_or (CreateCaptchaProps.captchaId props) (draw_uuid d))
                (toString (sliderOffset (draw_offset d)))])%list
        /\ ext (snd (run (createCaptcha props d) σ))
           = snd (CreateCaptchaProps.storeCaptchaId props
                    (str_or (CreateCaptchaProps.captchaId props) (draw_uuid d))
                    (toString (sliderOffset (draw_offset d))) (ext w1))
        /\ (forall b2 : Buffer,
              sharp_composite img
                (mkOverlay black 75 (sliderOffset (draw_offset d)) "over") 30
                = Ret b2 ->
              fst (CreateCaptchaProps.storeCaptchaId props
                     (str_or (CreateCaptchaProps.captchaId props)
                        (draw_uuid d))
                     (toString (sliderOffset (draw_offset d))) (ext w1))
                = Ret tt ->
              fst (run (createCaptcha props d) σ)
                = Ret {| puzzle := "data:image/jpeg;base64," ++ base64 b1;
                         background :=
                           "data:image/jpeg;base64," ++ base64 b2;
                         id := str_or (CreateCaptchaProps.captchaId props)
                                 (draw_uuid d) |})).
Proof.
  intros Hrand. pose proof (sliderOffset_range _ Hrand) as Hrange.
  split; [exact Hrange |].
  split; [apply toString_parseInt_offset; exact Hrange |].
  unfold run.
  destruct (createCaptcha_log props d (mkWorld σ [])) as (pre & Fpre & Hlog).
  cbn [calls app] in Hlog.
  assert (Hpre : forall c, In c pre ->
            match c with
            | Fetch _ | ArrayBuffer _ | ReadFileSync _ => True
            | _ => False
            end).
  { intros c Hc. rewrite Forall_forall in Fpre.
    apply list_elem_of_In in Hc. exact (Fpre c Hc). }
  split; [| split].
  - intros c Hc.
    destruct Hlog as [[E _] | [[E _] | (black & E & _)]]; rewrite E in Hc;
      repeat (apply in_app_or in Hc; destruct Hc as [Hc | Hc]);
      try (specialize (Hpre c Hc); destruct c; tauto);
      simpl in Hc; intuition (subst; auto).
  - intros data Hdata.
    destruct Hlog as [[_ Hno] | [[_ Hno] | (black & E & Hid)]];
      try (exfalso; exact (Hno data Hdata)).
    exists pre, black. split; [exact Fpre |].
    rewrite E, (Hid data Hdata). reflexivity.
  - intros img b1 black w1 Hobt Hextract Hcreate.
    rewrite (createCaptcha_pictured props d (mkWorld σ []) w1 img Hobt).
    unfold sharp_extract, sharp_composite in *.
    destruct (sharp img) as [inst | e]; [| discriminate Hextract].
    cbv zeta. rewrite Hextract, Hcreate. unfold image_calls.
    destruct (CreateCaptchaProps.storeCaptchaId _ _ _ _) as [r3 s3].
    cbn [fst snd].
    destruct (composite_blur_jpeg _ _ _) as [b2 | e2];
      [destruct r3 as [[] | e3] |];
      cbn [fst snd ext calls];
      (split; [reflexivity | split; [reflexivity |]]);
      intros b Hb Hr; try discriminate Hb; try discriminate Hr.
    injection Hb as <-. reflexivity.
Qed.

Lemma C5_secret_offset_range_and_use_witness :
  (55 <= sliderOffset (2 ^ 1073) <= 248
   /\ parseInt (toString (sliderOffset (2 ^ 1073)))
      = Num (sliderOffset (2 ^ 1073)))
  /\ calls (snd (run (createCaptcha (H := plain_platform)
                        (mem_create (Some one_byte) None)
                        (mkDraws (2 ^ 1073) "uuid" 0)) ∅))
     = [SharpExtract (mkRegion 124 75 50 50) 30;
        SharpCreate (mkCreate 50 50 3 0 0 0) 50;
        SharpComposite (mkOverlay [] 75 124 "over") 30;
        StoreCaptchaId "uuid" "124"]
  /\ ext (snd (run (createCaptcha (H := plain_platform)
                      (mem_create (Some one_byte) None)
                      (mkDraws (2 ^ 1073) "uuid" 0)) ∅))
     = {["uuid" := "124"]}
  /\ fst (run (createCaptcha (H := plain_platform)
                 (mem_create (Some one_byte) None)
                 (mkDraws (2 ^ 1073) "uuid" 0)) ∅)
     = Ret {| puzzle := "data:image/jpeg;base64,";
              background := "data:image/jpeg;base64,";
              id := "uuid" |}.
Proof.
  assert (Hrand : is_random (draw_offset (mkDraws (2 ^ 1073) "uuid" 0))).
  { split; [split |]; [apply Z.leb_le | apply Z.ltb_lt |]; vm_compute;
      reflexivity. }
  destruct (C5_secret_offset_range_and_use (H := plain_platform)
              (mem_create (Some one_byte) None)
              (mkDraws (2 ^ 1073) "uuid" 0) ∅ Hrand)
    as (Hr & Hp & _ & _ & Hmade).
  destruct (Hmade one_byte one_byte [] (mkWorld ∅ [])
              (or_introl (conj eq_refl eq_refl)) eq_refl eq_refl)
    as (Hcalls & Hext & Hret).
  split; [split; [exact Hr | exact Hp] |].
  split; [exact Hcalls |].
  split; [exact Hext |].
  exact (Hret one_byte eq_refl eq_refl).
Defined.

(** ** The identifier of a challenge *)

(** C8, as stated, at a caller-supplied identifier that is the empty
    string: the claim returns it; the code returns the identifier that
    [randomUUID()] gave. *)
Lemma C8_empty_id_counterexample :
  CreateCaptchaProps.captchaId (mem_create (Some one_byte) (Some "")) = Some ""
  /\ fst (run (createCaptcha (H := plain_platform)
                 (mem_create (Some one_byte) (Some ""))
                 (mkDraws (2 ^ 1073) "uuid-1" 0)) ∅)
     = Ret {| puzzle := "data:image/jpeg;base64,";
              background := "data:image/jpeg;base64,";
              id := "uuid-1" |}
  /\ "uuid-1" <> "".
Proof. repeat split; try reflexivity. discriminate. Qed.

(** C8, amended: a [createCaptcha] that returns gives the caller-supplied
    [captchaId] as the [id] when one is supplied and is not the empty
    string, and the value of [randomUUID()] when none is supplied or the
    empty string is; in both cases the storage function was called with
    the returned [id] and the decimal string of the slider position, and
    with nothing else. *)
Theorem C8_returned_id_is_stored_id
    {S : Type} `{Platform S} (props : CreateCaptchaProps.t S) (d : Draws)
    (σ : S) (data : CaptchaData) :
  fst (run (createCaptcha props d) σ) = Ret data ->
  (forall supplied,
      CreateCaptchaProps.captchaId props = Some supplied ->
      supplied <> "" -> id data = supplied)
  /\ (CreateCaptchaProps.captchaId props = None
      \/ CreateCaptchaProps.captchaId props = Some "" ->
      id data = draw_uuid d)
  /\ In (StoreCaptchaId (id data) (toString (sliderOffset (draw_offset d))))
       (calls (snd (run (createCaptcha props d) σ)))
  /\ (forall i v,
        In (StoreCaptchaId i v) (calls (snd (run (createCaptcha props d) σ))) ->
        i = id data /\ v = toString (sliderOffset (draw_offset d))).
Proof.
  unfold run. intros Hdata.
  destruct (createCaptcha_log props d (mkWorld σ [])) as (pre & Fpre & Hlog).
  cbn [calls app] in Hlog.
  destruct Hlog as [[_ Hno] | [[_ Hno] | (black & E & Hid)]];
    try (exfalso; exact (Hno data Hdata)).
  specialize (Hid data Hdata). rewrite E, Hid. clear E.
  split; [| split; [| split]].
  - intros supplied Hs Hne. rewrite Hs.
    destruct supplied; [contradiction | reflexivity].
  - intros [Hn | He]; [rewrite Hn | rewrite He]; reflexivity.
  - apply in_or_app. right. simpl. auto.
  - intros i v Hin. apply in_app_or in Hin as [Hin | Hin].
    + rewrite Forall_forall in Fpre. apply list_elem_of_In in Hin.
      destruct (Fpre _ Hin).
    + simpl in Hin.
      destruct Hin as [Hin | [Hin | [Hin | [Hin | []]]]]; try discriminate Hin.
      injection Hin as <- <-. split; reflexivity.
Qed.

Lemma C8_returned_id_is_stored_id_witness :
  (forall supplied,
      Some "mine" = Some supplied -> supplied <> "" -> "mine" = supplied)
  /\ (Some "mine" = None \/ Some "mine" = Some "" -> "mine" = "uuid-1")
  /\ In (StoreCaptchaId "mine" "124")
       (calls (snd (run (createCaptcha (H := plain_platform)
                           (mem_create (Some one_byte) (Some "mine"))
                           (mkDraws (2 ^ 1073) "uuid-1" 0)) ∅)))
  /\ (forall i v,
        In (StoreCaptchaId i v)
          (calls (snd (run (createCaptcha (H := plain_platform)
                              (mem_create (Some one_byte) (Some "mine"))
                              (mkDraws (2 ^ 1073) "uuid-1" 0)) ∅))) ->
        i = "mine" /\ v = "124").
Proof.
  apply (C8_returned_id_is_stored_id (H := plain_platform)
           (mem_create (Some one_byte) (Some "mine"))
           (mkDraws (2 ^ 1073) "uuid-1" 0) ∅
           {| puzzle := "data:image/jpeg;base64,";
              background := "data:image/jpeg;base64,";
              id := "mine" |}).
  reflexivity.
Defined.

(** * Further properties *)

(** ** The picture [getCaptchaImage] asks for *)

Lemma fmul_500_lt (m : Z) :
  is_random m -> 0 <= fmul m 500 < 500 * 2 ^ unit_exp.
Proof.
  intros Hm. pose proof (is_random_max m Hm) as Hmax.
  destruct Hm as [[Hlo Hhi] _]. unfold unit_exp in *. unfold fmul.
  split; [apply round53_nonneg; lia |].
  assert (HU : 0 < 2 ^ 1021) by (apply Z.pow_pos_nonneg; lia).
  assert (H74 : 2 ^ 1074 = 2 ^ 53 * 2 ^ 1021)
    by (rewrite <- pow2_split by lia; reflexivity).
  assert (H29 : 2 ^ 1029 = 2 ^ 8 * 2 ^ 1021)
    by (rewrite <- pow2_split by lia; reflexivity).
  assert (H83 : 2 ^ 1083 = 2 ^ 9 * 2 ^ 1074)
    by (rewrite <- pow2_split by lia; reflexivity).
  destruct (round53_upper (m * 500) ltac:(lia)) as [Hle | [Hlog Hle]].
  - rewrite H74 in *. change (2 ^ 53) with 9007199254740992 in *. nia.
  - assert (Hpos : 0 < m * 500).
    { destruct (Z.eq_dec (m * 500) 0) as [E | E]; [| lia].
      rewrite E in Hlog. simpl in Hlog. lia. }
    assert (Hl : Z.log2 (m * 500) < 1083).
    { apply Z.log2_lt_pow2; [exact Hpos |]. rewrite H83.
      change (2 ^ 9) with 512. lia. }
    assert (Hhalf : 2 ^ (Z.log2 (m * 500) - 53) <= 2 ^ 1029)
      by (apply Z.pow_le_mono_r; lia).
    rewrite H29 in Hhalf. rewrite H74 in *.
    change (2 ^ 53) with 9007199254740992 in *.
    change (2 ^ 8) with 256 in *.
    set (U := 2 ^ 1021) in *. lia.
Qed.

Section AcquisitionRuns.
Context {S : Type} `{Platform S}.
Variable path : option string.
Variable m : Z.
Variable w : world S.

Lemma fallback_exists_usable (p : string) (x : world S) :
  fallback_at path (ext x) p ->
  fallback_exists path x = (Ret (Some p), x).
Proof.
  intros (-> & Hne & Hex). unfold fallback_exists. rewrite Hex.
  destruct p; [contradiction | reflexivity].
Qed.

Lemma fallback_exists_none (x : world S) :
  no_fallback path (ext x) ->
  fallback_exists path x = (Ret None, x).
Proof.
  intros [-> | [-> | (p & -> & Hex)]]; unfold fallback_exists;
    try reflexivity.
  rewrite Hex, andb_false_r. reflexivity.
Qed.

(** The first thing [getCaptchaImage] does is the request. *)
Lemma getCaptchaImage_unfold :
  getCaptchaImage path m w =
    match fetch (picsum_url m) (ext w) with
    | (Ret response, s1) =>
        let w1 := mkWorld s1 (calls w ++ [Fetch (picsum_url m)]) in
        try_catch
          (if ok response then
             buf ← invoke (ArrayBuffer (picsum_url m)) (arrayBuffer response);
             mret (Some buf)
           else
             fallback ← fallback_exists path;
             match fallback with
             | Some p => read_fallback p
             | None => mret None
             end)
          (fun error =>
             fallback ← fallback_exists path;
             match fallback with
             | Some p =>
                 try_catch (read_fallback p)
                   (fun fallbackError =>
                      throw (ErrorExn
                        ("Failed to fetch image from API and fallback: "
                         ++ error_message fallbackError)))
             | None =>
                 throw (ErrorExn
                   ("Failed to fetch captcha image: " ++ error_message error))
             end) w1
    | (Throw error, s1) =>
        let w1 := mkWorld s1 (calls w ++ [Fetch (picsum_url m)]) in
        (fallback ← fallback_exists path;
         match fallback with
         | Some p =>
             try_catch (read_fallback p)
               (fun fallbackError =>
                  throw (ErrorExn
                    ("Failed to fetch image from API and fallback: "
                     ++ error_message fallbackError)))
         | None =>
             throw (ErrorExn
               ("Failed to fetch captcha image: " ++ error_message error))
         end) w1
    end.
Proof.
  unfold getCaptchaImage, try_catch, mbind, Async_bind, invoke.
  fold (picsum_url m).
  destruct (fetch (picsum_url m) (ext w)) as [[response | error] s1];
    reflexivity.
Qed.

Lemma read_fallback_run (p : string) (x : world S) :
  read_fallback p x =
    match fs_readFileSync p (ext x) with
    | (Ret buf, s') => (Ret (Some buf), mkWorld s' (calls x ++ [ReadFileSync p]))
    | (Throw e, s') => (Throw e, mkWorld s' (calls x ++ [ReadFileSync p]))
    end.
Proof.
  unfold read_fallback, mbind, Async_bind, invoke.
  destruct (fs_readFileSync p (ext x)) as [[buf | e] s']; reflexivity.
Qed.

(** After the request, [getCaptchaImage] talks to the network and the
    file system only. *)
Lemma getCaptchaImage_after_fetch :
  exists l,
    Forall acquisition_call l
    /\ calls (snd (getCaptchaImage path m w))
       = (calls w ++ Fetch (picsum_url m) :: l)%list.
Proof.
  assert (Hcatch : forall error : exn,
            logs acquisition_call
              (fallback ← fallback_exists path;
               match fallback with
               | Some p =>
                   try_catch (read_fallback p)
                     (fun fallbackError =>
                        throw (ErrorExn
                          ("Failed to fetch image from API and fallback: "
                           ++ error_message fallbackError)))
               | None =>
                   throw (ErrorExn
                     ("Failed to fetch captcha image: "
                      ++ error_message error))
               end : Async S (option Buffer))).
  { intros error. apply logs_bind; [apply logs_fallback_exists |].
    intros [q |]; [| apply logs_throw].
    apply logs_try_catch; [apply logs_read_fallback |].
    intros fe. apply logs_throw. }
  rewrite getCaptchaImage_unfold.
  destruct (fetch (picsum_url m) (ext w)) as [[response | error] s1];
    cbv zeta;
    match goal with
    | |- context [calls (snd (?K ?W))] =>
        assert (HK : logs acquisition_call K); [| destruct (HK W) as (l & E & F)]
    end.
  - apply logs_try_catch; [| exact Hcatch].
    destruct (ok response).
    + apply logs_bind; [apply logs_invoke; exact I |].
      intros buf. apply logs_ret.
    + apply logs_bind; [apply logs_fallback_exists |].
      intros [q |]; [apply logs_read_fallback | apply logs_ret].
  - exists l. split; [exact F |]. rewrite E. cbn [calls].
    rewrite <- app_assoc. reflexivity.
  - apply Hcatch.
  - exists l. split; [exact F |]. rewrite E. cbn [calls].
    rewrite <- app_assoc. reflexivity.
Qed.

End AcquisitionRuns.

(** X1: for every draw in [0, 1) the picture asked for has a number
    between 0 and 499, and the request for it is the first call
    [getCaptchaImage] makes. *)
Theorem X1_image_id_in_range
    {S : Type} `{Platform S} (path : option string) (m : Z) (σ : S) :
  is_random m ->
  (exists n, 0 <= n <= 499
     /\ picsum_url m = "https://picsum.photos/id/" ++ toString n ++ "/300/200")
  /\ (exists rest,
        calls (snd (run (getCaptchaImage path m) σ))
          = Fetch (picsum_url m) :: rest).
Proof.
  intros Hm. split.
  - exists (Math_floor (fmul m 500)). split; [| reflexivity].
    destruct (fmul_500_lt m Hm) as [Hlo Hhi]. unfold Math_floor.
    assert (HP : 0 < 2 ^ unit_exp)
      by (apply Z.pow_pos_nonneg; unfold unit_exp; lia).
    assert (fmul m 500 / 2 ^ unit_exp < 500)
      by (apply Z.div_lt_upper_bound; lia).
    assert (0 <= fmul m 500 / 2 ^ unit_exp) by (apply Z.div_pos; lia).
    lia.
  - unfold run.
    destruct (getCaptchaImage_after_fetch path m (mkWorld σ []))
      as (l & _ & E).
    exists l. exact E.
Qed.

Lemma X1_image_id_in_range_witness :
  (exists n, 0 <= n <= 499
     /\ picsum_url (2 ^ 1073)
        = "https://picsum.photos/id/" ++ toString n ++ "/300/200")
  /\ (exists rest,
        calls (snd (run (getCaptchaImage (H := plain_platform) None
                           (2 ^ 1073)) ∅))
          = Fetch (picsum_url (2 ^ 1073)) :: rest).
Proof.
  apply (X1_image_id_in_range (H := plain_platform) None (2 ^ 1073) ∅).
  split; [split; [apply Z.leb_le | apply Z.ltb_lt] |]; vm_compute;
    reflexivity.
Defined.

(** ** The outcomes of [getCaptchaImage] *)

(** X2: when the request is answered with [ok] and the body can be
    read, [getCaptchaImage] returns the body; the fallback path is not
    looked at and no file is read. *)
Theorem X2_fetched_image_is_returned
    {S : Type} `{Platform S} (path : option string) (m : Z) (σ s1 s2 : S)
    (response : Response S) (buf : Buffer) :
  fetch (picsum_url m) σ = (Ret response, s1) ->
  ok response = true ->
  arrayBuffer response s1 = (Ret buf, s2) ->
  run (getCaptchaImage path m) σ
    = (Ret (Some buf),
       mkWorld s2 [Fetch (picsum_url m); ArrayBuffer (picsum_url m)]).
Proof.
  intros Hfetch Hok Hbody. unfold run. rewrite getCaptchaImage_unfold.
  cbn [ext calls app]. rewrite Hfetch. cbv zeta. rewrite Hok.
  unfold try_catch, mbind, Async_bind, invoke. cbn [ext calls app].
  rewrite Hbody. reflexivity.
Qed.

Lemma X2_fetched_image_is_returned_witness :
  run (getCaptchaImage
         (H := scripted_platform (Some (true, Ret [Byte.x01])) None
                 (Ret []) (Ret []) (Ret []))
         (Some "fallback.jpg") 0) ∅
    = (Ret (Some [Byte.x01]),
       mkWorld ∅ [Fetch (picsum_url 0); ArrayBuffer (picsum_url 0)]).
Proof.
  apply (X2_fetched_image_is_returned
           (H := scripted_platform (Some (true, Ret [Byte.x01])) None
                   (Ret []) (Ret []) (Ret []))
           (Some "fallback.jpg") 0 ∅ ∅ ∅
           {| ok := true; arrayBuffer := fun σ' => (Ret [Byte.x01], σ') |}
           [Byte.x01]).
  - reflexivity.
  - reflexivity.
  - reflexivity.
Defined.

(** X3: when the request is answered without [ok] and there is no
    fallback file (no path, an empty path, or a path at which no file
    exists), [getCaptchaImage] returns [null] and does not throw; a
    [createCaptcha] without a picture of its own then throws ["Failed to
    obtain captcha image"], having called neither the image library nor
    the storage. *)
Theorem X3_bad_status_without_fallback_is_null
    {S : Type} `{Platform S} (path : option string) (m : Z) (σ s1 : S)
    (response : Response S) :
  fetch (picsum_url m) σ = (Ret response, s1) ->
  ok response = false ->
  no_fallback path s1 ->
  run (getCaptchaImage path m) σ
    = (Ret None, mkWorld s1 [Fetch (picsum_url m)])
  /\ (forall (props : CreateCaptchaProps.t S) (d : Draws),
        CreateCaptchaProps.image props = None ->
        CreateCaptchaProps.fallbackImgPath props = path ->
        draw_image d = m ->
        run (createCaptcha props d) σ
          = (Throw (ErrorExn "Failed to obtain captcha image"),
             mkWorld s1 [Fetch (picsum_url m)])).
Proof.
  intros Hfetch Hok Hnone.
  assert (Hrun : run (getCaptchaImage path m) σ
                 = (Ret None, mkWorld s1 [Fetch (picsum_url m)])).
  { unfold run. rewrite getCaptchaImage_unfold.
    cbn [ext calls app]. rewrite Hfetch. cbv zeta. rewrite Hok.
    unfold try_catch, mbind, Async_bind.
    rewrite (fallback_exists_none path
               (mkWorld s1 [Fetch (picsum_url m)]) Hnone).
    reflexivity. }
  split; [exact Hrun |].
  intros props d Himg Hpath Hm. unfold run in *.
  apply (createCaptcha_no_picture props d (mkWorld σ [])
           (mkWorld s1 [Fetch (picsum_url m)])
           (ErrorExn "Failed to obtain captcha image") Himg).
  right. rewrite Hpath, Hm. split; [exact Hrun | reflexivity].
Qed.

Lemma X3_bad_status_without_fallback_is_null_witness :
  run (getCaptchaImage
         (H := scripted_platform (Some (false, Ret [])) None
                 (Ret []) (Ret []) (Ret []))
         (Some "missing.jpg") 0) ∅
    = (Ret None, mkWorld ∅ [Fetch (picsum_url 0)])
  /\ (forall (props : CreateCaptchaProps.t (gmap string string)) (d : Draws),
        CreateCaptchaProps.image props = None ->
        CreateCaptchaProps.fallbackImgPath props = Some "missing.jpg" ->
        draw_image d = 0 ->
        run (createCaptcha
               (H := scripted_platform (Some (false, Ret [])) None
                       (Ret []) (Ret []) (Ret []))
               props d) ∅
          = (Throw (ErrorExn "Failed to obtain captcha image"),
             mkWorld ∅ [Fetch (picsum_url 0)])).
Proof.
  apply (X3_bad_status_without_fallback_is_null
           (H := scripted_platform (Some (false, Ret [])) None
                   (Ret []) (Ret []) (Ret []))
           (Some "missing.jpg") 0 ∅ ∅
           {| ok := false; arrayBuffer := fun σ' => (Ret [], σ') |}).
  - reflexivity.
  - reflexivity.
  - right. right. exists "missing.jpg". split; reflexivity.
Defined.

(** X4: when the request itself throws, or the body of an answer with
    [ok] cannot be read, and there is no fallback file, [getCaptchaImage]
    throws an [Error] whose message is ["Failed to fetch captcha image: "]
    followed by the message of what was thrown. *)
Theorem X4_network_error_without_fallback_throws
    {S : Type} `{Platform S} (path : option string) (m : Z) (σ s1 : S)
    (e : exn) :
  (fetch (picsum_url m) σ = (Throw e, s1) ->
   no_fallback path s1 ->
   run (getCaptchaImage path m) σ
     = (Throw (ErrorExn ("Failed to fetch captcha image: "
                         ++ error_message e)),
        mkWorld s1 [Fetch (picsum_url m)]))
  /\ (forall response s2,
        fetch (picsum_url m) σ = (Ret response, s1) ->
        ok response = true ->
        arrayBuffer response s1 = (Throw e, s2) ->
        no_fallback path s2 ->
        run (getCaptchaImage path m) σ
          = (Throw (ErrorExn ("Failed to fetch captcha image: "
                              ++ error_message e)),
             mkWorld s2
               [Fetch (picsum_url m); ArrayBuffer (picsum_url m)])).
Proof.
  split.
  - intros Hfetch Hnone. unfold run. rewrite getCaptchaImage_unfold.
    cbn [ext calls app]. rewrite Hfetch. cbv zeta.
    unfold mbind, Async_bind.
    rewrite (fallback_exists_none path
               (mkWorld s1 [Fetch (picsum_url m)]) Hnone).
    reflexivity.
  - intros response s2 Hfetch Hok Hbody Hnone. unfold run.
    rewrite getCaptchaImage_unfold.
    cbn [ext calls app]. rewrite Hfetch. cbv zeta. rewrite Hok.
    unfold try_catch, mbind, Async_bind, invoke. cbn [ext calls app].
    rewrite Hbody.
    rewrite (fallback_exists_none path
               (mkWorld s2 [Fetch (picsum_url m); ArrayBuffer (picsum_url m)])
               Hnone).
    reflexivity.
Qed.

Lemma X4_network_error_without_fallback_throws_witness :
  run (getCaptchaImage
         (H := scripted_platform None None (Ret []) (Ret []) (Ret []))
         None 0) ∅
    = (Throw (ErrorExn "Failed to fetch captcha image: network down"),
       mkWorld ∅ [Fetch (picsum_url 0)])
  /\ run (getCaptchaImage
            (H := scripted_platform
                    (Some (true, Throw (ErrorExn "aborted"))) None
                    (Ret []) (Ret []) (Ret []))
            (Some "") 0) ∅
     = (Throw (ErrorExn "Failed to fetch captcha image: aborted"),
        mkWorld ∅ [Fetch (picsum_url 0); ArrayBuffer (picsum_url 0)]).
Proof.
  split.
  - apply (proj1 (X4_network_error_without_fallback_throws
                    (H := scripted_platform None None (Ret []) (Ret [])
                            (Ret []))
                    None 0 ∅ ∅ (ErrorExn "network down"))).
    + reflexivity.
    + left. reflexivity.
  - apply (proj2 (X4_network_error_without_fallback_throws
                    (H := scripted_platform
                            (Some (true, Throw (ErrorExn "aborted"))) None
                            (Ret []) (Ret []) (Ret []))
                    (Some "") 0 ∅ ∅ (ErrorExn "aborted"))
             {| ok := true;
                arrayBuffer := fun σ' => (Throw (ErrorExn "aborted"), σ') |}
             ∅).
    + reflexivity.
    + reflexivity.
    + reflexivity.
    + right. left. reflexivity.
Defined.

(** X5: when the request throws or is answered without [ok], and there
    is a fallback file that can be read, [getCaptchaImage] returns the
    contents of that file. *)
Theorem X5_fallback_file_replaces_failed_request
    {S : Type} `{Platform S} (path : option string) (m : Z) (σ s1 s2 : S)
    (r : outcome (Response S)) (p : string) (buf : Buffer) :
  fetch (picsum_url m) σ = (r, s1) ->
  (forall response, r = Ret response -> ok response = false) ->
  fallback_at path s1 p ->
  fs_readFileSync p s1 = (Ret buf, s2) ->
  run (getCaptchaImage path m) σ
    = (Ret (Some buf), mkWorld s2 [Fetch (picsum_url m); ReadFileSync p]).
Proof.
  intros Hfetch Hbad Hfb Hread. unfold run. rewrite getCaptchaImage_unfold.
  cbn [ext calls app]. rewrite Hfetch.
  destruct r as [response | e]; cbv zeta.
  - rewrite (Hbad response eq_refl).
    unfold try_catch, mbind, Async_bind.
    rewrite (fallback_exists_usable path p
               (mkWorld s1 [Fetch (picsum_url m)]) Hfb).
    rewrite read_fallback_run. cbn [ext calls app]. rewrite Hread.
    reflexivity.
  - unfold try_catch, mbind, Async_bind.
    rewrite (fallback_exists_usable path p
               (mkWorld s1 [Fetch (picsum_url m)]) Hfb).
    rewrite read_fallback_run. cbn [ext calls app]. rewrite Hread.
    reflexivity.
Qed.

Lemma X5_fallback_file_replaces_failed_request_witness :
  run (getCaptchaImage
         (H := scripted_platform None (Some (Ret [Byte.x02]))
                 (Ret []) (Ret []) (Ret []))
         (Some "fallback.jpg") 0) ∅
    = (Ret (Some [Byte.x02]),
       mkWorld ∅ [Fetch (picsum_url 0); ReadFileSync "fallback.jpg"]).
Proof.
  apply (X5_fallback_file_replaces_failed_request
           (H := scripted_platform None (Some (Ret [Byte.x02]))
                   (Ret []) (Ret []) (Ret []))
           (Some "fallback.jpg") 0 ∅ ∅ ∅
           (Throw (ErrorExn "network down")) "fallback.jpg" [Byte.x02]).
  - reflexivity.
  - intros response Hr. discriminate Hr.
  - split; [reflexivity | split; [discriminate | reflexivity]].
  - reflexivity.
Defined.

(** X6: when the request is answered without [ok] and reading the
    fallback file throws, the [catch] block finds the file again and
    reads it a second time: [getCaptchaImage] returns what the second
    reading gives, or throws an [Error] whose message is ["Failed to
    fetch image from API and fallback: "] followed by the message of the
    second failure. *)
Theorem X6_unreadable_fallback_is_read_twice
    {S : Type} `{Platform S} (path : option string) (m : Z) (σ s1 s2 s3 : S)
    (response : Response S) (p : string) (e1 : exn)
    (second : outcome Buffer) :
  fetch (picsum_url m) σ = (Ret response, s1) ->
  ok response = false ->
  fallback_at path s1 p ->
  fs_readFileSync p s1 = (Throw e1, s2) ->
  fallback_at path s2 p ->
  fs_readFileSync p s2 = (second, s3) ->
  run (getCaptchaImage path m) σ
    = (match second with
       | Ret buf => Ret (Some buf)
       | Throw e2 =>
           Throw (ErrorExn ("Failed to fetch image from API and fallback: "
                            ++ error_message e2))
       end,
       mkWorld s3
         [Fetch (picsum_url m); ReadFileSync p; ReadFileSync p]).
Proof.
  intros Hfetch Hok Hfb1 Hread1 Hfb2 Hread2. unfold run.
  rewrite getCaptchaImage_unfold.
  cbn [ext calls app]. rewrite Hfetch. cbv zeta. rewrite Hok.
  unfold try_catch, mbind, Async_bind.
  rewrite (fallback_exists_usable path p
             (mkWorld s1 [Fetch (picsum_url m)]) Hfb1).
  rewrite read_fallback_run. cbn [ext calls app]. rewrite Hread1.
  rewrite (fallback_exists_usable path p
             (mkWorld s2 [Fetch (picsum_url m); ReadFileSync p]) Hfb2).
  rewrite read_fallback_run. cbn [ext calls app]. rewrite Hread2.
  destruct second; reflexivity.
Qed.

Lemma X6_unreadable_fallback_is_read_twice_witness :
  run (getCaptchaImage
         (H := scripted_platform (Some (false, Ret []))
                 (Some (Throw (ErrorExn "EACCES")))
                 (Ret []) (Ret []) (Ret []))
         (Some "fallback.jpg") 0) ∅
    = (Throw (ErrorExn ("Failed to fetch image from API and fallback: "
                        ++ error_message (ErrorExn "EACCES"))),
       mkWorld ∅
         [Fetch (picsum_url 0);
          ReadFileSync "fallback.jpg"; ReadFileSync "fallback.jpg"]).
Proof.
  apply (X6_unreadable_fallback_is_read_twice
           (H := scripted_platform (Some (false, Ret []))
                   (Some (Throw (ErrorExn "EACCES")))
                   (Ret []) (Ret []) (Ret []))
           (Some "fallback.jpg") 0 ∅ ∅ ∅ ∅
           {| ok := false; arrayBuffer := fun σ' => (Ret [], σ') |}
           "fallback.jpg" (ErrorExn "EACCES") (Throw (ErrorExn "EACCES"))).
  - reflexivity.
  - reflexivity.
  - split; [reflexivity | split; [discriminate | reflexivity]].
  - reflexivity.
  - split; [reflexivity | split; [discriminate | reflexivity]].
  - reflexivity.
Defined.

(** What the [catch] block of [getCaptchaImage] throws. *)
Lemma getCaptchaImage_catch_throws
    {S : Type} `{Platform S} (path : option string) (error e : exn)
    (x : world S) :
  fst ((fallback ← fallback_exists path;
        match fallback with
        | Some p =>
            try_catch (read_fallback p)
              (fun fallbackError =>
                 throw (ErrorExn
                   ("Failed to fetch image from API and fallback: "
                    ++ error_message fallbackError)))
        | None =>
            throw (ErrorExn
              ("Failed to fetch captcha image: " ++ error_message error))
        end : Async S (option Buffer)) x) = Throw e ->
  exists cause,
    e = ErrorExn ("Failed to fetch image from API and fallback: " ++ cause)
    \/ e = ErrorExn ("Failed to fetch captcha image: " ++ cause).
Proof.
  unfold mbind, Async_bind, fallback_exists.
  assert (Hsome : forall p,
            fst (try_catch (read_fallback p)
                   (fun fallbackError : exn =>
                      throw (ErrorExn
                        ("Failed to fetch image from API and fallback: "
                         ++ error_message fallbackError))) x) = Throw e ->
            exists cause,
              e = ErrorExn ("Failed to fetch image from API and fallback: "
                            ++ cause)
              \/ e = ErrorExn ("Failed to fetch captcha image: " ++ cause)).
  { intros p. unfold try_catch. rewrite read_fallback_run.
    destruct (fs_readFileSync p (ext x)) as [[buf | e2] s']; cbn [fst].
    - discriminate.
    - intros [= <-]. exists (error_message e2). left. reflexivity. }
  assert (Hnone : fst (throw (ErrorExn ("Failed to fetch captcha image: "
                                        ++ error_message error)) x
                       : outcome (option Buffer) * world S) = Throw e ->
            exists cause,
              e = ErrorExn ("Failed to fetch image from API and fallback: "
                            ++ cause)
              \/ e = ErrorExn ("Failed to fetch captcha image: " ++ cause)).
  { intros [= <-]. exists (error_message error). right. reflexivity. }
  destruct path as [p |]; [destruct (_ && _) |]; cbv beta iota;
    [apply Hsome | exact Hnone | exact Hnone].
Qed.

(** X7: whatever [getCaptchaImage] throws is an [Error] of its own,
    whose message starts with ["Failed to fetch image from API and
    fallback: "] or with ["Failed to fetch captcha image: "]: no
    exception of [fetch] or of the file system passes through as it
    is. *)
Theorem X7_acquisition_errors_are_wrapped
    {S : Type} `{Platform S} (path : option string) (m : Z) (w : world S)
    (e : exn) :
  fst (getCaptchaImage path m w) = Throw e ->
  exists cause,
    e = ErrorExn ("Failed to fetch image from API and fallback: " ++ cause)
    \/ e = ErrorExn ("Failed to fetch captcha image: " ++ cause).
Proof.
  rewrite getCaptchaImage_unfold.
  destruct (fetch (picsum_url m) (ext w)) as [[response | error] s1];
    cbv zeta.
  - unfold try_catch at 1.
    match goal with
    | |- context [match ?b ?x with _ => _ end] => destruct (b x) as [[a | e'] w']
    end.
    + discriminate.
    + apply getCaptchaImage_catch_throws.
  - apply getCaptchaImage_catch_throws.
Qed.

Lemma X7_acquisition_errors_are_wrapped_witness :
  exists cause,
    ErrorExn "Failed to fetch captcha image: network down"
      = ErrorExn ("Failed to fetch image from API and fallback: " ++ cause)
    \/ ErrorExn "Failed to fetch captcha image: network down"
       = ErrorExn ("Failed to fetch captcha image: " ++ cause).
Proof.
  apply (X7_acquisition_errors_are_wrapped
           (H := scripted_platform None None (Ret []) (Ret []) (Ret []))
           None 0 (mkWorld ∅ [])).
  reflexivity.
Defined.

(** ** [createCaptcha] with a picture of the caller *)

(** With a picture of its own, [createCaptcha] makes no call but the
    four to the image library and to the storage. *)
Lemma createCaptcha_supplied_calls
    {S : Type} `{Platform S} (props : CreateCaptchaProps.t S) (d : Draws)
    (w : world S) (img : Buffer) :
  CreateCaptchaProps.image props = Some img ->
  exists l black,
    calls (snd (createCaptcha props d w)) = (calls w ++ l)%list
    /\ (l = []
        \/ l = image_calls (sliderOffset (draw_offset d))
        \/ l = (image_calls (sliderOffset (draw_offset d))
                ++ [SharpComposite
                      (mkOverlay black 75 (sliderOffset (draw_offset d))
                         "over") 30;
                    StoreCaptchaId
                      (str_or (CreateCaptchaProps.captchaId props)
                         (draw_uuid d))
                      (toString (sliderOffset (draw_offset d)))])%list).
Proof.
  intros Himg.
  rewrite (createCaptcha_pictured props d w w img
             (or_introl (conj Himg eq_refl))).
  destruct (sharp img) as [inst | e0];
    [| exists [], []; split; [symmetry; apply app_nil_r | left; reflexivity]].
  cbv zeta.
  assert (Hrest : forall p1 : outcome Buffer,
    let r : completion CaptchaData * world S :=
      match sharp_create (mkCreate 50 50 3 0 0 0) 50 with
      | Throw e =>
          (Settles (Throw e),
           mkWorld (ext w)
             (calls w ++ image_calls (sliderOffset (draw_offset d))))
      | Ret black =>
          let '(r3, s3) :=
            CreateCaptchaProps.storeCaptchaId props
              (str_or (CreateCaptchaProps.captchaId props) (draw_uuid d))
              (toString (sliderOffset (draw_offset d))) (ext w) in
          let w' :=
            mkWorld s3
              (calls w ++ image_calls (sliderOffset (draw_offset d))
               ++ [SharpComposite
                     (mkOverlay black 75 (sliderOffset (draw_offset d))
                        "over") 30;
                   StoreCaptchaId
                     (str_or (CreateCaptchaProps.captchaId props)
                        (draw_uuid d))
                     (toString (sliderOffset (draw_offset d)))]) in
          match p1 with
          | Throw e => (Settles (Throw e), w')
          | Ret b1 =>
              match composite_blur_jpeg inst
                      (mkOverlay black 75 (sliderOffset (draw_offset d))
                         "over") 30 with
              | Throw e => (Settles (Throw e), w')
              | Ret b2 =>
                  match r3 with
                  | Throw e => (Settles (Throw e), w')
                  | Ret _ =>
                      (Settles
                         (Ret {| puzzle :=
                                   "data:image/jpeg;base64," ++ base64 b1;
                                 background :=
                                   "data:image/jpeg;base64," ++ base64 b2;
                                 id := str_or
                                         (CreateCaptchaProps.captchaId props)
                                         (draw_uuid d) |}),
                       w')
                  end
              end
          end
      end in
    exists l black,
      calls (snd r) = (calls w ++ l)%list
      /\ (l = []
          \/ l = image_calls (sliderOffset (draw_offset d))
          \/ l = (image_calls (sliderOffset (draw_offset d))
                  ++ [SharpComposite
                        (mkOverlay black 75 (sliderOffset (draw_offset d))
                           "over") 30;
                      StoreCaptchaId
                        (str_or (CreateCaptchaProps.captchaId props)
                           (draw_uuid d))
                        (toString (sliderOffset (draw_offset d)))])%list)).
  { intros p1. cbv zeta.
    destruct (sharp_create _ _) as [black | e2].
    - destruct (CreateCaptchaProps.storeCaptchaId _ _ _ _) as [r3 s3].
      eexists _, black. split; [| right; right; reflexivity].
      destruct p1 as [b1 | e1];
        [destruct (composite_blur_jpeg _ _ _) as [b2 | e3];
         [destruct r3 as [[] | e4] |] |];
        reflexivity.
    - eexists _, []. split; [reflexivity | right; left; reflexivity]. }
  destruct (extract_jpeg inst _ _) as [b1 | e1]; [exact (Hrest (Ret b1)) |].
  destruct (unhandled_rejection_ends_process e1);
    [| exact (Hrest (Throw e1))].
  eexists _, []. split; [reflexivity | right; left; reflexivity].
Qed.

(** X8: a [createCaptcha] that is given a picture makes no request and
    reads no file: all of its calls go to the image library and to the
    storage function. *)
Theorem X8_supplied_image_is_not_fetched
    {S : Type} `{Platform S} (props : CreateCaptchaProps.t S) (d : Draws)
    (σ : S) (img : Buffer) :
  CreateCaptchaProps.image props = Some img ->
  forall c, In c (calls (snd (run (createCaptcha props d) σ))) ->
    match c with
    | Fetch _ | ArrayBuffer _ | ReadFileSync _ => False
    | GetCaptchaValue _ | ChangeCaptchaIdOnSuccess _ _ => False
    | StoreCaptchaId _ _ | SharpExtract _ _ | SharpCreate _ _
    | SharpComposite _ _ => True
    end.
Proof.
  intros Himg c. unfold run.
  destruct (createCaptcha_supplied_calls props d (mkWorld σ []) img Himg)
    as (l & black & -> & Hl).
  cbn [calls app]. unfold image_calls in Hl.
  destruct Hl as [-> | [-> | ->]]; simpl;
    intuition (subst; exact I).
Qed.

Lemma X8_supplied_image_is_not_fetched_witness :
  Forall (fun c => match c with
                   | Fetch _ | ArrayBuffer _ | ReadFileSync _ => False
                   | GetCaptchaValue _ | ChangeCaptchaIdOnSuccess _ _ => False
                   | StoreCaptchaId _ _ | SharpExtract _ _ | SharpCreate _ _
                   | SharpComposite _ _ => True
                   end)
    (calls (snd (run (createCaptcha (H := plain_platform)
                        (mem_create (Some one_byte) None)
                        (mkDraws (2 ^ 1073) "uuid-8" 0)) ∅))).
Proof.
  apply Forall_forall. intros c Hc. apply list_elem_of_In in Hc. revert c Hc.
  apply (X8_supplied_image_is_not_fetched (H := plain_platform)
           (mem_create (Some one_byte) None) (mkDraws (2 ^ 1073) "uuid-8" 0)
           ∅ one_byte).
  reflexivity.
Defined.

(** X9: when the black square cannot be made, the storage function is
    not called and the storage is left as it was, whatever becomes of
    the picture and of the extraction, and [createCaptcha] does not
    return; when the extraction gives the piece, [createCaptcha] throws
    what the making of the square threw, after these two calls. *)
Theorem X9_no_square_nothing_stored
    {S : Type} `{Platform S} (props : CreateCaptchaProps.t S) (d : Draws)
    (σ : S) (img : Buffer) (e : exn) :
  CreateCaptchaProps.image props = Some img ->
  sharp_create (mkCreate 50 50 3 0 0 0) 50 = Throw e ->
  (forall i v,
      ~ In (StoreCaptchaId i v) (calls (snd (run (createCaptcha props d) σ))))
  /\ ext (snd (run (createCaptcha props d) σ)) = σ
  /\ (forall data, fst (run (createCaptcha props d) σ) <> Ret data)
  /\ (forall b1,
        sharp_extract img
          (mkRegion (sliderOffset (draw_offset d)) 75 50 50) 30 = Ret b1 ->
        run (createCaptcha props d) σ
          = (Throw e,
             mkWorld σ
               [SharpExtract
                  (mkRegion (sliderOffset (draw_offset d)) 75 50 50) 30;
                SharpCreate (mkCreate 50 50 3 0 0 0) 50])).
Proof.
  intros Himg Hcreate. unfold run, sharp_extract.
  rewrite (createCaptcha_pictured props d (mkWorld σ []) (mkWorld σ []) img
             (or_introl (conj Himg eq_refl))).
  cbv zeta. rewrite Hcreate. cbn [ext calls app]. unfold image_calls.
  destruct (sharp img) as [inst | e0].
  - destruct (extract_jpeg inst _ _) as [b1 | e1];
      [| destruct (unhandled_rejection_ends_process e1)];
      cbn [fst snd ext calls];
      (split; [intros i v [Hin | [Hin | []]]; discriminate Hin |]);
      (split; [reflexivity |]);
      (split; [intros data Hd; discriminate Hd |]);
      intros b Hb; try discriminate Hb; reflexivity.
  - cbn [fst snd ext calls].
    split; [intros i v [] |].
    split; [reflexivity |].
    split; [intros data Hd; discriminate Hd | intros b Hb; discriminate Hb].
Qed.

Lemma X9_no_square_nothing_stored_witness :
  ext (snd (run (createCaptcha
                   (H := scripted_platform None None (Ret [])
                           (Throw (ErrorExn "out of memory")) (Ret []))
                   (mem_create (Some one_byte) (Some "c9"))
                   (mkDraws (2 ^ 1073) "uuid-9" 0))
              {["c9" := "verified"]}))
    = {["c9" := "verified"]}
  /\ run (createCaptcha
            (H := scripted_platform None None (Ret [])
                    (Throw (ErrorExn "out of memory")) (Ret []))
            (mem_create (Some one_byte) (Some "c9"))
            (mkDraws (2 ^ 1073) "uuid-9" 0))
       {["c9" := "verified"]}
     = (Throw (ErrorExn "out of memory"),
        mkWorld {["c9" := "verified"]}
          [SharpExtract (mkRegion (sliderOffset (2 ^ 1073)) 75 50 50) 30;
           SharpCreate (mkCreate 50 50 3 0 0 0) 50]).
Proof.
  destruct (X9_no_square_nothing_stored
              (H := scripted_platform None None (Ret [])
                      (Throw (ErrorExn "out of memory")) (Ret []))
              (mem_create (Some one_byte) (Some "c9"))
              (mkDraws (2 ^ 1073) "uuid-9" 0)
              {["c9" := "verified"]} one_byte (ErrorExn "out of memory")
              eq_refl eq_refl)
    as (_ & Hext & _ & Hrun).
  split; [exact Hext | exact (Hrun [] eq_refl)].
Defined.

(** X10: when the piece is extracted and the black square is made but
    the composition of the background fails, [createCaptcha] throws, and
    the storage function has been called all the same: the secret of a
    challenge whose background was never produced is stored. When the
    storage function returns, what [createCaptcha] throws is what the
    composition threw. *)
Theorem X10_failed_pictures_are_stored_anyway
    {S : Type} `{Platform S} (props : CreateCaptchaProps.t S) (d : Draws)
    (σ : S) (img b1 black : Buffer) (e : exn) :
  CreateCaptchaProps.image props = Some img ->
  sharp_extract img (mkRegion (sliderOffset (draw_offset d)) 75 50 50) 30
    = Ret b1 ->
  sharp_create (mkCreate 50 50 3 0 0 0) 50 = Ret black ->
  sharp_composite img
    (mkOverlay black 75 (sliderOffset (draw_offset d)) "over") 30 = Throw e ->
  (exists e', fst (run (createCaptcha props d) σ) = Throw e')
  /\ (fst (CreateCaptchaProps.storeCaptchaId props
             (str_or (CreateCaptchaProps.captchaId props) (draw_uuid d))
             (toString (sliderOffset (draw_offset d))) σ) = Ret tt ->
      fst (run (createCaptcha props d) σ) = Throw e)
  /\ calls (snd (run (createCaptcha props d) σ))
     = [SharpExtract (mkRegion (sliderOffset (draw_offset d)) 75 50 50) 30;
        SharpCreate (mkCreate 50 50 3 0 0 0) 50;
        SharpComposite
          (mkOverlay black 75 (sliderOffset (draw_offset d)) "over") 30;
        StoreCaptchaId
          (str_or (CreateCaptchaProps.captchaId props) (draw_uuid d))
          (toString (sliderOffset (draw_offset d)))]
  /\ ext (snd (run (createCaptcha props d) σ))
     = snd (CreateCaptchaProps.storeCaptchaId props
              (str_or (CreateCaptchaProps.captchaId props) (draw_uuid d))
              (toString (sliderOffset (draw_offset d))) σ).
Proof.
  intros Himg Hextract Hcreate Hcomposite.
  unfold run, sharp_extract, sharp_composite in *.
  rewrite (createCaptcha_pictured props d (mkWorld σ []) (mkWorld σ []) img
             (or_introl (conj Himg eq_refl))).
  destruct (sharp img) as [inst | e0]; [| discriminate Hextract].
  cbv zeta. rewrite Hextract, Hcreate, Hcomposite.
  cbn [ext calls app]. unfold image_calls.
  destruct (CreateCaptchaProps.storeCaptchaId _ _ _ _) as [r3 s3].
  cbn [fst snd ext calls].
  split; [exists e; reflexivity |].
  split; [intros _; reflexivity |].
  split; reflexivity.
Qed.

Lemma X10_failed_pictures_are_stored_anyway_witness :
  fst (run (createCaptcha
              (H := scripted_platform None None (Ret []) (Ret [])
                      (Throw (ErrorExn "composite failed")))
              (mem_create (Some one_byte) (Some "c10"))
              (mkDraws (2 ^ 1073) "uuid-10" 0)) ∅)
    = Throw (ErrorExn "composite failed")
  /\ calls (snd (run (createCaptcha
                        (H := scripted_platform None None (Ret []) (Ret [])
                                (Throw (ErrorExn "composite failed")))
                        (mem_create (Some one_byte) (Some "c10"))
                        (mkDraws (2 ^ 1073) "uuid-10" 0)) ∅))
     = [SharpExtract (mkRegion 124 75 50 50) 30;
        SharpCreate (mkCreate 50 50 3 0 0 0) 50;
        SharpComposite (mkOverlay [] 75 124 "over") 30;
        StoreCaptchaId "c10" "124"]
  /\ ext (snd (run (createCaptcha
                      (H := scripted_platform None None (Ret []) (Ret [])
                              (Throw (ErrorExn "composite failed")))
                      (mem_create (Some one_byte) (Some "c10"))
                      (mkDraws (2 ^ 1073) "uuid-10" 0)) ∅))
     = {["c10" := "124"]}.
Proof.
  destruct (X10_failed_pictures_are_stored_anyway
              (H := scripted_platform None None (Ret []) (Ret [])
                      (Throw (ErrorExn "composite failed")))
              (mem_create (Some one_byte) (Some "c10"))
              (mkDraws (2 ^ 1073) "uuid-10" 0) ∅ one_byte [] []
              (ErrorExn "composite failed") eq_refl eq_refl eq_refl eq_refl)
    as (_ & Hthrow & Hcalls & Hext).
  split; [exact (Hthrow eq_refl) |].
  split; [exact Hcalls | exact Hext].
Defined.

(** X11: when the pictures are produced and the storage function
    throws, [createCaptcha] throws that very exception: unlike
    [verifyCaptcha], it hands the failures of the storage on to its
    caller. *)
Theorem X11_storage_failure_reaches_the_caller
    {S : Type} `{Platform S} (props : CreateCaptchaProps.t S) (d : Draws)
    (σ s' : S) (img black b1 b2 : Buffer) (e : exn) :
  CreateCaptchaProps.image props = Some img ->
  sharp_create (mkCreate 50 50 3 0 0 0) 50 = Ret black ->
  sharp_extract img (mkRegion (sliderOffset (draw_offset d)) 75 50 50) 30
    = Ret b1 ->
  sharp_composite img
    (mkOverlay black 75 (sliderOffset (draw_offset d)) "over") 30 = Ret b2 ->
  CreateCaptchaProps.storeCaptchaId props
    (str_or (CreateCaptchaProps.captchaId props) (draw_uuid d))
    (toString (sliderOffset (draw_offset d))) σ = (Throw e, s') ->
  fst (run (createCaptcha props d) σ) = Throw e
  /\ ext (snd (run (createCaptcha props d) σ)) = s'.
Proof.
  intros Himg Hcreate Hextract Hcomposite Hstore.
  unfold run, sharp_extract, sharp_composite in *.
  rewrite (createCaptcha_pictured props d (mkWorld σ []) (mkWorld σ []) img
             (or_introl (conj Himg eq_refl))).
  destruct (sharp img) as [inst | e0]; [| discriminate Hextract].
  cbv zeta. rewrite Hextract, Hcreate, Hcomposite.
  cbn [ext calls app]. rewrite Hstore. split; reflexivity.
Qed.

Lemma X11_storage_failure_reaches_the_caller_witness :
  fst (run (createCaptcha (H := plain_platform)
              (CreateCaptchaProps.mk (Some one_byte) None None
                 (fun _ _ σ => (Throw (ErrorExn "READONLY"), σ)))
              (mkDraws (2 ^ 1073) "uuid-11" 0)) ∅)
    = Throw (ErrorExn "READONLY")
  /\ ext (snd (run (createCaptcha (H := plain_platform)
                      (CreateCaptchaProps.mk (Some one_byte) None None
                         (fun _ _ σ => (Throw (ErrorExn "READONLY"), σ)))
                      (mkDraws (2 ^ 1073) "uuid-11" 0)) ∅)) = ∅.
Proof.
  apply (X11_storage_failure_reaches_the_caller (H := plain_platform)
           (CreateCaptchaProps.mk (Some one_byte) None None
              (fun _ _ σ => (Throw (ErrorExn "READONLY"), σ)))
           (mkDraws (2 ^ 1073) "uuid-11" 0) ∅ ∅ one_byte [] one_byte one_byte
           (ErrorExn "READONLY")).
  - reflexivity.
  - reflexivity.
  - reflexivity.
  - reflexivity.
  - reflexivity.
Defined.

(** ** The constructor and the promise of the extraction *)

(** X27: a picture that the constructor of the image library refuses
    (an empty [Buffer]) makes [createCaptcha] throw what the constructor
    threw before it has asked for any picture or stored anything: its
    calls are those of the image acquisition, and none when the caller
    supplied the picture. *)
Theorem X27_refused_picture_is_thrown_at_once
    {S : Type} `{Platform S} (props : CreateCaptchaProps.t S) (d : Draws)
    (σ : S) (img : Buffer) (w1 : world S) (e : exn) :
  obtains props d (mkWorld σ []) img w1 ->
  sharp img = Throw e ->
  run (createCaptcha props d) σ = (Throw e, w1)
  /\ (CreateCaptchaProps.image props = Some img -> w1 = mkWorld σ []).
Proof.
  intros Hobt Hsharp. unfold run.
  rewrite (createCaptcha_pictured props d (mkWorld σ []) w1 img Hobt), Hsharp.
  split; [reflexivity |].
  intros Himg. destruct Hobt as [[_ ->] | [Hnone _]]; [reflexivity |].
  rewrite Himg in Hnone. discriminate Hnone.
Qed.

Lemma X27_refused_picture_is_thrown_at_once_witness :
  run (createCaptcha (H := plain_platform)
         (mem_create (Some []) (Some "c27")) (mkDraws (2 ^ 1073) "uuid-27" 0))
    {["c27" := "verified"]}
    = (Throw (ErrorExn "Input Buffer is empty"),
       mkWorld {["c27" := "verified"]} []).
Proof.
  apply (X27_refused_picture_is_thrown_at_once (H := plain_platform)
           (mem_create (Some []) (Some "c27")) (mkDraws (2 ^ 1073) "uuid-27" 0)
           {["c27" := "verified"]} [] (mkWorld {["c27" := "verified"]} [])
           (ErrorExn "Input Buffer is empty")).
  - left. split; reflexivity.
  - reflexivity.
Defined.

(** X28: the promise of the extraction has no handler while
    [createCaptcha] waits for the black square. When the extraction is
    rejected and the host ends the process on a rejection that nothing
    handles, as Node does by default, the process ends after the two
    calls of the extraction and of the square: [createCaptcha] neither
    returns nor throws to its caller, and the storage function is never
    called. *)
Theorem X28_rejected_extraction_can_end_the_process
    {S : Type} `{Platform S} (props : CreateCaptchaProps.t S) (d : Draws)
    (σ : S) (img : Buffer) (inst : Sharp) (e : exn) :
  CreateCaptchaProps.image props = Some img ->
  sharp img = Ret inst ->
  extract_jpeg inst (mkRegion (sliderOffset (draw_offset d)) 75 50 50) 30
    = Throw e ->
  unhandled_rejection_ends_process e = true ->
  run (createCaptcha props d) σ
    = (ProcessEnds e,
       mkWorld σ
         [SharpExtract (mkRegion (sliderOffset (draw_offset d)) 75 50 50) 30;
          SharpCreate (mkCreate 50 50 3 0 0 0) 50]).
Proof.
  intros Himg Hsharp Hextract Hends. unfold run.
  rewrite (createCaptcha_pictured props d (mkWorld σ []) (mkWorld σ []) img
             (or_introl (conj Himg eq_refl))).
  rewrite Hsharp. cbv zeta. rewrite Hextract, Hends. reflexivity.
Qed.

Lemma X28_rejected_extraction_can_end_the_process_witness :
  run (createCaptcha
         (H := hosted_platform false None None
                 (Throw (ErrorExn "bad extract area")) (Ret []) (Ret []))
         (mem_create (Some one_byte) (Some "c28"))
         (mkDraws (2 ^ 1073) "uuid-28" 0)) ∅
    = (ProcessEnds (ErrorExn "bad extract area"),
       mkWorld ∅
         [SharpExtract (mkRegion (sliderOffset (2 ^ 1073)) 75 50 50) 30;
          SharpCreate (mkCreate 50 50 3 0 0 0) 50]).
Proof.
  apply (X28_rejected_extraction_can_end_the_process
           (H := hosted_platform false None None
                   (Throw (ErrorExn "bad extract area")) (Ret []) (Ret []))
           (mem_create (Some one_byte) (Some "c28"))
           (mkDraws (2 ^ 1073) "uuid-28" 0) ∅ one_byte (mkSharp one_byte)
           (ErrorExn "bad extract area")).
  - reflexivity.
  - reflexivity.
  - reflexivity.
  - reflexivity.
Defined.

(** X29: when the extraction is rejected and the process goes on (the
    host does not end it, or the rejection only comes once [Promise.all]
    handles it), the black square is made, the background is composed
    and the storage function returns, [createCaptcha] throws what the
    extraction threw after the storage function has run: the secret of
    a challenge that has no piece is stored. *)
Theorem X29_rejected_extraction_is_stored_when_the_process_goes_on
    {S : Type} `{Platform S} (props : CreateCaptchaProps.t S) (d : Draws)
    (σ s' : S) (img black b2 : Buffer) (inst : Sharp) (e : exn) :
  CreateCaptchaProps.image props = Some img ->
  sharp img = Ret inst ->
  extract_jpeg inst (mkRegion (sliderOffset (draw_offset d)) 75 50 50) 30
    = Throw e ->
  unhandled_rejection_ends_process e = false ->
  sharp_create (mkCreate 50 50 3 0 0 0) 50 = Ret black ->
  composite_blur_jpeg inst
    (mkOverlay black 75 (sliderOffset (draw_offset d)) "over") 30 = Ret b2 ->
  CreateCaptchaProps.storeCaptchaId props
    (str_or (CreateCaptchaProps.captchaId props) (draw_uuid d))
    (toString (sliderOffset (draw_offset d))) σ = (Ret tt, s') ->
  run (createCaptcha props d) σ
    = (Throw e,
       mkWorld s'
         [SharpExtract (mkRegion (sliderOffset (draw_offset d)) 75 50 50) 30;
          SharpCreate (mkCreate 50 50 3 0 0 0) 50;
          SharpComposite
            (mkOverlay black 75 (sliderOffset (draw_offset d)) "over") 30;
          StoreCaptchaId
            (str_or (CreateCaptchaProps.captchaId props) (draw_uuid d))
            (toString (sliderOffset (draw_offset d)))]).
Proof.
  intros Himg Hsharp Hextract Hends Hcreate Hcomposite Hstore. unfold run.
  rewrite (createCaptcha_pictured props d (mkWorld σ []) (mkWorld σ []) img
             (or_introl (conj Himg eq_refl))).
  rewrite Hsharp. cbv zeta. rewrite Hextract, Hends, Hcreate.
  cbn [ext calls app]. rewrite Hstore. reflexivity.
Qed.

Lemma X29_rejected_extraction_is_stored_when_the_process_goes_on_witness :
  run (createCaptcha
         (H := hosted_platform true None None
                 (Throw (ErrorExn "bad extract area")) (Ret []) (Ret []))
         (mem_create (Some one_byte) (Some "c29"))
         (mkDraws (2 ^ 1073) "uuid-29" 0)) ∅
    = (Throw (ErrorExn "bad extract area"),
       mkWorld {["c29" := "124"]}
         [SharpExtract (mkRegion 124 75 50 50) 30;
          SharpCreate (mkCreate 50 50 3 0 0 0) 50;
          SharpComposite (mkOverlay [] 75 124 "over") 30;
          StoreCaptchaId "c29" "124"]).
Proof.
  apply (X29_rejected_extraction_is_stored_when_the_process_goes_on
           (H := hosted_platform true None None
                   (Throw (ErrorExn "bad extract area")) (Ret []) (Ret []))
           (mem_create (Some one_byte) (Some "c29"))
           (mkDraws (2 ^ 1073) "uuid-29" 0) ∅ {["c29" := "124"]}
           one_byte [] [] (mkSharp one_byte) (ErrorExn "bad extract area")).
  - reflexivity.
  - reflexivity.
  - reflexivity.
  - reflexivity.
  - reflexivity.
  - reflexivity.
  - reflexivity.
Defined.

(** ** From [createCaptcha] to [verifyCaptcha] *)

(** The decimal string of a slider position of the client (0 to 250)
    reads back as that position. *)
Lemma toString_parseInt_slider (n : Z) :
  0 <= n <= 250 -> parseInt (toString n) = Num n.
Proof.
  intros Hn.
  assert (Hall : forallb (fun k => match parseInt (toString (Z.of_nat k)) with
                                   | Num z => z =? Z.of_nat k
                                   | _ => false
                                   end) (seq 0 251) = true)
    by (vm_compute; reflexivity).
  rewrite forallb_forall in Hall.
  specialize (Hall (Z.to_nat n)).
  replace (Z.of_nat (Z.to_nat n)) with n in Hall by lia.
  assert (Hin : In (Z.to_nat n) (seq 0 251)) by (apply in_seq; lia).
  destruct (parseInt (toString n)) as [z | |];
    [| discriminate (Hall Hin) ..].
  f_equal. apply Z.eqb_eq. exact (Hall Hin).
Qed.

(** What a [createCaptcha] that returns has done to a key-value store. *)
Lemma mem_create_returns
    `{Platform (gmap string string)} (img : Buffer)
    (captchaId : option string) (d : Draws) (σ : gmap string string)
    (data : CaptchaData) (w : world (gmap string string)) :
  run (createCaptcha (mem_create (Some img) captchaId) d) σ = (Ret data, w) ->
  id data = str_or captchaId (draw_uuid d)
  /\ ext w = <[id data := toString (sliderOffset (draw_offset d))]> σ.
Proof.
  unfold run.
  rewrite (createCaptcha_pictured (mem_create (Some img) captchaId) d
             (mkWorld σ []) (mkWorld σ []) img
             (or_introl (conj eq_refl eq_refl))).
  cbn [ext calls app mem_create CreateCaptchaProps.storeCaptchaId
       CreateCaptchaProps.captchaId mem_set].
  destruct (sharp img) as [inst | e0]; [| discriminate].
  cbv zeta.
  destruct (extract_jpeg inst _ _) as [b1 | e1];
    [| destruct (unhandled_rejection_ends_process e1); [discriminate |]];
    (destruct (sharp_create _ _); [| discriminate]);
    try discriminate.
  destruct (composite_blur_jpeg _ _ _); [| discriminate].
  intros [= <- <-]. split; reflexivity.
Qed.

(** X12: a challenge that [createCaptcha] has stored in a key-value
    store is not verified yet, and [verifyCaptcha] on it succeeds for
    exactly the submitted values that parse to an integer within the
    tolerance of the slider position drawn at creation. *)
Theorem X12_created_challenge_verifies_within_tolerance
    `{Platform (gmap string string)} (img : Buffer)
    (captchaId : option string) (d : Draws) (σ : gmap string string)
    (data : CaptchaData) (w : world (gmap string string))
    (value : string) (tolerance : option number) (u t : Z) :
  is_random (draw_offset d) ->
  run (createCaptcha (mem_create (Some img) captchaId) d) σ = (Ret data, w) ->
  parseInt value = Num u ->
  effective_tolerance tolerance t ->
  t < 2 ^ 53 ->
  ext w !! id data = Some (toString (sliderOffset (draw_offset d)))
  /\ hasCaptchaBeenVerified (toString (sliderOffset (draw_offset d))) w
     = (Ret false, w)
  /\ (fst (run (verifyCaptcha (mem_verify (id data) value tolerance)) (ext w))
        = Ret {| success := true; reason := None |}
      <-> Z.abs (sliderOffset (draw_offset d) - u) <= t).
Proof.
  intros Hrand Hrun Hu Htol Ht.
  destruct (mem_create_returns img captchaId d σ data w Hrun) as [_ Hext].
  pose proof (toString_parseInt_offset _ (sliderOffset_range _ Hrand)) as Hs.
  assert (Hstored : ext w !! id data
                    = Some (toString (sliderOffset (draw_offset d))))
    by (rewrite Hext; apply lookup_insert_eq).
  split; [exact Hstored |]. split.
  - unfold hasCaptchaBeenVerified, mret, Async_ret.
    rewrite (parseInt_Num_pending _ _ Hs). reflexivity.
  - unfold run.
    rewrite (verify_compared (mem_verify (id data) value tolerance)
               (mkWorld (ext w) []) _ (ext w) _ u
               (f_equal (fun o => (Ret o, ext w)) Hstored) Hs Hu).
    cbn [VerifyCaptchaProps.tolerance VerifyCaptchaProps.captchaId
         VerifyCaptchaProps.changeCaptchaIdOnSuccess mem_verify mem_set].
    rewrite (num_or_effective _ _ Htol), (compare_exact _ u t Ht).
    destruct (Z.leb_spec (Z.abs (sliderOffset (draw_offset d) - u)) t);
      cbn [fst]; split; intros; try reflexivity; try lia; discriminate.
Qed.

Lemma X12_created_challenge_verifies_within_tolerance_witness :
  ext (snd (run (createCaptcha (H := plain_platform)
                   (mem_create (Some one_byte) (Some "c12"))
                   (mkDraws (2 ^ 1073) "uuid-12" 0)) ∅)) !! "c12"
    = Some "124"
  /\ (fst (run (verifyCaptcha (mem_verify "c12" "130" None))
             (ext (snd (run (createCaptcha (H := plain_platform)
                               (mem_create (Some one_byte) (Some "c12"))
                               (mkDraws (2 ^ 1073) "uuid-12" 0)) ∅))))
        = Ret {| success := true; reason := None |}
      <-> Z.abs (124 - 130) <= 10).
Proof.
  assert (Hrand : is_random (draw_offset (mkDraws (2 ^ 1073) "uuid-12" 0))).
  { split; [split; [apply Z.leb_le | apply Z.ltb_lt] |]; vm_compute;
      reflexivity. }
  destruct (X12_created_challenge_verifies_within_tolerance
              (H := plain_platform) one_byte (Some "c12")
              (mkDraws (2 ^ 1073) "uuid-12" 0) ∅
              {| puzzle := "data:image/jpeg;base64,";
                 background := "data:image/jpeg;base64,";
                 id := "c12" |}
              (snd (run (createCaptcha (H := plain_platform)
                           (mem_create (Some one_byte) (Some "c12"))
                           (mkDraws (2 ^ 1073) "uuid-12" 0)) ∅))
              "130" None 130 10 Hrand eq_refl eq_refl tol_absent eq_refl)
    as (Hstored & _ & Hiff).
  split; [exact Hstored | exact Hiff].
Defined.

(** X13: every challenge can be solved from the slider of the client,
    which runs from 0 to 250 and submits its position as a decimal
    string: the position drawn at creation is on the slider, and a
    slider position verifies exactly when it is within the tolerance of
    it; in particular the drawn position itself verifies under every
    tolerance that is not negative. *)
Theorem X13_every_challenge_is_solvable_from_the_slider
    `{Platform (gmap string string)} (img : Buffer)
    (captchaId : option string) (d : Draws) (σ : gmap string string)
    (data : CaptchaData) (w : world (gmap string string))
    (tolerance : option number) (t : Z) :
  is_random (draw_offset d) ->
  run (createCaptcha (mem_create (Some img) captchaId) d) σ = (Ret data, w) ->
  effective_tolerance tolerance t ->
  0 <= t < 2 ^ 53 ->
  0 <= sliderOffset (draw_offset d) <= 250
  /\ (forall v, 0 <= v <= 250 ->
        (fst (run (verifyCaptcha
                     (mem_verify (id data) (toString v) tolerance)) (ext w))
           = Ret {| success := true; reason := None |}
         <-> Z.abs (sliderOffset (draw_offset d) - v) <= t))
  /\ run (verifyCaptcha
            (mem_verify (id data)
               (toString (sliderOffset (draw_offset d))) tolerance)) (ext w)
     = (Ret {| success := true; reason := None |},
        mkWorld (<[id data := "verified"]> (ext w))
          [GetCaptchaValue (id data);
           ChangeCaptchaIdOnSuccess (id data) "verified"]).
Proof.
  intros Hrand Hrun Htol [Ht0 Ht].
  pose proof (sliderOffset_range _ Hrand) as Hrange.
  destruct (mem_create_returns img captchaId d σ data w Hrun) as [_ Hext].
  pose proof (toString_parseInt_offset _ Hrange) as Hs.
  assert (Hstored : ext w !! id data
                    = Some (toString (sliderOffset (draw_offset d))))
    by (rewrite Hext; apply lookup_insert_eq).
  assert (Hcmp : forall v, 0 <= v <= 250 ->
            run (verifyCaptcha (mem_verify (id data) (toString v) tolerance))
              (ext w)
            = if Z.abs (sliderOffset (draw_offset d) - v) <=? t
              then (Ret VERIFIED,
                    mkWorld (<[id data := "verified"]> (ext w))
                      [GetCaptchaValue (id data);
                       ChangeCaptchaIdOnSuccess (id data) "verified"])
              else (Ret MISPLACED,
                    mkWorld (ext w) [GetCaptchaValue (id data)])).
  { intros v Hv. unfold run.
    rewrite (verify_compared (mem_verify (id data) (toString v) tolerance)
               (mkWorld (ext w) []) _ (ext w) _ v
               (f_equal (fun o => (Ret o, ext w)) Hstored) Hs
               (toString_parseInt_slider v Hv)).
    cbn [VerifyCaptchaProps.tolerance mem_verify].
    rewrite (num_or_effective _ _ Htol), (compare_exact _ v t Ht).
    reflexivity. }
  split; [lia |]. split.
  - intros v Hv. rewrite (Hcmp v Hv).
    destruct (Z.leb_spec (Z.abs (sliderOffset (draw_offset d) - v)) t);
      cbn [fst]; split; intros; try reflexivity; try lia; discriminate.
  - rewrite (Hcmp (sliderOffset (draw_offset d)) ltac:(lia)).
    destruct (Z.leb_spec (Z.abs (sliderOffset (draw_offset d)
                                 - sliderOffset (draw_offset d))) t);
      [reflexivity | lia].
Qed.

Lemma X13_every_challenge_is_solvable_from_the_slider_witness :
  0 <= sliderOffset (2 ^ 1073) <= 250
  /\ run (verifyCaptcha (mem_verify "c13" "124" None))
       (ext (snd (run (createCaptcha (H := plain_platform)
                         (mem_create (Some one_byte) (Some "c13"))
                         (mkDraws (2 ^ 1073) "uuid-13" 0)) ∅)))
     = (Ret {| success := true; reason := None |},
        mkWorld {["c13" := "verified"]}
          [GetCaptchaValue "c13"; ChangeCaptchaIdOnSuccess "c13" "verified"]).
Proof.
  assert (Hrand : is_random (draw_offset (mkDraws (2 ^ 1073) "uuid-13" 0))).
  { split; [split; [apply Z.leb_le | apply Z.ltb_lt] |]; vm_compute;
      reflexivity. }
  destruct (X13_every_challenge_is_solvable_from_the_slider
              (H := plain_platform) one_byte (Some "c13")
              (mkDraws (2 ^ 1073) "uuid-13" 0) ∅
              {| puzzle := "data:image/jpeg;base64,";
                 background := "data:image/jpeg;base64,";
                 id := "c13" |}
              (snd (run (createCaptcha (H := plain_platform)
                           (mem_create (Some one_byte) (Some "c13"))
                           (mkDraws (2 ^ 1073) "uuid-13" 0)) ∅))
              None 10 Hrand eq_refl tol_absent
              (conj (proj1 (Z.leb_le 0 10) eq_refl) eq_refl))
    as (Hrange & _ & Hsolve).
  split; [exact Hrange | exact Hsolve].
Defined.

(** ** What [verifyCaptcha] does to the storage *)

(** The run of [verifyCaptcha] on a key-value store, branch by branch. *)
Lemma mem_verify_run
    (σ : gmap string string) (id value : string) (tolerance : option number) :
  let r := run (verifyCaptcha (mem_verify id value tolerance)) σ in
  (calls (snd r) = [GetCaptchaValue id] /\ ext (snd r) = σ
   /\ (fst r = Ret VERIFIED -> σ !! id = Some "verified"))
  \/ (calls (snd r)
        = [GetCaptchaValue id; ChangeCaptchaIdOnSuccess id "verified"]
      /\ ext (snd r) = <[id := "verified"]> σ
      /\ fst r = Ret VERIFIED).
Proof.
  unfold run, verifyCaptcha, verifyCaptcha_try, try_catch, mbind, Async_bind,
    invoke, mem_verify, mem_get, mem_set.
  cbn -[num_le num_or num_sub Math_abs parseInt String.eqb].
  destruct (σ !! id) as [stored |] eqn:Hσ;
    cbn -[num_le num_or num_sub Math_abs parseInt String.eqb];
    [| left; repeat split; discriminate].
  destruct (str_truthy stored);
    cbn -[num_le num_or num_sub Math_abs parseInt String.eqb];
    [| left; repeat split; discriminate].
  destruct (String.eqb_spec stored ON_VERIFY_CAPTCHA_VALUE) as [-> | _];
    [left; repeat split |].
  destruct (isNaN _ || isNaN _); [left; repeat split; discriminate |].
  destruct (num_le _ _); [right | left]; repeat split; discriminate.
Qed.

(** X14: on a key-value store, [verifyCaptcha] returns [{success:
    true}] exactly when the value stored for the identifier afterwards
    is the one [hasCaptchaBeenVerified] recognises: the result of a
    verification and the later check of the stored value never
    disagree. *)
Theorem X14_success_iff_stored_value_is_verified
    (σ : gmap string string) (id value : string) (tolerance : option number) :
  fst (run (verifyCaptcha (mem_verify id value tolerance)) σ)
    = Ret {| success := true; reason := None |}
  <-> exists stored,
        ext (snd (run (verifyCaptcha (mem_verify id value tolerance)) σ)) !! id
          = Some stored
        /\ forall (S : Type) (w : world S),
             hasCaptchaBeenVerified stored w = (Ret true, w).
Proof.
  assert (Hflag : forall stored,
            (forall (S : Type) (w : world S),
                hasCaptchaBeenVerified stored w = (Ret true, w))
            <-> stored = "verified").
  { intros stored. split.
    - intros Hall.
      apply (hasCaptchaBeenVerified_iff stored (mkWorld tt [])), Hall.
    - intros -> S w. apply hasCaptchaBeenVerified_iff. reflexivity. }
  destruct (mem_verify_run σ id value tolerance)
    as [(_ & Hext & Hok) | (_ & Hext & Hok)]; cbv zeta in *.
  - rewrite Hext. split.
    + intros Hs. exists "verified". split; [exact (Hok Hs) |].
      apply Hflag. reflexivity.
    + intros (stored & Hσ & Hv). apply Hflag in Hv. subst stored.
      unfold run.
      rewrite (verify_sentinel (mem_verify id value tolerance)
                 (mkWorld σ []) σ (f_equal (fun o => (Ret o, σ)) Hσ)).
      reflexivity.
  - rewrite Hext, Hok. split; [| reflexivity].
    intros _. exists "verified". split; [apply lookup_insert_eq |].
    apply Hflag. reflexivity.
Qed.

(** X15: whatever its arguments, [verifyCaptcha] calls the retrieval
    function once, first, then at most the mark-verified function, once
    and with ["verified"]: it never reads twice and never writes
    anything but the sentinel. *)
Theorem X15_verify_call_discipline
    {S : Type} (props : VerifyCaptchaProps.t S) (σ : S) :
  calls (snd (run (verifyCaptcha props) σ))
    = [GetCaptchaValue (VerifyCaptchaProps.captchaId props)]
  \/ calls (snd (run (verifyCaptcha props) σ))
     = [GetCaptchaValue (VerifyCaptchaProps.captchaId props);
        ChangeCaptchaIdOnSuccess (VerifyCaptchaProps.captchaId props)
          "verified"].
Proof.
  unfold run. unfold_verify. cbn [ext calls app].
  destruct (VerifyCaptchaProps.getCaptchaValue _ _ _) as [[stored | e] s1];
    [| left; reflexivity].
  destruct (negb (truthy stored)); [left; reflexivity |].
  destruct (String.eqb _ _); [left; reflexivity |].
  destruct (isNaN _ || isNaN _); [left; reflexivity |].
  destruct (num_le _ _); [| left; reflexivity].
  cbn [ext calls app].
  destruct (VerifyCaptchaProps.changeCaptchaIdOnSuccess _ _ _ _)
    as [[[] | e] s2]; right; reflexivity.
Qed.

(** X16: on a key-value store, [verifyCaptcha] leaves the entries of
    all other identifiers as they are, and the entry of its own
    identifier either as it is or holding ["verified"]. *)
Theorem X16_verify_touches_its_own_entry_only
    (σ : gmap string string) (id value other : string)
    (tolerance : option number) :
  other <> id ->
  ext (snd (run (verifyCaptcha (mem_verify id value tolerance)) σ)) !! other
    = σ !! other
  /\ (ext (snd (run (verifyCaptcha (mem_verify id value tolerance)) σ)) !! id
        = σ !! id
      \/ ext (snd (run (verifyCaptcha (mem_verify id value tolerance)) σ))
           !! id = Some "verified").
Proof.
  intros Hne.
  destruct (mem_verify_run σ id value tolerance)
    as [(_ & Hext & _) | (_ & Hext & _)]; cbv zeta in *; rewrite Hext.
  - split; [reflexivity | left; reflexivity].
  - split; [apply lookup_insert_ne; congruence |].
    right. apply lookup_insert_eq.
Qed.

Lemma X16_verify_touches_its_own_entry_only_witness :
  ext (snd (run (verifyCaptcha (mem_verify "a" "100" None))
              {["a" := "100"; "b" := "200"]})) !! "b"
    = ({["a" := "100"; "b" := "200"]} : gmap string string) !! "b"
  /\ (ext (snd (run (verifyCaptcha (mem_verify "a" "100" None))
                  {["a" := "100"; "b" := "200"]})) !! "a"
        = ({["a" := "100"; "b" := "200"]} : gmap string string) !! "a"
      \/ ext (snd (run (verifyCaptcha (mem_verify "a" "100" None))
                     {["a" := "100"; "b" := "200"]})) !! "a"
         = Some "verified").
Proof.
  apply (X16_verify_touches_its_own_entry_only
           {["a" := "100"; "b" := "200"]} "a" "100" "b" None).
  discriminate.
Defined.

(** X17: on a key-value store, a [verifyCaptcha] that does not succeed
    (unknown identifier, values that do not parse, a position out of
    tolerance) changes nothing: the secret stays in place for the next
    attempt. *)
Theorem X17_unsuccessful_verify_changes_nothing
    (σ : gmap string string) (id value : string) (tolerance : option number)
    (r : VerificationResult) :
  fst (run (verifyCaptcha (mem_verify id value tolerance)) σ) = Ret r ->
  success r = false ->
  run (verifyCaptcha (mem_verify id value tolerance)) σ
    = (Ret r, mkWorld σ [GetCaptchaValue id]).
Proof.
  intros Hr Hfail.
  destruct (mem_verify_run σ id value tolerance)
    as [(Hcalls & Hext & _) | (_ & _ & Hok)]; cbv zeta in *.
  - destruct (run (verifyCaptcha (mem_verify id value tolerance)) σ)
      as [o [s l]]. cbn [fst snd ext calls] in *. subst. reflexivity.
  - rewrite Hok in Hr. injection Hr as <-. discriminate Hfail.
Qed.

Lemma X17_unsuccessful_verify_changes_nothing_witness :
  run (verifyCaptcha (mem_verify "c17" "10" None)) {["c17" := "100"]}
    = (Ret {| success := false;
              reason := Some "Please position the puzzle piece correctly" |},
       mkWorld {["c17" := "100"]} [GetCaptchaValue "c17"]).
Proof.
  apply (X17_unsuccessful_verify_changes_nothing {["c17" := "100"]} "c17"
           "10" None).
  - reflexivity.
  - reflexivity.
Defined.

(** X18: with a negative tolerance no submission verifies a pending
    challenge: a negative number is truthy, so it is not replaced by 10,
    and no distance is below it. *)
Theorem X18_negative_tolerance_never_verifies
    {S : Type} (props : VerifyCaptchaProps.t S) (σ σ1 : S)
    (stored : string) (s u t : Z) :
  VerifyCaptchaProps.getCaptchaValue props
    (VerifyCaptchaProps.captchaId props) σ = (Ret (Some stored), σ1) ->
  parseInt stored = Num s ->
  parseInt (VerifyCaptchaProps.value props) = Num u ->
  VerifyCaptchaProps.tolerance props = Some (Num t) ->
  t < 0 ->
  run (verifyCaptcha props) σ
    = (Ret {| success := false;
              reason := Some "Please position the puzzle piece correctly" |},
       mkWorld σ1 [GetCaptchaValue (VerifyCaptchaProps.captchaId props)]).
Proof.
  intros Hget Hs Hu Htol Ht. unfold run.
  rewrite (verify_compared props (mkWorld σ []) stored σ1 s u Hget Hs Hu).
  rewrite Htol.
  rewrite (num_or_effective (Some (Num t)) t (tol_given t ltac:(lia))).
  rewrite (compare_exact s u t ltac:(change (2 ^ 53) with 9007199254740992; lia)).
  destruct (Z.leb_spec (Z.abs (s - u)) t); [lia | reflexivity].
Qed.

Lemma X18_negative_tolerance_never_verifies_witness :
  run (verifyCaptcha (mem_verify "c18" "100" (Some (Num (-1)))))
    {["c18" := "100"]}
    = (Ret {| success := false;
              reason := Some "Please position the puzzle piece correctly" |},
       mkWorld {["c18" := "100"]} [GetCaptchaValue "c18"]).
Proof.
  apply (X18_negative_tolerance_never_verifies
           (mem_verify "c18" "100" (Some (Num (-1))))
           {["c18" := "100"]} {["c18" := "100"]} "100" 100 100 (-1)).
  - reflexivity.
  - reflexivity.
  - reflexivity.
  - reflexivity.
  - reflexivity.
Defined.

(** ** The handlers of the client component *)

Lemma verify_without_id
    {S : Type} (props : CustomCaptchaProps.t S) (w : ui_world S) :
  has_id (captcha (ui_state w)) = false ->
  verify props w = (Ret tt, w).
Proof.
  intros Hid. unfold_ui. destruct w as [st σ l]. cbn [ui_state] in *.
  destruct (captcha st) as [data |]; [| reflexivity].
  cbn [has_id] in Hid. rewrite Hid. reflexivity.
Qed.

(** X19: without a captcha, or with one whose identifier is empty, the
    verify handler does nothing: the [verifyCaptcha] prop is not called
    and no cell changes. *)
Theorem X19_verify_needs_an_identifier
    {S : Type} (props : CustomCaptchaProps.t S) (w : ui_world S) :
  captcha (ui_state w) = None
  \/ (exists data, captcha (ui_state w) = Some data /\ id data = "") ->
  verify props w = (Ret tt, w).
Proof.
  intros Hid. apply verify_without_id.
  destruct Hid as [-> | (data & -> & Hd)]; [reflexivity |].
  cbn [has_id]. rewrite Hd. reflexivity.
Qed.

Lemma X19_verify_needs_an_identifier_witness :
  verify
    (CustomCaptchaProps.mk false
       (fun σ : unit => (Throw OtherExn, σ))
       (fun _ _ σ => (Throw OtherExn, σ)))
    (mkUi initial_state tt [])
  = (Ret tt, mkUi initial_state tt []).
Proof.
  apply (X19_verify_needs_an_identifier
           (CustomCaptchaProps.mk false
              (fun σ : unit => (Throw OtherExn, σ))
              (fun _ _ σ => (Throw OtherExn, σ)))
           (mkUi initial_state tt [])).
  left. reflexivity.
Defined.

Section VerifyHandler.
Context {S : Type}.
Variable props : CustomCaptchaProps.t S.
Variable st : ClientState.
Variable σ σ1 : S.
Variable data : CaptchaData.
Variable res : VerifyResponse.

Hypothesis Hcaptcha : captcha st = Some data.
Hypothesis Hid : id data <> "".
Hypothesis Hcall :
  CustomCaptchaProps.verifyCaptcha props (id data)
    (toString (sliderValue st)) σ = (Ret res, σ1).

(** The verify handler, once the answer of the [verifyCaptcha] prop is
    known. *)
Lemma verify_answered :
  verify props (mkUi st σ []) =
    (Ret tt,
     mkUi (if truthy (res_error res)
           then setError (res_error res) (setCorrect false st)
           else match res_success res with
                | Some true => setCaptchaOpen false (setCorrect true st)
                | _ => st
                end)
       σ1 [VerifyCaptcha (id data) (toString (sliderValue st))]).
Proof using Hcaptcha Hid Hcall.
  unfold_ui. rewrite Hcaptcha.
  assert (Ht : str_truthy (id data) = true)
    by (destruct (id data); [contradiction | reflexivity]).
  rewrite Ht. cbn [negb ui_state ui_ext ui_calls app]. rewrite Hcall.
  destruct (truthy (res_error res)); [reflexivity |].
  destruct (res_success res) as [[] |]; reflexivity.
Qed.

End VerifyHandler.

(** X20: when the answer of the [verifyCaptcha] prop carries an error
    message, the verify handler unchecks the box and shows the message,
    whatever the [success] field of the answer says; the slider, the
    captcha and the open container stay as they are. *)
Theorem X20_error_wins_over_success
    {S : Type} (props : CustomCaptchaProps.t S) (st : ClientState)
    (σ σ1 : S) (data : CaptchaData) (flag : option bool) (msg : string) :
  captcha st = Some data ->
  id data <> "" ->
  msg <> "" ->
  CustomCaptchaProps.verifyCaptcha props (id data)
    (toString (sliderValue st)) σ
    = (Ret {| res_success := flag; res_error := Some msg |}, σ1) ->
  verify props (mkUi st σ [])
    = (Ret tt,
       mkUi {| correct := false; captcha := captcha st;
               sliderValue := sliderValue st; captchaOpen := captchaOpen st;
               error := Some msg |}
         σ1 [VerifyCaptcha (id data) (toString (sliderValue st))]).
Proof.
  intros Hc Hid Hmsg Hcall.
  rewrite (verify_answered props st σ σ1 data _ Hc Hid Hcall).
  cbn [res_error truthy].
  destruct msg; [contradiction | reflexivity].
Qed.

Lemma X20_error_wins_over_success_witness :
  verify
    (CustomCaptchaProps.mk false
       (fun σ : unit => (Throw OtherExn, σ))
       (fun _ _ σ =>
          (Ret {| res_success := Some true; res_error := Some "expired" |},
           σ)))
    (mkUi {| correct := true;
             captcha := Some {| puzzle := "p"; background := "b";
                                id := "c20" |};
             sliderValue := 120; captchaOpen := true; error := None |}
       tt [])
  = (Ret tt,
     mkUi {| correct := false;
             captcha := Some {| puzzle := "p"; background := "b";
                                id := "c20" |};
             sliderValue := 120; captchaOpen := true;
             error := Some "expired" |}
       tt [VerifyCaptcha "c20" "120"]).
Proof.
  apply (X20_error_wins_over_success
           (CustomCaptchaProps.mk false
              (fun σ : unit => (Throw OtherExn, σ))
              (fun _ _ σ =>
                 (Ret {| res_success := Some true;
                         res_error := Some "expired" |}, σ)))
           {| correct := true;
              captcha := Some {| puzzle := "p"; background := "b";
                                 id := "c20" |};
              sliderValue := 120; captchaOpen := true; error := None |}
           tt tt {| puzzle := "p"; background := "b"; id := "c20" |}
           (Some true) "expired").
  - reflexivity.
  - discriminate.
  - discriminate.
  - reflexivity.
Defined.

(** X21: when the answer carries no error message and [success] is
    true, the verify handler checks the box and closes the container;
    it does not touch the error cell, so a message shown before stays
    stored. *)
Theorem X21_success_checks_and_closes
    {S : Type} (props : CustomCaptchaProps.t S) (st : ClientState)
    (σ σ1 : S) (data : CaptchaData) (res : VerifyResponse) :
  captcha st = Some data ->
  id data <> "" ->
  CustomCaptchaProps.verifyCaptcha props (id data)
    (toString (sliderValue st)) σ = (Ret res, σ1) ->
  truthy (res_error res) = false ->
  res_success res = Some true ->
  verify props (mkUi st σ [])
    = (Ret tt,
       mkUi {| correct := true; captcha := captcha st;
               sliderValue := sliderValue st; captchaOpen := false;
               error := error st |}
         σ1 [VerifyCaptcha (id data) (toString (sliderValue st))]).
Proof.
  intros Hc Hid Hcall Herr Hok.
  rewrite (verify_answered props st σ σ1 data res Hc Hid Hcall), Herr, Hok.
  reflexivity.
Qed.

Lemma X21_success_checks_and_closes_witness :
  verify
    (CustomCaptchaProps.mk false
       (fun σ : unit => (Throw OtherExn, σ))
       (fun _ _ σ =>
          (Ret {| res_success := Some true; res_error := None |}, σ)))
    (mkUi {| correct := false;
             captcha := Some {| puzzle := "p"; background := "b";
                                id := "c21" |};
             sliderValue := 120; captchaOpen := true;
             error := Some "try again" |}
       tt [])
  = (Ret tt,
     mkUi {| correct := true;
             captcha := Some {| puzzle := "p"; background := "b";
                                id := "c21" |};
             sliderValue := 120; captchaOpen := false;
             error := Some "try again" |}
       tt [VerifyCaptcha "c21" "120"]).
Proof.
  apply (X21_success_checks_and_closes
           (CustomCaptchaProps.mk false
              (fun σ : unit => (Throw OtherExn, σ))
              (fun _ _ σ =>
                 (Ret {| res_success := Some true; res_error := None |}, σ)))
           {| correct := false;
              captcha := Some {| puzzle := "p"; background := "b";
                                 id := "c21" |};
              sliderValue := 120; captchaOpen := true;
              error := Some "try again" |}
           tt tt {| puzzle := "p"; background := "b"; id := "c21" |}
           {| res_success := Some true; res_error := None |}).
  - reflexivity.
  - discriminate.
  - reflexivity.
  - reflexivity.
  - reflexivity.
Defined.

(** X22: when the answer carries neither an error message nor a true
    [success] (such as [{success: false}] with a reason in another
    field), the verify handler changes no cell: the box stays as it was
    and no message is shown. *)
Theorem X22_plain_failure_shows_nothing
    {S : Type} (props : CustomCaptchaProps.t S) (st : ClientState)
    (σ σ1 : S) (data : CaptchaData) (res : VerifyResponse) :
  captcha st = Some data ->
  id data <> "" ->
  CustomCaptchaProps.verifyCaptcha props (id data)
    (toString (sliderValue st)) σ = (Ret res, σ1) ->
  truthy (res_error res) = false ->
  res_success res <> Some true ->
  verify props (mkUi st σ [])
    = (Ret tt,
       mkUi st σ1 [VerifyCaptcha (id data) (toString (sliderValue st))]).
Proof.
  intros Hc Hid Hcall Herr Hok.
  rewrite (verify_answered props st σ σ1 data res Hc Hid Hcall), Herr.
  destruct (res_success res) as [[] |]; [contradiction | reflexivity ..].
Qed.

Lemma X22_plain_failure_shows_nothing_witness :
  verify
    (CustomCaptchaProps.mk false
       (fun σ : unit => (Throw OtherExn, σ))
       (fun _ _ σ =>
          (Ret {| res_success := Some false; res_error := None |}, σ)))
    (mkUi {| correct := false;
             captcha := Some {| puzzle := "p"; background := "b";
                                id := "c22" |};
             sliderValue := 10; captchaOpen := true; error := None |}
       tt [])
  = (Ret tt,
     mkUi {| correct := false;
             captcha := Some {| puzzle := "p"; background := "b";
                                id := "c22" |};
             sliderValue := 10; captchaOpen := true; error := None |}
       tt [VerifyCaptcha "c22" "10"]).
Proof.
  apply (X22_plain_failure_shows_nothing
           (CustomCaptchaProps.mk false
              (fun σ : unit => (Throw OtherExn, σ))
              (fun _ _ σ =>
                 (Ret {| res_success := Some false; res_error := None |}, σ)))
           {| correct := false;
              captcha := Some {| puzzle := "p"; background := "b";
                                 id := "c22" |};
              sliderValue := 10; captchaOpen := true; error := None |}
           tt tt {| puzzle := "p"; background := "b"; id := "c22" |}
           {| res_success := Some false; res_error := None |}).
  - reflexivity.
  - discriminate.
  - reflexivity.
  - reflexivity.
  - discriminate.
Defined.

(** X23: the refresh handler puts the slider back to 0, clears the
    message and unchecks the box before it asks for a captcha; when the
    [refreshCaptcha] prop returns, the new captcha replaces the old one;
    when it throws, the handler throws too, and the old captcha stays
    with the slider at 0. *)
Theorem X23_refresh_resets_before_it_asks
    {S : Type} (props : CustomCaptchaProps.t S) (st : ClientState)
    (σ σ1 : S) (r : outcome CaptchaData) :
  CustomCaptchaProps.refreshCaptcha props σ = (r, σ1) ->
  _refreshCaptcha props (mkUi st σ [])
    = match r with
      | Ret refreshed =>
          (Ret tt,
           mkUi {| correct := false; captcha := Some refreshed;
                   sliderValue := 0; captchaOpen := captchaOpen st;
                   error := None |}
             σ1 [RefreshCaptcha])
      | Throw e =>
          (Throw e,
           mkUi {| correct := false; captcha := captcha st;
                   sliderValue := 0; captchaOpen := captchaOpen st;
                   error := None |}
             σ1 [RefreshCaptcha])
      end.
Proof.
  intros Hcall. unfold_ui. rewrite Hcall. destruct r; reflexivity.
Qed.

Lemma X23_refresh_resets_before_it_asks_witness :
  _refreshCaptcha
    (CustomCaptchaProps.mk false
       (fun σ : unit => (Throw (ErrorExn "offline"), σ))
       (fun _ _ σ => (Throw OtherExn, σ)))
    (mkUi {| correct := true;
             captcha := Some {| puzzle := "p"; background := "b";
                                id := "c23" |};
             sliderValue := 120; captchaOpen := true;
             error := Some "expired" |}
       tt [])
  = (Throw (ErrorExn "offline"),
     mkUi {| correct := false;
             captcha := Some {| puzzle := "p"; background := "b";
                                id := "c23" |};
             sliderValue := 0; captchaOpen := true; error := None |}
       tt [RefreshCaptcha]).
Proof.
  apply (X23_refresh_resets_before_it_asks
           (CustomCaptchaProps.mk false
              (fun σ : unit => (Throw (ErrorExn "offline"), σ))
              (fun _ _ σ => (Throw OtherExn, σ)))
           {| correct := true;
              captcha := Some {| puzzle := "p"; background := "b";
                                 id := "c23" |};
              sliderValue := 120; captchaOpen := true;
              error := Some "expired" |}
           tt tt (Throw (ErrorExn "offline"))).
  reflexivity.
Defined.

(** X24: the checkbox handler never throws, sets the container open or
    closed as the box says, and asks for a captcha exactly when there
    is none with an identifier and the component is not loading. *)
Theorem X24_checkbox_opens_and_fetches_once_needed
    {S : Type} (props : CustomCaptchaProps.t S) (w : ui_world S)
    (checked : bool) :
  fst (handleCheckChange props checked w) = Ret tt
  /\ captchaOpen (ui_state (snd (handleCheckChange props checked w)))
     = checked
  /\ ui_calls (snd (handleCheckChange props checked w))
     = (ui_calls w
        ++ if negb (has_id (captcha (ui_state w)))
              && negb (CustomCaptchaProps.loading props)
           then [RefreshCaptcha] else [])%list.
Proof.
  unfold_ui. destruct w as [st σ l]. cbn [ui_state ui_ext ui_calls].
  destruct (negb (has_id (captcha st)) && negb _);
    cbn [fst snd ui_state ui_ext ui_calls].
  - destruct (CustomCaptchaProps.refreshCaptcha props σ) as [[c | e] σ1];
      repeat split; reflexivity.
  - repeat split. symmetry. apply app_nil_r.
Qed.

(** ** Sessions of the client component *)

Section SessionInvariants.
Context {S : Type}.

Lemma dispatch_checked_over_captcha
    (props : CustomCaptchaProps.t S) (ev : event) (w : ui_world S) :
  checked_over_captcha w -> checked_over_captcha (snd (dispatch props ev w)).
Proof.
  unfold checked_over_captcha. destruct w as [st σ l].
  cbn [ui_state ui_calls]. intros [Hc Hl].
  assert (Hrefresh : forall st',
            (correct (ui_state (snd (_refreshCaptcha props (mkUi st' σ l))))
               = true ->
             has_id (captcha (ui_state
                                (snd (_refreshCaptcha props (mkUi st' σ l)))))
               = true)
            /\ Forall (fun c => match c with
                                | VerifyCaptcha i _ => i <> ""
                                | RefreshCaptcha => True
                                end)
                 (ui_calls (snd (_refreshCaptcha props (mkUi st' σ l))))).
  { intros st'. unfold_ui.
    destruct (CustomCaptchaProps.refreshCaptcha props σ) as [[c | e] σ1];
      cbn; (split; [intros Hx; discriminate Hx |]);
      apply Forall_app; split; auto. }
  destruct ev as [checked | v | |].
  - unfold dispatch, handleCheckChange, read_state, update, detached, mbind,
      UI_bind, mret, UI_ret. cbn [ui_state ui_ext ui_calls fst snd].
    destruct (negb (has_id (captcha st)) && negb _); cbn [fst snd].
    + apply Hrefresh.
    + split; assumption.
  - split; assumption.
  - unfold dispatch.
    destruct (CustomCaptchaProps.loading props);
      [split; assumption | apply Hrefresh].
  - unfold dispatch, read_state, mbind, UI_bind, mret, UI_ret.
    cbn [ui_state ui_ext ui_calls fst snd].
    destruct (CustomCaptchaProps.loading props); cbn [orb];
      [split; assumption |].
    destruct (captcha st) as [data |] eqn:Hcap; cbn [orb fst snd];
      [| split; cbn [ui_state ui_calls]; [rewrite Hcap |]; assumption].
    destruct (str_truthy (id data)) eqn:Hid.
    + assert (Hne : id data <> "") by (destruct (id data); discriminate).
      destruct (CustomCaptchaProps.verifyCaptcha props (id data)
                  (toString (sliderValue st)) σ) as [r σ1] eqn:Hcall.
      assert (Hlog : Forall (fun c => match c with
                                      | VerifyCaptcha i _ => i <> ""
                                      | RefreshCaptcha => True
                                      end)
                       (l ++ [VerifyCaptcha (id data)
                                (toString (sliderValue st))]))
        by (apply Forall_app; split; auto).
      destruct r as [res | e].
      * assert (Hl0 : verify props (mkUi st σ l)
                      = (Ret tt,
                         mkUi (if truthy (res_error res)
                               then setError (res_error res)
                                      (setCorrect false st)
                               else match res_success res with
                                    | Some true =>
                                        setCaptchaOpen false
                                          (setCorrect true st)
                                    | _ => st
                                    end)
                           σ1 (l ++ [VerifyCaptcha (id data)
                                       (toString (sliderValue st))]))).
        { unfold_ui. rewrite Hcap, Hid. cbn [negb ui_state ui_ext ui_calls].
          rewrite Hcall. destruct (truthy (res_error res)); [reflexivity |].
          destruct (res_success res) as [[] |]; reflexivity. }
        rewrite Hl0. cbn [snd ui_state ui_calls]. split; [| exact Hlog].
        destruct (truthy (res_error res)); [intros Hx; discriminate Hx |].
        destruct (res_success res) as [[] |]; cbn.
        -- intros _. rewrite Hcap. exact Hid.
        -- rewrite Hcap. exact Hc.
        -- rewrite Hcap. exact Hc.
      * assert (Hl0 : verify props (mkUi st σ l)
                      = (Throw e,
                         mkUi st σ1
                           (l ++ [VerifyCaptcha (id data)
                                    (toString (sliderValue st))]))).
        { unfold_ui. rewrite Hcap, Hid. cbn [negb ui_state ui_ext ui_calls].
          rewrite Hcall. reflexivity. }
        rewrite Hl0. cbn [snd ui_state ui_calls].
        split; [rewrite Hcap; exact Hc | exact Hlog].
    + rewrite (verify_without_id props (mkUi st σ l))
        by (cbn [ui_state]; rewrite Hcap; exact Hid).
      cbn [snd ui_state ui_calls].
      split; [rewrite Hcap; exact Hc | exact Hl].
Qed.

Lemma dispatch_slider_in_range
    (props : CustomCaptchaProps.t S) (ev : event) (w : ui_world S) :
  match ev with SliderChange v => 0 <= v <= 250 | _ => True end ->
  slider_in_range w -> slider_in_range (snd (dispatch props ev w)).
Proof.
  unfold slider_in_range. destruct w as [st σ l].
  cbn [ui_state ui_calls]. intros Hev [Hs Hl].
  assert (Hrefresh : forall st',
            0 <= sliderValue (ui_state
                                (snd (_refreshCaptcha props (mkUi st' σ l))))
              <= 250
            /\ Forall (fun c => match c with
                                | VerifyCaptcha _ v =>
                                    exists n, 0 <= n <= 250 /\ v = toString n
                                | RefreshCaptcha => True
                                end)
                 (ui_calls (snd (_refreshCaptcha props (mkUi st' σ l))))).
  { intros st'. unfold_ui.
    destruct (CustomCaptchaProps.refreshCaptcha props σ) as [[c | e] σ1];
      cbn; (split; [lia |]); apply Forall_app; split; auto. }
  destruct ev as [checked | v | |].
  - unfold dispatch, handleCheckChange, read_state, update, detached, mbind,
      UI_bind, mret, UI_ret. cbn [ui_state ui_ext ui_calls fst snd].
    destruct (negb (has_id (captcha st)) && negb _); cbn [fst snd].
    + apply Hrefresh.
    + split; assumption.
  - split; [exact Hev | exact Hl].
  - unfold dispatch.
    destruct (CustomCaptchaProps.loading props);
      [split; assumption | apply Hrefresh].
  - unfold dispatch, read_state, mbind, UI_bind, mret, UI_ret.
    cbn [ui_state ui_ext ui_calls fst snd].
    destruct (CustomCaptchaProps.loading props); cbn [orb];
      [split; assumption |].
    destruct (captcha st) as [data |] eqn:Hcap; cbn [orb fst snd];
      [| split; assumption].
    destruct (str_truthy (id data)) eqn:Hid.
    + destruct (CustomCaptchaProps.verifyCaptcha props (id data)
                  (toString (sliderValue st)) σ) as [r σ1] eqn:Hcall.
      assert (Hlog : Forall (fun c => match c with
                                      | VerifyCaptcha _ v =>
                                          exists n,
                                            0 <= n <= 250 /\ v = toString n
                                      | RefreshCaptcha => True
                                      end)
                       (l ++ [VerifyCaptcha (id data)
                                (toString (sliderValue st))])).
      { apply Forall_app; split; [exact Hl |]. constructor; [| constructor].
        exists (sliderValue st). split; [exact Hs | reflexivity]. }
      assert (Hl0 : exists st',
                 snd (verify props (mkUi st σ l))
                 = mkUi st' σ1
                     (l ++ [VerifyCaptcha (id data)
                              (toString (sliderValue st))])
                 /\ sliderValue st' = sliderValue st).
      { unfold_ui. rewrite Hcap, Hid. cbn [negb ui_state ui_ext ui_calls].
        rewrite Hcall. destruct r as [res | e]; [| eexists; split; reflexivity].
        destruct (truthy (res_error res)); [eexists; split; reflexivity |].
        destruct (res_success res) as [[] |]; eexists; split; reflexivity. }
      destruct Hl0 as (st' & -> & Hsl). cbn [ui_state ui_calls].
      rewrite Hsl. split; assumption.
    + rewrite (verify_without_id props (mkUi st σ l))
        by (cbn [ui_state]; rewrite Hcap; exact Hid).
      split; assumption.
Qed.

Lemma session_checked_over_captcha
    (trace : list (CustomCaptchaProps.t S * event)) (w : ui_world S) :
  checked_over_captcha w -> checked_over_captcha (session trace w).
Proof.
  revert w. induction trace as [| [props ev] rest IH]; intros w Hw.
  - exact Hw.
  - cbn [session]. apply IH. apply dispatch_checked_over_captcha. exact Hw.
Qed.

Lemma session_slider_in_range
    (trace : list (CustomCaptchaProps.t S * event)) (w : ui_world S) :
  Forall (fun pe => match snd pe with
                    | SliderChange v => 0 <= v <= 250
                    | _ => True
                    end) trace ->
  slider_in_range w -> slider_in_range (session trace w).
Proof.
  revert w. induction trace as [| [props ev] rest IH]; intros w Ht Hw.
  - exact Hw.
  - cbn [session]. inversion Ht as [| pe rest' Hev Hrest]; subst.
    apply IH; [exact Hrest |].
    apply dispatch_slider_in_range; [exact Hev | exact Hw].
Qed.

(** X25: in every session of the component, from its initial state and
    whatever the props do, the box is checked only while the component
    holds a captcha with an identifier, and the [verifyCaptcha] prop is
    never called with an empty identifier. *)
Theorem X25_checked_box_has_a_captcha_behind_it
    (trace : list (CustomCaptchaProps.t S * event)) (σ : S) :
  (correct (ui_state (session trace (mkUi initial_state σ []))) = true ->
   exists data,
     captcha (ui_state (session trace (mkUi initial_state σ [])))
       = Some data
     /\ id data <> "")
  /\ (forall i v,
        In (VerifyCaptcha i v)
          (ui_calls (session trace (mkUi initial_state σ []))) ->
        i <> "").
Proof.
  destruct (session_checked_over_captcha trace (mkUi initial_state σ []))
    as [Hc Hl].
  { split; [discriminate | constructor]. }
  split.
  - intros Hcorrect. specialize (Hc Hcorrect).
    destruct (captcha _) as [data |]; [| discriminate Hc].
    exists data. split; [reflexivity |]. cbn [has_id] in Hc.
    destruct (id data); [discriminate Hc | discriminate].
  - intros i v Hin. rewrite Forall_forall in Hl.
    apply list_elem_of_In in Hin. exact (Hl _ Hin).
Qed.

(** X26: in every session in which the slider only takes positions
    from 0 to 250, as a range input with these bounds does, every value
    the component sends for verification is the decimal string of such
    a position, which [parseInt] on the server reads back as that
    position: the component never sends a value that does not parse. *)
Theorem X26_submitted_values_parse
    (trace : list (CustomCaptchaProps.t S * event)) (σ : S) :
  Forall (fun pe => match snd pe with
                    | SliderChange v => 0 <= v <= 250
                    | _ => True
                    end) trace ->
  forall i v,
    In (VerifyCaptcha i v)
      (ui_calls (session trace (mkUi initial_state σ []))) ->
    exists n, 0 <= n <= 250 /\ v = toString n /\ parseInt v = Num n.
Proof.
  intros Htrace i v Hin.
  destruct (session_slider_in_range trace (mkUi initial_state σ []) Htrace)
    as [_ Hl].
  { split; [cbn; lia | constructor]. }
  rewrite Forall_forall in Hl. apply list_elem_of_In in Hin.
  destruct (Hl _ Hin) as (n & Hn & ->).
  exists n. split; [exact Hn |]. split; [reflexivity |].
  apply toString_parseInt_slider. exact Hn.
Qed.

End SessionInvariants.

Example demo_session :
  session demo_trace (mkUi initial_state tt [])
    = mkUi {| correct := true;
              captcha := Some {| puzzle := "p"; background := "b";
                                 id := "c26" |};
              sliderValue := 120; captchaOpen := false; error := None |}
        tt [RefreshCaptcha; VerifyCaptcha "c26" "120"].
Proof. reflexivity. Qed.

Lemma X26_submitted_values_parse_witness :
  Forall (fun c => match c with
                   | VerifyCaptcha _ v =>
                       exists n,
                         0 <= n <= 250 /\ v = toString n /\ parseInt v = Num n
                   | RefreshCaptcha => True
                   end)
    (ui_calls (session demo_trace (mkUi initial_state tt []))).
Proof.
  apply Forall_forall. intros c Hc. apply list_elem_of_In in Hc.
  destruct c as [| i v]; [exact I |]. revert i v Hc.
  apply (X26_submitted_values_parse demo_trace tt).
  repeat constructor; cbn; lia.
Defined.
